(** * Anesthesia gas-safety monitor: the two evaluation functions of
    [Project/app.py], embedded over binary64 floats.

    [analyze_gas_mixer] and [clinical_adjustment] are translated line by
    line.  Python's [float] is IEEE-754 binary64 with round-to-nearest-even,
    which is what Rocq's primitive [float] is, so [+], [*], [/], [<] and
    [==] below are the operations CPython executes.  The one operation of
    the source that can raise, the true division, is fallible here.  The
    flows and the agent percentage are floats, as the signature says; the
    patient dictionary is a record of its four integer entries; the clock
    reading that ends up in the timestamp is an argument. *)

From Stdlib Require Import ZArith List String Ascii Bool Lia.
From Stdlib Require Import DecimalString.
From Stdlib Require DecimalFacts DecimalN.
From Stdlib Require Import Floats.
Import ListNotations.

Set Warnings "-inexact-float,-register-all".

Local Open Scope string_scope.
Local Open Scope float_scope.

(** ** Python exceptions as an error monad *)

Inductive PyExn : Type :=
| ZeroDivisionError.

Inductive Py (A : Type) : Type :=
| Return (a : A)
| Raise (e : PyExn).

Arguments Return {A} a.
Arguments Raise {A} e.

Definition bind {A B : Type} (c : Py A) (k : A -> Py B) : Py B :=
  match c with
  | Return a => k a
  | Raise e => Raise e
  end.

Notation "x <- c ;; k" := (bind c (fun x => k))
  (at level 61, c at next level, right associativity).

(** [x / y] on Python floats: raises when the divisor compares equal to
    zero (either sign), otherwise the IEEE quotient. *)
Definition py_truediv (x y : float) : Py float :=
  if y =? 0 then Raise ZeroDivisionError else Return (x / y).

(** ** Data model *)

Inductive Status : Type := PASS | FAIL.
Inductive Category : Type := SAFE | WARNING | CRITICAL.

Definition Category_eqb (a b : Category) : bool :=
  match a, b with
  | SAFE, SAFE | WARNING, WARNING | CRITICAL, CRITICAL => true
  | _, _ => false
  end.

Record Metrics : Type := { fio2 : float; total_flow : float }.

Record AnalysisResult : Type := {
  status : Status;
  category : Category;
  metrics : Metrics;
  alerts : list string;
  warnings : list string;
  timestamp : string
}.

(** ** Rendering floats as text

    The messages interpolate floats in two ways: [f"{x:.1f}"] (fixed
    notation, one fractional digit, the exact binary value rounded half to
    even) and [f"{x}"] (the shortest decimal text that reads back as the
    same float, Python's [repr]).  Both are computed on the exact value
    [m * 2^e] of the float with integer arithmetic. *)

Definition sign_str (s : bool) : string := if s then "-" else "".

Definition dec (z : Z) : string := NilZero.string_of_uint (N.to_uint (Z.to_N z)).

(** Quotient [n / d] rounded to the nearest integer, ties to even
    ([0 <= n], [0 < d]). *)
Definition round_half_even_div (n d : Z) : Z :=
  let q := (n / d)%Z in
  match (2 * (n mod d) ?= d)%Z with
  | Lt => q
  | Gt => (q + 1)%Z
  | Eq => if Z.even q then q else (q + 1)%Z
  end.

(** [f"{x:.1f}"] *)
Definition format_1f (x : float) : string :=
  match Prim2SF x with
  | S754_nan => "nan"
  | S754_infinity s => sign_str s ++ "inf"
  | S754_zero s => sign_str s ++ "0.0"
  | S754_finite s m e =>
      let tenths :=
        if (0 <=? e)%Z then (10 * Z.pos m * 2 ^ e)%Z
        else round_half_even_div (10 * Z.pos m) (2 ^ (- e)) in
      sign_str s ++ dec (tenths / 10) ++ "." ++ dec (tenths mod 10)
  end.

Module Repr.

(** Non-negative rationals as numerator and positive denominator. *)
Definition frac : Type := (Z * Z)%type.

Definition frac_leb (a b : frac) : bool := (fst a * snd b <=? fst b * snd a)%Z.
Definition frac_ltb (a b : frac) : bool := (fst a * snd b <? fst b * snd a)%Z.

(** [d * 10^k] *)
Definition scaled (d k : Z) : frac :=
  if (0 <=? k)%Z then ((d * 10 ^ k)%Z, 1%Z) else (d, (10 ^ (- k))%Z).

(** The float [m * 2^e] together with the midpoints to its two
    neighbours, in units of [2^(e-2)]; the lower gap is halved at a
    power of two above the subnormal range. *)
Definition unit_num (e : Z) : Z := (2 ^ Z.max (e - 2) 0)%Z.
Definition unit_den (e : Z) : Z := (2 ^ Z.max (2 - e) 0)%Z.

Definition value (m : positive) (e : Z) : frac :=
  ((4 * Z.pos m * unit_num e)%Z, unit_den e).
Definition low_mid (m : positive) (e : Z) : frac :=
  let gap := if ((Z.pos m =? 2 ^ 52) && (-1074 <? e))%Z%bool then 1%Z else 2%Z in
  (((4 * Z.pos m - gap) * unit_num e)%Z, unit_den e).
Definition high_mid (m : positive) (e : Z) : frac :=
  (((4 * Z.pos m + 2) * unit_num e)%Z, unit_den e).

(** Decimals in the rounding interval read back as the float; the end
    points do when the mantissa is even. *)
Definition reads_back (m : positive) (e : Z) (c : frac) : bool :=
  if Z.even (Z.pos m)
  then frac_leb (low_mid m e) c && frac_leb c (high_mid m e)
  else frac_ltb (low_mid m e) c && frac_ltb c (high_mid m e).

(** The least [p] with [v < 10^p], searched upwards from an estimate
    taken from the binary logarithm. *)
Fixpoint first_pow10_above (fuel : nat) (v : frac) (t : Z) : Z :=
  match fuel with
  | O => t
  | S fuel' =>
      if frac_ltb v (scaled 1 t) then t
      else first_pow10_above fuel' v (t + 1)%Z
  end.

Definition decimal_point (v : frac) : Z :=
  let l := (Z.log2 (fst v) - Z.log2 (snd v))%Z in
  first_pow10_above 8 v ((l * 30103) / 100000 - 2)%Z.

(** Shortest digit string: for 1, 2, ... 17 significant digits, the
    truncation and its successor are tried; the nearer of those that
    read back is taken, ties to the even one. *)
Fixpoint shortest (fuel : nat) (m : positive) (e : Z) (p n : Z) : Z * Z :=
  let v := value m e in
  let k := (p - n)%Z in
  let d :=
    if (0 <=? k)%Z then (fst v / (snd v * 10 ^ k))%Z
    else ((fst v * 10 ^ (- k)) / snd v)%Z in
  let lo_ok := reads_back m e (scaled d k) in
  let hi_ok := reads_back m e (scaled (d + 1) k) in
  let twice := ((2 * fst v)%Z, snd v) in
  let both := scaled (2 * d + 1) k in
  let pick :=
    if lo_ok && hi_ok then
      if frac_ltb twice both then Some d
      else if frac_ltb both twice then Some (d + 1)%Z
      else Some (if Z.even d then d else (d + 1)%Z)
    else if lo_ok then Some d
    else if hi_ok then Some (d + 1)%Z
    else None in
  match pick, fuel with
  | Some d', _ => (d', k)
  | None, O => (d, k)
  | None, S fuel' => shortest fuel' m e p (n + 1)%Z
  end.

Fixpoint strip_zeros (fuel : nat) (d : Z) : Z :=
  match fuel with
  | O => d
  | S fuel' => if (d mod 10 =? 0)%Z then strip_zeros fuel' (d / 10)%Z else d
  end.

Fixpoint zeros (n : nat) : string :=
  match n with
  | O => ""
  | S n' => "0" ++ zeros n'
  end.

(** Layout of [repr]: fixed notation when the decimal point falls within
    [-4 < decpt <= 16], otherwise scientific with a signed exponent of at
    least two digits. *)
Definition layout (digits : string) (decpt : Z) : string :=
  let nd := Z.of_nat (String.length digits) in
  if ((decpt <=? -4) || (16 <? decpt))%Z%bool then
    let ex := (decpt - 1)%Z in
    let mant :=
      if (nd =? 1)%Z then digits
      else substring 0 1 digits ++ "." ++ substring 1 (String.length digits - 1) digits in
    let es := dec (Z.abs ex) in
    mant ++ "e" ++ (if (ex <? 0)%Z then "-" else "+")
         ++ (if (Z.abs ex <? 10)%Z then "0" else "") ++ es
  else if (decpt <=? 0)%Z then
    "0." ++ zeros (Z.to_nat (- decpt)) ++ digits
  else if (nd <=? decpt)%Z then
    digits ++ zeros (Z.to_nat (decpt - nd)) ++ ".0"
  else
    substring 0 (Z.to_nat decpt) digits ++ "."
      ++ substring (Z.to_nat decpt) (String.length digits - Z.to_nat decpt) digits.

Definition finite (m : positive) (e : Z) : string :=
  let p := decimal_point (value m e) in
  let '(d, k) := shortest 17 m e p 1 in
  let decpt := (Z.of_nat (String.length (dec d)) + k)%Z in
  layout (dec (strip_zeros 18 d)) decpt.

End Repr.

(** [f"{x}"] *)
Definition float_repr (x : float) : string :=
  match Prim2SF x with
  | S754_nan => "nan"
  | S754_infinity s => sign_str s ++ "inf"
  | S754_zero s => sign_str s ++ "0.0"
  | S754_finite s m e => sign_str s ++ Repr.finite m e
  end.

(** ** 1. Technical gas safety logic: [analyze_gas_mixer] *)

(** The four locals the sequential checks update. *)
Record Findings : Type := {
  f_category : Category;
  f_status : Status;
  f_alerts : list string;
  f_warnings : list string
}.

(** [alerts = []; warnings = []; category = "SAFE"; final_status = "PASS"] *)
Definition initial_findings : Findings :=
  {| f_category := SAFE; f_status := PASS; f_alerts := []; f_warnings := [] |}.

Definition no_flow_alert : string := "CRITICAL: No fresh gas flow detected.".

Definition hypoxia_alert (fio2_percent : float) : string :=
  "Hypoxic mixture detected: FiO₂ = " ++ format_1f fio2_percent ++ "% (< 25%).".

Definition low_flow_warning : string :=
  "Low fresh gas flow (< 0.5 L/min). Risk of CO₂ rebreathing.".

Definition high_agent_warning (agent_perc : float) : string :=
  "High anesthetic concentration (" ++ float_repr agent_perc ++ "%).".

(** [if category != "CRITICAL": category = "WARNING"] *)
Definition raise_to_warning (c : Category) : Category :=
  if negb (Category_eqb c CRITICAL) then WARNING else c.

(** CRITICAL: hypoxic mixture (source lines 39-44). *)
Definition check_hypoxia (fio2_percent : float) (st : Findings) : Findings :=
  if fio2_percent <? 25 then
    {| f_category := CRITICAL;
       f_status := FAIL;
       f_alerts := f_alerts st ++ [hypoxia_alert fio2_percent];
       f_warnings := f_warnings st |}
  else st.

(** WARNING: low flow (source lines 47-52). *)
Definition check_low_flow (total : float) (st : Findings) : Findings :=
  if total <? 0.5 then
    {| f_category := raise_to_warning (f_category st);
       f_status := f_status st;
       f_alerts := f_alerts st;
       f_warnings := f_warnings st ++ [low_flow_warning] |}
  else st.

(** WARNING: high agent concentration (source lines 55-60). *)
Definition check_high_agent (agent_perc : float) (st : Findings) : Findings :=
  if 8 <? agent_perc then
    {| f_category := raise_to_warning (f_category st);
       f_status := f_status st;
       f_alerts := f_alerts st;
       f_warnings := f_warnings st ++ [high_agent_warning agent_perc] |}
  else st.

(** The three checks in source order. *)
Definition run_checks (fio2_percent total agent_perc : float) : Findings :=
  check_high_agent agent_perc
    (check_low_flow total
       (check_hypoxia fio2_percent initial_findings)).

(** The literal returned when there is no flow at all (source lines
    26-33).  The source writes the two metrics as the integer [0], which
    compares equal to, and prints as, the float [0.0] kept here. *)
Definition no_flow_result (now : string) : AnalysisResult :=
  {| status := FAIL;
     category := CRITICAL;
     metrics := {| fio2 := 0; total_flow := 0 |};
     alerts := [no_flow_alert];
     warnings := [];
     timestamp := now |}.

(** [now] is what [datetime.now().isoformat()] yields during the call. *)
Definition analyze_gas_mixer
    (flow_o2 flow_n2o flow_air agent_perc : float) (now : string)
    : Py AnalysisResult :=
  let total := flow_o2 + flow_n2o + flow_air in
  if total =? 0 then Return (no_flow_result now)
  else
    let oxygen_volume := flow_o2 + flow_air * 0.21 in
    ratio <- py_truediv oxygen_volume total ;;
    let fio2_percent := ratio * 100 in
    let st := run_checks fio2_percent total agent_perc in
    Return {| status := f_status st;
              category := f_category st;
              metrics := {| fio2 := fio2_percent; total_flow := total |};
              alerts := f_alerts st;
              warnings := f_warnings st;
              timestamp := now |}.

(** ** 2. Clinical setup and operation: [clinical_adjustment] *)

(** The patient dictionary built by the caller, with its four keys. *)
Record Patient : Type := {
  age : Z;
  weight : Z;
  compliance : Z;
  asa : Z
}.

(** Patient-specific minimum FiO2 (source lines 87-93). *)
Definition recommended_fio2 (patient : Patient) : float :=
  let r := 25 in
  let r := if ((age patient <? 1) || (65 <? age patient))%Z%bool then 30 else r in
  let r := if (3 <=? asa patient)%Z then 30 else r in
  r.

Definition fio2_floor_warning (recommended : float) : string :=
  "Patient-specific FiO₂ recommendation: ≥ " ++ float_repr recommended ++ "%.".

Definition agent_sensitivity_warning : string :=
  "Elderly / low-weight patient may be sensitive to high anesthetic dose.".

Definition low_compliance_warning : string :=
  "Low lung compliance. Monitor airway pressure closely.".

Definition fio2_floor_check (fio2_percent : float) (patient : Patient)
    (ws : list string) : list string :=
  if fio2_percent <? recommended_fio2 patient
  then ws ++ [fio2_floor_warning (recommended_fio2 patient)]
  else ws.

Definition agent_sensitive (agent_perc : float) (patient : Patient) : bool :=
  ((65 <? age patient)%Z || (weight patient <? 50)%Z) && (6 <? agent_perc).

Definition agent_sensitivity_check (agent_perc : float) (patient : Patient)
    (ws : list string) : list string :=
  if agent_sensitive agent_perc patient
  then ws ++ [agent_sensitivity_warning]
  else ws.

Definition compliance_check (patient : Patient) (ws : list string) : list string :=
  if (compliance patient <? 30)%Z
  then ws ++ [low_compliance_warning]
  else ws.

Definition clinical_adjustment
    (fio2_percent agent_perc : float) (patient : Patient) : list string :=
  let clinical_warnings := [] in
  let clinical_warnings := fio2_floor_check fio2_percent patient clinical_warnings in
  let clinical_warnings := agent_sensitivity_check agent_perc patient clinical_warnings in
  let clinical_warnings := compliance_check patient clinical_warnings in
  clinical_warnings.

(** ** 3. The caller's analysis step (source lines 155-163) *)

(** [result["warnings"].extend(clinical_warnings)] *)
Definition extend_warnings (result : AnalysisResult) (extra : list string)
    : AnalysisResult :=
  {| status := status result;
     category := category result;
     metrics := metrics result;
     alerts := alerts result;
     warnings := warnings result ++ extra;
     timestamp := timestamp result |}.

Definition main_analysis
    (flow_o2 flow_n2o flow_air agent : float) (patient : Patient) (now : string)
    : Py AnalysisResult :=
  result <- analyze_gas_mixer flow_o2 flow_n2o flow_air agent now ;;
  let clinical_warnings :=
    clinical_adjustment (fio2 (metrics result)) agent patient in
  Return (extend_warnings result clinical_warnings).

(** ** Vocabulary of the statements *)

(** Severity order SAFE < WARNING < CRITICAL. *)
Definition severity (c : Category) : nat :=
  match c with
  | SAFE => 0
  | WARNING => 1
  | CRITICAL => 2
  end.

Definition worst (a b : Category) : Category :=
  if Nat.leb (severity a) (severity b) then b else a.

(** Severity contributed by a check, given whether it fired. *)
Definition fired (level : Category) (b : bool) : Category :=
  if b then level else SAFE.

(** The value the FiO2 formula of the source computes. *)
Definition fio2_formula (flow_o2 flow_n2o flow_air : float) : float :=
  (flow_o2 + flow_air * 0.21) / (flow_o2 + flow_n2o + flow_air) * 100.

(** Two results that differ at most in their timestamp. *)
Definition same_up_to_timestamp (r1 r2 : AnalysisResult) : Prop :=
  status r1 = status r2 /\ category r1 = category r2 /\
  metrics r1 = metrics r2 /\ alerts r1 = alerts r2 /\
  warnings r1 = warnings r2.

(** The texts [clinical_adjustment] can emit. *)
Definition clinical_texts : list string :=
  [fio2_floor_warning 25; fio2_floor_warning 30;
   agent_sensitivity_warning; low_compliance_warning].

(** Showing a number to one decimal place, in the words of the
    specification and independently of how the code formats: the text is
    a minus sign when the sign bit is set, a whole part of decimal digits
    without a superfluous leading zero, a point and one decimal digit;
    read in base ten, the digits are the number of tenths nearest to the
    magnitude of the value, the even one at a tie. *)
Definition is_digit (c : ascii) : bool :=
  (Nat.leb 48 (nat_of_ascii c) && Nat.leb (nat_of_ascii c) 57)%bool.

Definition sign_bit (x : float) : bool :=
  match Prim2SF x with
  | S754_zero s | S754_infinity s | S754_finite s _ _ => s
  | S754_nan => false
  end.

Definition digit_value (c : ascii) : Z := (Z.of_nat (nat_of_ascii c) - 48)%Z.

Fixpoint digits_value_from (acc : Z) (t : string) : Z :=
  match t with
  | EmptyString => acc
  | String c t' => digits_value_from (10 * acc + digit_value c)%Z t'
  end.

(** The number a string of digits denotes in base ten. *)
Definition digits_value (t : string) : Z := digits_value_from 0 t.

Fixpoint all_digits (t : string) : bool :=
  match t with
  | EmptyString => true
  | String c t' => is_digit c && all_digits t'
  end.

(** One or more digits, the first of them 0 only when it is the only
    one. *)
Definition whole_part (t : string) : Prop :=
  t <> "" /\ all_digits t = true /\
  (forall t', t = String "0" t' -> t' = "").

(** [n] tenths is a multiple of 0.1 nearest to [m * 2^e], and the even
    one when [m * 2^e] lies half way between two of them: with
    [10 * m * 2^e = a / b], the distance [|a / b - n|] is at most 1/2. *)
Definition nearest_tenths (m : positive) (e : Z) (n : Z) : Prop :=
  let a := (10 * Z.pos m * 2 ^ Z.max e 0)%Z in
  let b := (2 ^ Z.max (- e) 0)%Z in
  (2 * Z.abs (a - n * b) <= b)%Z /\
  ((2 * Z.abs (a - n * b) = b)%Z -> Z.even n = true).

Definition shows_to_one_decimal (x : float) (t : string) : Prop :=
  exists (whole : string) (d : ascii),
    t = (if sign_bit x then "-" else "") ++ whole ++ "." ++ String d "" /\
    whole_part whole /\ is_digit d = true /\
    match Prim2SF x with
    | S754_zero _ => digits_value (whole ++ String d "") = 0%Z
    | S754_finite _ m e =>
        nearest_tenths m e (digits_value (whole ++ String d ""))
    | S754_infinity _ | S754_nan => False
    end.

(** Zero, subnormal or normal: neither infinite nor NaN. *)
Definition is_finite (x : float) : bool :=
  match Prim2SF x with
  | S754_zero _ | S754_finite _ _ _ => true
  | _ => false
  end.

(** ** Exact values of binary64 numbers

    Every finite binary64 number is an integer multiple of [2^-1074]; a
    non-negative float is identified with that integer ([val]), infinity
    with [2^2098], a bound no finite value reaches.  The result
    of an arithmetic operation is the exact result rounded by [rz]: the
    quotient [a / b] is kept to 53 significant bits, nearest, ties to
    even. *)

Module B64.

Local Open Scope Z_scope.

Definition rz (a b : Z) : Z :=
  let s := Z.max (Zdigits2 (a / b) - 53) 0 in
  round_half_even_div a (b * 2 ^ s) * 2 ^ s.

Definition val (x : spec_float) : Z :=
  match x with
  | S754_finite _ m e => Z.pos m * 2 ^ (e + 1074)
  | S754_infinity _ => 2 ^ 2098
  | _ => 0
  end.

Definition nonneg (x : spec_float) : bool :=
  match x with
  | S754_zero _ => true
  | S754_finite s _ _ => negb s
  | S754_infinity s => negb s
  | S754_nan => false
  end.

(** Overflow to infinity. *)
Definition cap (z : Z) : Z := Z.min z (2 ^ 2098).

(** Position of [a / b] between two consecutive integers, and the
    shift record holding quotient, round bit and sticky bit. *)
Definition loc_of (a b : Z) : location :=
  if a mod b =? 0 then loc_Exact else loc_Inexact (2 * (a mod b) ?= b).

Definition rec_of (a b : Z) : shr_record :=
  shr_record_of_loc (a / b) (loc_of a b).

(** The fraction [a / b] scaled by [2^e], in units of [2^-1074]. *)
Definition scaled_num (a e : Z) : Z := a * 2 ^ Z.max (e + 1074) 0.
Definition scaled_den (b e : Z) : Z := b * 2 ^ Z.max (- (e + 1074)) 0.

Definition fval (x : float) : Z := val (Prim2SF x).
Definition fnonneg (x : float) : bool := nonneg (Prim2SF x).

End B64.

(** ** 4. The dashboard script: [main]

    Streamlit runs [main] from top to bottom on every interaction.  The
    values the input widgets return during one run are gathered in
    [Widgets]; the calls made on the page, in order, are the trace [main]
    returns. *)

Record Widgets : Type := {
  w_flow_o2 : float;
  w_flow_n2o : float;
  w_flow_air : float;
  w_agent : float;
  w_age : Z;
  w_weight : Z;
  w_compliance : Z;
  w_asa : Z
}.

(** A [pandas.DataFrame] built from a dictionary of columns. *)
Inductive Column : Type :=
| TextColumn (values : list string)
| NumberColumn (values : list float).

Definition DataFrame : Type := list (string * Column).

Inductive StCall : Type :=
| St_set_page_config (page_title layout : string)
| St_title (body : string)
| St_sidebar_header (body : string)
| St_sidebar_markdown (body : string)
| St_sidebar_slider_float (label : string) (min_value max_value value step : float)
| St_sidebar_slider_int (label : string) (min_value max_value value : Z)
| St_sidebar_number_input (label : string) (min_value max_value value : Z)
| St_sidebar_selectbox (label : string) (options : list Z)
| St_markdown (body : string) (unsafe_allow_html : bool)
| St_columns (n : Z)
| St_metric (column : nat) (label value : string)
| St_subheader (body : string)
| St_success (body : string)
| St_error (body : string)
| St_warning (body : string)
| St_bar_chart (data : DataFrame) (x y : string)
| St_expander (label : string) (content : list StCall).

Definition dquote : string := String (ascii_of_nat 34) "".
Definition newline : string := String (ascii_of_nat 10) "".

(** The strings the source keeps in ["status"] and ["category"]. *)
Definition Status_text (s : Status) : string :=
  match s with
  | PASS => "PASS"
  | FAIL => "FAIL"
  end.

Definition Category_text (c : Category) : string :=
  match c with
  | SAFE => "SAFE"
  | WARNING => "WARNING"
  | CRITICAL => "CRITICAL"
  end.

(** Source lines 119-150: page set-up and input widgets. *)
Definition page_and_sidebar : list StCall :=
  [St_set_page_config "Anesthesia Safety Monitor" "wide";
   St_title "Anesthesia Workstation – Gas Safety & Clinical Monitor";
   St_sidebar_header "Fresh Gas Flow";
   St_sidebar_slider_float "O₂ (L/min)" 0 10 2 0.1;
   St_sidebar_slider_float "N₂O (L/min)" 0 10 2 0.1;
   St_sidebar_slider_float "Air (L/min)" 0 10 0 0.1;
   St_sidebar_header "Vaporizer";
   St_sidebar_slider_float "Sevoflurane (%)" 0 10 2 0.1;
   St_sidebar_markdown "---";
   St_sidebar_header "Patient Clinical Setup";
   St_sidebar_number_input "Age (years)" 0 120 30;
   St_sidebar_number_input "Weight (kg)" 1 200 70;
   St_sidebar_slider_int "Lung Compliance (mL/cmH₂O)" 10 100 50;
   St_sidebar_selectbox "ASA Class" [1; 2; 3; 4]%Z].

(** Source lines 168-172. *)
Definition status_color (result : AnalysisResult) : string :=
  let color := "green" in
  match category result with
  | WARNING => "orange"
  | CRITICAL => "red"
  | SAFE => color
  end.

(** Source lines 174-181. *)
Definition status_banner (result : AnalysisResult) : list StCall :=
  let color := status_color result in
  [St_markdown
     (newline ++ "    <div style=" ++ dquote
        ++ "padding:15px;border-left:8px solid " ++ color ++ ";"
        ++ newline ++ "    background-color:#f9f9f9;border-radius:8px;"
        ++ dquote ++ ">"
        ++ newline ++ "    <h2 style=" ++ dquote ++ "color:" ++ color
        ++ ";margin:0;" ++ dquote ++ ">"
        ++ newline ++ "    SYSTEM STATUS: " ++ Status_text (status result)
        ++ " (" ++ Category_text (category result) ++ ")"
        ++ newline ++ "    </h2>"
        ++ newline ++ "    </div>"
        ++ newline ++ "    ")
     true].

(** Source lines 186-189. *)
Definition metrics_row (result : AnalysisResult) (agent : float) : list StCall :=
  [St_columns 3;
   St_metric 0 "FiO₂ (%)" (format_1f (fio2 (metrics result)));
   St_metric 1 "Total Flow (L/min)" (format_1f (total_flow (metrics result)));
   St_metric 2 "Agent (%)" (float_repr agent)].

Definition success_text : string :=
  "System operating within safe clinical limits.".

(** [not xs] on a Python list. *)
Definition is_empty {A : Type} (xs : list A) : bool :=
  match xs with
  | [] => true
  | _ :: _ => false
  end.

(** Source lines 194-203. *)
Definition diagnostic_log (result : AnalysisResult) : list StCall :=
  (St_subheader "Diagnostic Log" ::
   (if is_empty (alerts result) && is_empty (warnings result)
    then [St_success success_text] else []) ++
   map (fun alert => St_error ("🛑 " ++ alert)) (alerts result) ++
   map (fun warn => St_warning ("⚠ " ++ warn)) (warnings result))%list.

(** Source lines 208-213. *)
Definition gas_composition (flow_o2 flow_n2o flow_air : float) : list StCall :=
  let df :=
    [("Gas", TextColumn ["Oxygen"; "Nitrous Oxide"; "Air"]);
     ("Flow (L/min)", NumberColumn [flow_o2; flow_n2o; flow_air])] in
  [St_subheader "Gas Composition";
   St_bar_chart df "Gas" "Flow (L/min)"].

(** Source lines 218-229. *)
Definition logic_summary : list StCall :=
  [St_expander "ℹ System Logic Summary"
     [St_markdown
        (newline ++ "        *Technical Safety (ISO-based concepts):*"
           ++ newline ++ "        - FiO₂ < 25% → CRITICAL"
           ++ newline ++ "        - Total flow = 0 → CRITICAL"
           ++ newline ++ "        - Low flow < 0.5 L/min → WARNING"
           ++ newline ++ "        - Agent > 8% → WARNING"
           ++ newline
           ++ newline ++ "        *Clinical Operation:*"
           ++ newline ++ "        - Patient age, ASA, weight, and lung compliance modify warnings"
           ++ newline ++ "        - No effect on sensor calibration"
           ++ newline ++ "        ")
        false]].

Definition main (w : Widgets) (now : string) : Py (list StCall) :=
  let flow_o2 := w_flow_o2 w in
  let flow_n2o := w_flow_n2o w in
  let flow_air := w_flow_air w in
  let agent := w_agent w in
  let patient :=
    {| age := w_age w; weight := w_weight w;
       compliance := w_compliance w; asa := w_asa w |} in
  result <- main_analysis flow_o2 flow_n2o flow_air agent patient now ;;
  Return (page_and_sidebar ++ status_banner result
            ++ metrics_row result agent ++ diagnostic_log result
            ++ gas_composition flow_o2 flow_n2o flow_air
            ++ logic_summary)%list.

(** What the input widgets of [page_and_sidebar] return: a value between
    the minimum and the maximum they are given, one of the options for the
    select box. *)
Definition widgets_in_range (w : Widgets) : Prop :=
  (0 <=? w_flow_o2 w) = true /\ (w_flow_o2 w <=? 10) = true /\
  (0 <=? w_flow_n2o w) = true /\ (w_flow_n2o w <=? 10) = true /\
  (0 <=? w_flow_air w) = true /\ (w_flow_air w <=? 10) = true /\
  (0 <=? w_agent w) = true /\ (w_agent w <=? 10) = true /\
  (0 <= w_age w <= 120)%Z /\ (1 <= w_weight w <= 200)%Z /\
  (10 <= w_compliance w <= 100)%Z /\ In (w_asa w) [1; 2; 3; 4]%Z.

(** ** Vocabulary of the further properties *)

(** Calls of one kind in a trace. *)
Definition is_error_call (c : StCall) : bool :=
  match c with St_error _ => true | _ => false end.

Definition is_warning_call (c : StCall) : bool :=
  match c with St_warning _ => true | _ => false end.

Definition is_success_call (c : StCall) : bool :=
  match c with St_success _ => true | _ => false end.

Definition is_metric_call (c : StCall) : bool :=
  match c with St_metric _ _ _ => true | _ => false end.

(** Position of a float in the order of [<], [None] for NaN: class and
    sign first, then exponent, then mantissa. *)
Definition order_key (x : spec_float) : option (Z * Z * Z) :=
  match x with
  | S754_nan => None
  | S754_infinity true => Some (-2, 0, 0)%Z
  | S754_finite true m e => Some (-1, - e, - Z.pos m)%Z
  | S754_zero _ => Some (0, 0, 0)%Z
  | S754_finite false m e => Some (1, e, Z.pos m)%Z
  | S754_infinity false => Some (2, 0, 0)%Z
  end.

Definition key_compare (a b : Z * Z * Z) : comparison :=
  let '(a1, a2, a3) := a in
  let '(b1, b2, b3) := b in
  match (a1 ?= b1)%Z with
  | Eq => match (a2 ?= b2)%Z with
          | Eq => (a3 ?= b3)%Z
          | c => c
          end
  | c => c
  end.

(** Strictly below, lexicographically. *)
Definition key_lt (a b : Z * Z * Z) : Prop :=
  let '(a1, a2, a3) := a in
  let '(b1, b2, b3) := b in
  (a1 < b1 \/ (a1 = b1 /\ (a2 < b2 \/ (a2 = b2 /\ a3 < b3))))%Z.

(** A patient for whom none of the clinical rules tightens anything. *)
Definition low_risk (p : Patient) : Prop :=
  (1 <= age p <= 65)%Z /\ (asa p < 3)%Z /\ (50 <= weight p)%Z /\
  (30 <= compliance p)%Z.

(** ** Comparisons of binary64 values *)

Lemma SFcompare_swap (x y : spec_float) :
  SFcompare y x = option_map CompOpp (SFcompare x y).
Proof.
  destruct x as [sx|sx| |sx mx ex], y as [sy|sy| |sy my ey]; simpl;
    try reflexivity;
    try (destruct sx; reflexivity);
    try (destruct sy; reflexivity);
    try (destruct sx, sy; reflexivity).
  destruct sx, sy; simpl; try reflexivity;
    rewrite (Z.compare_antisym ex ey);
    destruct (ex ?= ey)%Z; simpl; try reflexivity;
    rewrite (Pos.compare_cont_antisym mx my Eq); simpl;
    try rewrite CompOpp_involutive; reflexivity.
Qed.

Lemma ltb_true_eqb_false (x y : float) :
  (x <? y) = true -> (y =? x) = false.
Proof.
  rewrite ltb_spec, eqb_spec. unfold SFltb, SFeqb.
  rewrite (SFcompare_swap (Prim2SF x) (Prim2SF y)).
  destruct (SFcompare (Prim2SF x) (Prim2SF y)) as [[ | | ]|]; simpl;
    intros H; try discriminate H; reflexivity.
Qed.

Lemma leb_true_ltb_false (x y : float) :
  (x <=? y) = true -> (y <? x) = false.
Proof.
  rewrite leb_spec, ltb_spec. unfold SFleb, SFltb.
  rewrite (SFcompare_swap (Prim2SF x) (Prim2SF y)).
  destruct (SFcompare (Prim2SF x) (Prim2SF y)) as [[ | | ]|]; simpl;
    intros H; try discriminate H; reflexivity.
Qed.

(** ** Unfolding [analyze_gas_mixer] along its two paths *)

Lemma analyze_no_flow (o2 n2o air agent : float) (now : string) :
  (o2 + n2o + air =? 0) = true ->
  analyze_gas_mixer o2 n2o air agent now = Return (no_flow_result now).
Proof.
  intros H. unfold analyze_gas_mixer. rewrite H. reflexivity.
Qed.

Lemma analyze_flow (o2 n2o air agent : float) (now : string) :
  (o2 + n2o + air =? 0) = false ->
  analyze_gas_mixer o2 n2o air agent now =
  let fio2_percent := fio2_formula o2 n2o air in
  let st := run_checks fio2_percent (o2 + n2o + air) agent in
  Return {| status := f_status st;
            category := f_category st;
            metrics := {| fio2 := fio2_percent; total_flow := o2 + n2o + air |};
            alerts := f_alerts st;
            warnings := f_warnings st;
            timestamp := now |}.
Proof.
  intros H. unfold analyze_gas_mixer, py_truediv, fio2_formula.
  rewrite H. reflexivity.
Qed.

Lemma run_checks_findings (f total agent : float) :
  run_checks f total agent =
  {| f_category :=
       worst (fired CRITICAL (f <? 25))
         (worst (fired WARNING (total <? 0.5)) (fired WARNING (8 <? agent)));
     f_status := if f <? 25 then FAIL else PASS;
     f_alerts := if f <? 25 then [hypoxia_alert f] else [];
     f_warnings :=
       (if total <? 0.5 then [low_flow_warning] else []) ++
       (if 8 <? agent then [high_agent_warning agent] else []) |}.
Proof.
  unfold run_checks, check_high_agent, check_low_flow, check_hypoxia.
  destruct (f <? 25), (total <? 0.5), (8 <? agent); reflexivity.
Qed.

Lemma analyze_cases (o2 n2o air agent : float) (now : string) :
  ((o2 + n2o + air =? 0) = true /\
   analyze_gas_mixer o2 n2o air agent now = Return (no_flow_result now)) \/
  ((o2 + n2o + air =? 0) = false /\
   analyze_gas_mixer o2 n2o air agent now =
   Return {| status := f_status (run_checks (fio2_formula o2 n2o air) (o2 + n2o + air) agent);
             category := f_category (run_checks (fio2_formula o2 n2o air) (o2 + n2o + air) agent);
             metrics := {| fio2 := fio2_formula o2 n2o air; total_flow := o2 + n2o + air |};
             alerts := f_alerts (run_checks (fio2_formula o2 n2o air) (o2 + n2o + air) agent);
             warnings := f_warnings (run_checks (fio2_formula o2 n2o air) (o2 + n2o + air) agent);
             timestamp := now |}).
Proof.
  destruct (o2 + n2o + air =? 0) eqn:E.
  - left. split; [reflexivity | now apply analyze_no_flow].
  - right. split; [reflexivity | now apply analyze_flow].
Qed.

(** ** Shape of the clinical warning list *)

Lemma clinical_adjustment_parts (f agent : float) (p : Patient) :
  clinical_adjustment f agent p =
  ((if f <? recommended_fio2 p
    then [fio2_floor_warning (recommended_fio2 p)] else []) ++
   (if agent_sensitive agent p then [agent_sensitivity_warning] else []) ++
   (if (compliance p <? 30)%Z then [low_compliance_warning] else []))%list.
Proof.
  unfold clinical_adjustment, compliance_check, agent_sensitivity_check,
    fio2_floor_check.
  destruct (f <? recommended_fio2 p), (agent_sensitive agent p),
    (compliance p <? 30)%Z; reflexivity.
Qed.

Lemma recommended_fio2_cases (p : Patient) :
  recommended_fio2 p =
  if ((age p <? 1)%Z || (65 <? age p)%Z || (3 <=? asa p)%Z)%bool then 30 else 25.
Proof.
  unfold recommended_fio2.
  destruct (age p <? 1)%Z, (65 <? age p)%Z, (3 <=? asa p)%Z; reflexivity.
Qed.

Lemma floor_text_25 :
  fio2_floor_warning 25 = "Patient-specific FiO₂ recommendation: ≥ 25.0%.".
Proof. vm_compute. reflexivity. Qed.

Lemma floor_text_30 :
  fio2_floor_warning 30 = "Patient-specific FiO₂ recommendation: ≥ 30.0%.".
Proof. vm_compute. reflexivity. Qed.

Lemma floor_text_head (r : float) :
  exists tail, fio2_floor_warning r = String "P" tail.
Proof. unfold fio2_floor_warning. cbn [append]. eexists. reflexivity. Qed.

Lemma floor_not_agent (r : float) :
  fio2_floor_warning r <> agent_sensitivity_warning.
Proof. destruct (floor_text_head r) as [t ->]. discriminate. Qed.

Lemma floor_not_compliance (r : float) :
  fio2_floor_warning r <> low_compliance_warning.
Proof. destruct (floor_text_head r) as [t ->]. discriminate. Qed.

(** ** Rounding theory of the binary64 operations

    The operations [+], [*] and [/] of the specification [SpecFloat], to
    which the primitive ones are tied by the axioms of the standard
    library, are shown to return the exact result rounded by [B64.rz]. *)

Module B64Facts.

Import B64.

Local Open Scope Z_scope.

(** *** Rounded division and bit lengths *)

Lemma div_le_cross (a1 d1 a2 d2 : Z) :
  0 < d1 -> 0 < d2 -> a1 * d2 <= a2 * d1 -> a1 / d1 <= a2 / d2.
Proof.
  intros H1 H2 H.
  apply Z.div_le_lower_bound; [assumption|].
  pose proof (Z.mul_div_le a1 d1 H1).
  (* d2 * (a1/d1) <= a2 : since d1 * d2 * (a1/d1) <= a1 * d2 <= a2 * d1 *)
  assert (d1 * (d2 * (a1 / d1)) <= d1 * a2) by nia.
  apply Z.mul_le_mono_pos_l in H3; assumption.
Qed.

Lemma rhe_bounds (a d : Z) :
  0 < d -> a / d <= round_half_even_div a d <= a / d + 1.
Proof.
  intros Hd. unfold round_half_even_div.
  destruct (2 * (a mod d) ?= d); [destruct (Z.even (a / d))| | ]; lia.
Qed.

Lemma rhe_exact (k d : Z) : 0 < d -> round_half_even_div (k * d) d = k.
Proof.
  intros Hd. unfold round_half_even_div.
  rewrite Z.div_mul, Z.mod_mul by lia.
  assert (E : (2 * 0 ?= d) = Lt) by (apply Z.compare_lt_iff; lia).
  rewrite E. reflexivity.
Qed.

Lemma rhe_mono (a1 d1 a2 d2 : Z) :
  0 < d1 -> 0 < d2 -> a1 * d2 <= a2 * d1 ->
  round_half_even_div a1 d1 <= round_half_even_div a2 d2.
Proof.
  intros H1 H2 H.
  pose proof (div_le_cross a1 d1 a2 d2 H1 H2 H) as Hq.
  pose proof (rhe_bounds a1 d1 H1) as B1.
  pose proof (rhe_bounds a2 d2 H2) as B2.
  destruct (Z.eq_dec (a1 / d1) (a2 / d2)) as [E|NE]; [|lia].
  pose proof (Z.div_mod a1 d1 ltac:(lia)) as M1.
  pose proof (Z.div_mod a2 d2 ltac:(lia)) as M2.
  pose proof (Z.mod_pos_bound a1 d1 H1) as R1.
  pose proof (Z.mod_pos_bound a2 d2 H2) as R2.
  unfold round_half_even_div. rewrite <- E.
  set (q := a1 / d1) in *. set (r1 := a1 mod d1) in *. set (r2 := a2 mod d2) in *.
  assert (Hr : r1 * d2 <= r2 * d1) by nia.
  destruct (Z.compare_spec (2 * r1) d1), (Z.compare_spec (2 * r2) d2);
    destruct (Z.even q); try lia; exfalso; nia.
Qed.

Lemma rhe_ext (a1 d1 a2 d2 : Z) :
  0 < d1 -> 0 < d2 -> a1 * d2 = a2 * d1 ->
  round_half_even_div a1 d1 = round_half_even_div a2 d2.
Proof.
  intros H1 H2 H. apply Z.le_antisymm; apply rhe_mono; lia.
Qed.

(** Bit lengths *)
Lemma digits2_pos_size (p : positive) : digits2_pos p = Pos.size p.
Proof. induction p; simpl; congruence. Qed.

Lemma Zdigits2_log2 (n : Z) : 0 < n -> Zdigits2 n = Z.log2 n + 1.
Proof.
  destruct n as [|p|p]; try lia. intros _. simpl.
  rewrite digits2_pos_size.
  destruct p; simpl; try reflexivity; rewrite Pos.add_1_r; reflexivity.
Qed.

Lemma Zdigits2_0 : Zdigits2 0 = 0.
Proof. reflexivity. Qed.

Lemma Zdigits2_nonneg (n : Z) : 0 <= Zdigits2 n.
Proof. destruct n; simpl; lia. Qed.

Lemma Zdigits2_spec (n : Z) :
  0 < n -> 2 ^ (Zdigits2 n - 1) <= n < 2 ^ Zdigits2 n.
Proof.
  intros H. rewrite Zdigits2_log2 by assumption.
  replace (Z.log2 n + 1 - 1) with (Z.log2 n) by lia.
  pose proof (Z.log2_spec n H). unfold Z.succ in *. lia.
Qed.

Lemma Zdigits2_upper (n : Z) : 0 <= n -> n < 2 ^ Zdigits2 n.
Proof.
  intros H. destruct (Z.eq_dec n 0) as [->|]; [simpl; lia|].
  apply Zdigits2_spec. lia.
Qed.

Lemma Zdigits2_unique (n d : Z) :
  0 < d -> 2 ^ (d - 1) <= n < 2 ^ d -> Zdigits2 n = d.
Proof.
  intros Hd H.
  assert (0 < n) by (pose proof (Z.pow_pos_nonneg 2 (d - 1)); lia).
  rewrite Zdigits2_log2 by assumption.
  rewrite (Z.log2_unique n (d - 1)); try lia.
  replace (Z.succ (d - 1)) with d by lia. assumption.
Qed.

Lemma Zdigits2_le (n d : Z) : 0 <= d -> 0 <= n < 2 ^ d -> Zdigits2 n <= d.
Proof.
  intros Hd [H0 H]. destruct (Z.eq_dec n 0) as [->|]; [simpl; lia|].
  destruct (Z_lt_le_dec d (Zdigits2 n)) as [L|]; [|lia].
  pose proof (Zdigits2_spec n ltac:(lia)) as [S _].
  assert (2 ^ d <= 2 ^ (Zdigits2 n - 1)) by (apply Z.pow_le_mono_r; lia).
  lia.
Qed.

Lemma Zdigits2_ge (n d : Z) : 2 ^ d <= n -> d + 1 <= Zdigits2 n.
Proof.
  intros H.
  destruct (Z_lt_le_dec d 0) as [L|L].
  { pose proof (Zdigits2_nonneg n). lia. }
  assert (0 < n) by (pose proof (Z.pow_pos_nonneg 2 d); lia).
  destruct (Z_lt_le_dec (Zdigits2 n) (d + 1)) as [L2|]; [|lia].
  pose proof (Zdigits2_spec n ltac:(lia)) as [_ S].
  assert (2 ^ Zdigits2 n <= 2 ^ d) by (apply Z.pow_le_mono_r; lia).
  lia.
Qed.

Lemma Zdigits2_mono (n1 n2 : Z) : 0 <= n1 <= n2 -> Zdigits2 n1 <= Zdigits2 n2.
Proof.
  intros [H0 H]. destruct (Z.eq_dec n1 0) as [->|].
  { apply Zdigits2_nonneg. }
  pose proof (Zdigits2_spec n1 ltac:(lia)) as [S _].
  pose proof (Zdigits2_ge n2 (Zdigits2 n1 - 1) ltac:(lia)). lia.
Qed.

(** *** The rounding [rz] is monotone and fixes representable values *)

Lemma pow2_pos (k : Z) : 0 <= k -> 0 < 2 ^ k.
Proof. intros. apply Z.pow_pos_nonneg; lia. Qed.

Lemma rz_mono (a1 b1 a2 b2 : Z) :
  0 <= a1 -> 0 < b1 -> 0 < b2 -> a1 * b2 <= a2 * b1 ->
  rz a1 b1 <= rz a2 b2.
Proof.
  intros Ha H1 H2 H. unfold rz.
  pose proof (div_le_cross a1 b1 a2 b2 H1 H2 H) as Hq.
  assert (Hq0 : 0 <= a1 / b1) by (apply Z.div_pos; lia).
  pose proof (Zdigits2_mono (a1 / b1) (a2 / b2) ltac:(lia)) as HD.
  assert (A1 : a1 < b1 * (a1 / b1 + 1)).
  { pose proof (Z.div_mod a1 b1 ltac:(lia)).
    pose proof (Z.mod_pos_bound a1 b1 H1). nia. }
  pose proof (Z.mul_div_le a2 b2 H2) as A2.
  pose proof (Zdigits2_upper (a1 / b1) Hq0) as U1.
  assert (S2 : 0 < a2 / b2 -> 2 ^ (Zdigits2 (a2 / b2) - 1) <= a2 / b2).
  { intros P. apply Zdigits2_spec. assumption. }
  assert (Z2 : a2 / b2 = 0 -> Zdigits2 (a2 / b2) = 0) by (intros ->; reflexivity).
  generalize dependent (a1 / b1). generalize dependent (a2 / b2).
  intros q2 A2 S2 Z2 q1 Hq Hq0 HD A1 U1.
  generalize dependent (Zdigits2 q1). generalize dependent (Zdigits2 q2).
  intros d2 S2 Z2 d1 HD U1.
  set (s1 := Z.max (d1 - 53) 0).
  set (s2 := Z.max (d2 - 53) 0).
  assert (Hs1 : 0 <= s1) by (unfold s1; lia).
  assert (Hs2 : 0 <= s2) by (unfold s2; lia).
  pose proof (pow2_pos s1 Hs1) as P1. pose proof (pow2_pos s2 Hs2) as P2.
  destruct (Z.eq_dec s1 s2) as [E|NE].
  - rewrite <- E. apply Z.mul_le_mono_nonneg_r; [lia|].
    apply rhe_mono; nia.
  - assert (L : s1 + 1 <= s2) by (unfold s1, s2 in *; lia).
    assert (D2 : d2 = 53 + s2) by (unfold s1, s2 in *; lia).
    assert (D1 : d1 <= 53 + s1) by (unfold s1; lia).
    clearbody s1 s2.
    assert (Q2 : 2 ^ 52 * 2 ^ s2 <= q2).
    { rewrite <- Z.pow_add_r by lia.
      assert (0 < q2).
      { destruct (Z.eq_dec q2 0) as [Z0|]; [|lia]. specialize (Z2 Z0). lia. }
      specialize (S2 H0). replace (52 + s2) with (d2 - 1) by lia. lia. }
    assert (A2' : 2 ^ 52 * 2 ^ s2 * b2 <= a2) by nia.
    assert (R2 : 2 ^ 52 <= round_half_even_div a2 (b2 * 2 ^ s2)).
    { apply Z.le_trans with
        (round_half_even_div (2 ^ 52 * (b2 * 2 ^ s2)) (b2 * 2 ^ s2)).
      - rewrite rhe_exact by nia. lia.
      - apply rhe_mono; nia. }
    assert (Q1 : q1 < 2 ^ 53 * 2 ^ s1).
    { rewrite <- Z.pow_add_r by lia.
      assert (2 ^ d1 <= 2 ^ (53 + s1)) by (apply Z.pow_le_mono_r; lia).
      lia. }
    assert (A1' : a1 <= 2 ^ 53 * 2 ^ s1 * b1) by nia.
    assert (R1 : round_half_even_div a1 (b1 * 2 ^ s1) <= 2 ^ 53).
    { apply Z.le_trans with
        (round_half_even_div (2 ^ 53 * (b1 * 2 ^ s1)) (b1 * 2 ^ s1)).
      - apply rhe_mono; nia.
      - rewrite rhe_exact by nia. lia. }
    assert (PP : 2 ^ 53 * 2 ^ s1 <= 2 ^ 52 * 2 ^ s2).
    { rewrite <- !Z.pow_add_r by lia. apply Z.pow_le_mono_r; lia. }
    assert (0 <= round_half_even_div a1 (b1 * 2 ^ s1)).
    { pose proof (rhe_bounds a1 (b1 * 2 ^ s1) ltac:(nia)).
      assert (0 <= a1 / (b1 * 2 ^ s1)) by (apply Z.div_pos; nia). lia. }
    nia.
Qed.

Lemma rz_ext (a1 b1 a2 b2 : Z) :
  0 <= a1 -> 0 <= a2 -> 0 < b1 -> 0 < b2 -> a1 * b2 = a2 * b1 ->
  rz a1 b1 = rz a2 b2.
Proof.
  intros. apply Z.le_antisymm; apply rz_mono; lia.
Qed.

Lemma rz_0 (b : Z) : 0 < b -> rz 0 b = 0.
Proof.
  intros Hb. unfold rz. rewrite Z.div_0_l by lia.
  change (Z.max (Zdigits2 0 - 53) 0) with 0.
  rewrite Z.pow_0_r, !Z.mul_1_r.
  exact (rhe_exact 0 b Hb).
Qed.

Lemma Zdigits2_shift (m t : Z) :
  0 < m -> 0 <= t -> Zdigits2 (m * 2 ^ t) = Zdigits2 m + t.
Proof.
  intros Hm Ht. pose proof (Zdigits2_spec m Hm) as [L U].
  pose proof (Zdigits2_nonneg m).
  assert (0 < Zdigits2 m).
  { destruct m; try lia. simpl. lia. }
  pose proof (pow2_pos t Ht).
  apply Zdigits2_unique; [lia|].
  replace (Zdigits2 m + t - 1) with (Zdigits2 m - 1 + t) by lia.
  rewrite !Z.pow_add_r by lia. nia.
Qed.

Lemma rz_exact (m t : Z) :
  0 <= m < 2 ^ 53 -> 0 <= t -> rz (m * 2 ^ t) 1 = m * 2 ^ t.
Proof.
  intros [Hm0 Hm] Ht.
  destruct (Z.eq_dec m 0) as [->|Hne].
  { rewrite Z.mul_0_l. apply rz_0. lia. }
  unfold rz. rewrite Z.div_1_r.
  rewrite Zdigits2_shift by lia.
  assert (HD : Zdigits2 m <= 53) by (apply Zdigits2_le; lia).
  set (s := Z.max (Zdigits2 m + t - 53) 0).
  assert (0 <= s <= t) by (unfold s; lia).
  replace (m * 2 ^ t) with (m * 2 ^ (t - s) * (1 * 2 ^ s)).
  2:{ rewrite Z.mul_1_l, <- Z.mul_assoc, <- Z.pow_add_r by lia.
      f_equal. f_equal. lia. }
  rewrite rhe_exact; [ring|].
  pose proof (pow2_pos s). lia.
Qed.

Lemma rz_nonneg (a b : Z) : 0 <= a -> 0 < b -> 0 <= rz a b.
Proof.
  intros. rewrite <- (rz_0 b) by assumption. apply rz_mono; lia.
Qed.

(** *** Right shifts of the specification are divisions by powers of two *)

Lemma fexp_eq (k : Z) : fexp prec emax k = Z.max (k - 53) (-1074).
Proof. reflexivity. Qed.

Lemma shr_1_nonneg (m : Z) (r s : bool) :
  0 <= m ->
  shr_1 {| shr_m := m; shr_r := r; shr_s := s |} =
  {| shr_m := m / 2; shr_r := Z.odd m; shr_s := r || s |}.
Proof.
  intros Hm. rewrite <- Z.div2_div.
  destruct m as [|p|p]; [reflexivity| |lia].
  destruct p; reflexivity.
Qed.

Lemma rec_of_eq (a b : Z) :
  0 < b ->
  rec_of a b =
  {| shr_m := a / b;
     shr_r := b <=? 2 * (a mod b);
     shr_s := negb (a mod b =? 0) && negb (2 * (a mod b) =? b) |}.
Proof.
  intros Hb. unfold rec_of, loc_of.
  pose proof (Z.mod_pos_bound a b Hb) as R.
  set (r := a mod b) in *. set (q := a / b).
  destruct (Z.eqb_spec r 0) as [E|NE];
    [|destruct (Z.compare_spec (2 * r) b) as [C|C|C]];
    destruct (Z.leb_spec b (2 * r)); destruct (Z.eqb_spec (2 * r) b);
    try lia; reflexivity.
Qed.

Lemma shr_1_rec_of (a b : Z) :
  0 <= a -> 0 < b -> shr_1 (rec_of a b) = rec_of a (b * 2).
Proof.
  intros Ha Hb.
  rewrite (rec_of_eq a b Hb), (rec_of_eq a (b * 2)) by lia.
  rewrite shr_1_nonneg by (apply Z.div_pos; lia).
  rewrite Z.div_div by lia.
  rewrite (Z.rem_mul_r a b 2) by lia.
  rewrite (Zmod_odd (a / b)).
  pose proof (Z.mod_pos_bound a b Hb) as R.
  set (r := a mod b) in *.
  f_equal.
  - destruct (Z.odd (a / b)); symmetry; [apply Z.leb_le|apply Z.leb_gt]; lia.
  - destruct (Z.odd (a / b));
      destruct (Z.leb_spec b (2 * r));
      destruct (Z.eqb_spec r 0); destruct (Z.eqb_spec (2 * r) b);
      try lia; simpl; symmetry;
      repeat match goal with
      | |- context [?x =? ?y] => destruct (Z.eqb_spec x y); try lia
      end; reflexivity.
Qed.

Lemma iter_shr_1_rec_of (p : positive) (a b : Z) :
  0 <= a -> 0 < b ->
  iter_pos shr_1 p (rec_of a b) = rec_of a (b * 2 ^ Z.pos p).
Proof.
  intros Ha. revert b.
  induction p as [p IH|p IH|]; intros b Hb; simpl iter_pos.
  - rewrite shr_1_rec_of by assumption.
    rewrite IH by lia.
    rewrite IH by (pose proof (pow2_pos (Z.pos p)); nia).
    f_equal. replace (Z.pos p~1) with (1 + Z.pos p + Z.pos p) by lia.
    rewrite !Z.pow_add_r, Z.pow_1_r by lia. ring.
  - rewrite IH by lia.
    rewrite IH by (pose proof (pow2_pos (Z.pos p)); nia).
    f_equal. replace (Z.pos p~0) with (Z.pos p + Z.pos p) by lia.
    rewrite !Z.pow_add_r by lia. ring.
  - rewrite shr_1_rec_of by assumption. reflexivity.
Qed.

Lemma shr_rec_of (a b e n : Z) :
  0 <= a -> 0 < b -> 0 <= n ->
  shr (rec_of a b) e n = (rec_of a (b * 2 ^ n), e + n).
Proof.
  intros Ha Hb Hn. destruct n as [|p|p]; [| |lia].
  - simpl. rewrite Z.mul_1_r, Z.add_0_r. reflexivity.
  - simpl shr. rewrite iter_shr_1_rec_of by assumption. reflexivity.
Qed.

Lemma loc_of_shr_record_of_loc (m : Z) (l : location) :
  loc_of_shr_record (shr_record_of_loc m l) = l.
Proof. destruct l as [|[ | | ]]; reflexivity. Qed.

Lemma shr_m_of_loc (m : Z) (l : location) : shr_m (shr_record_of_loc m l) = m.
Proof. destruct l as [|[ | | ]]; reflexivity. Qed.

Lemma round_rec_of (a c : Z) :
  0 < c ->
  round_nearest_even (shr_m (rec_of a c)) (loc_of_shr_record (rec_of a c)) =
  round_half_even_div a c.
Proof.
  intros Hc. unfold rec_of.
  rewrite shr_m_of_loc, loc_of_shr_record_of_loc.
  unfold loc_of, round_half_even_div.
  destruct (Z.eqb_spec (a mod c) 0) as [E|NE].
  - rewrite E.
    destruct (Z.compare_spec (2 * 0) c); try lia. reflexivity.
  - cbn [round_nearest_even]. destruct (2 * (a mod c) ?= c); reflexivity.
Qed.

(** *** What [binary_round_aux] computes *)

Lemma first_shift (a b e : Z) :
  0 <= a -> 0 < b ->
  e <= fexp prec emax (Zdigits2 (a / b) + e) ->
  shr_fexp prec emax (a / b) e (loc_of a b) =
  (rec_of a (b * 2 ^ (fexp prec emax (Zdigits2 (a / b) + e) - e)),
   fexp prec emax (Zdigits2 (a / b) + e)).
Proof.
  intros Ha Hb He. unfold shr_fexp. fold (rec_of a b).
  rewrite shr_rec_of by lia. f_equal. lia.
Qed.

Lemma rounded_mantissa_bounds (a b e : Z) :
  0 <= a -> 0 < b ->
  e <= fexp prec emax (Zdigits2 (a / b) + e) ->
  let E := fexp prec emax (Zdigits2 (a / b) + e) in
  let m2 := round_half_even_div a (b * 2 ^ (E - e)) in
  0 <= m2 <= 2 ^ 53 /\ (-1074 < E -> 2 ^ 52 <= m2).
Proof.
  intros Ha Hb He E m2.
  assert (Hq0 : 0 <= a / b) by (apply Z.div_pos; lia).
  pose proof (Zdigits2_upper (a / b) Hq0) as U.
  pose proof (Zdigits2_nonneg (a / b)) as DN.
  assert (HE : E = Z.max (Zdigits2 (a / b) + e - 53) (-1074)) by apply fexp_eq.
  fold E in He.
  set (n := E - e) in *.
  assert (Hn : 0 <= n) by (unfold n; lia).
  pose proof (pow2_pos n Hn) as Pn.
  pose proof (rhe_bounds a (b * 2 ^ n) ltac:(nia)) as RB. fold m2 in RB.
  rewrite <- Z.div_div in RB by lia.
  assert (Hlt : a / b / 2 ^ n < 2 ^ 53).
  { apply Z.div_lt_upper_bound; [lia|].
    rewrite <- Z.pow_add_r by lia.
    assert (2 ^ Zdigits2 (a / b) <= 2 ^ (n + 53))
      by (apply Z.pow_le_mono_r; unfold n; lia).
    lia. }
  assert (0 <= a / b / 2 ^ n) by (apply Z.div_pos; lia).
  split; [lia|].
  intros HEn.
  assert (Hpos : 0 < a / b).
  { destruct (Z.eq_dec (a / b) 0) as [Z0|]; [|lia].
    rewrite Z0 in HE. simpl Zdigits2 in HE. lia. }
  pose proof (Zdigits2_spec (a / b) Hpos) as [L _].
  assert (Hge : 2 ^ 52 <= a / b / 2 ^ n).
  { apply Z.div_le_lower_bound; [lia|].
    rewrite <- Z.pow_add_r by lia.
    replace (n + 52) with (Zdigits2 (a / b) - 1) by (unfold n; lia).
    assumption. }
  lia.
Qed.

Lemma second_shift (m2 E : Z) :
  0 <= m2 <= 2 ^ 53 -> (-1074 < E -> 2 ^ 52 <= m2) -> -1074 <= E ->
  shr_fexp prec emax m2 E loc_Exact =
  if m2 =? 2 ^ 53
  then ({| shr_m := 2 ^ 52; shr_r := false; shr_s := false |}, E + 1)
  else ({| shr_m := m2; shr_r := false; shr_s := false |}, E).
Proof.
  intros [H0 H53] Hn HE. unfold shr_fexp. rewrite fexp_eq.
  cbn [shr_record_of_loc].
  destruct (Z.eqb_spec m2 (2 ^ 53)) as [->|NE].
  - change (Zdigits2 (2 ^ 53)) with 54.
    replace (Z.max (54 + E - 53) (-1074) - E) with 1 by lia.
    reflexivity.
  - assert (Hd : Zdigits2 m2 <= 53) by (apply Zdigits2_le; lia).
    assert (Hd' : -1074 < E -> Zdigits2 m2 = 53).
    { intros HEn. apply Zdigits2_unique; [lia|].
      specialize (Hn HEn). change (53 - 1) with 52. lia. }
    replace (Z.max (Zdigits2 m2 + E - 53) (-1074) - E) with 0; [reflexivity|].
    destruct (Z.eq_dec E (-1074)); [|specialize (Hd' ltac:(lia))]; lia.
Qed.

Lemma binary_round_aux_val (a b e : Z) :
  0 <= a -> 0 < b ->
  e <= fexp prec emax (Zdigits2 (a / b) + e) ->
  let E := fexp prec emax (Zdigits2 (a / b) + e) in
  let z := binary_round_aux prec emax false (a / b) e (loc_of a b) in
  nonneg z = true /\
  val z = cap (round_half_even_div a (b * 2 ^ (E - e)) * 2 ^ (E + 1074)).
Proof.
  intros Ha Hb He E z.
  destruct (rounded_mantissa_bounds a b e Ha Hb He) as [Hm Hnorm].
  fold E in Hm, Hnorm.
  assert (HE : -1074 <= E) by (unfold E; rewrite fexp_eq; lia).
  unfold z, binary_round_aux.
  rewrite (first_shift a b e Ha Hb He). fold E.
  rewrite round_rec_of by (pose proof (pow2_pos (E - e)); unfold E in *; nia).
  set (m2 := round_half_even_div a (b * 2 ^ (E - e))) in *.
  rewrite (second_shift m2 E Hm Hnorm HE).
  assert (P : 0 < 2 ^ (E + 1074)) by (apply pow2_pos; lia).
  unfold cap.
  destruct (Z.eqb_spec m2 (2 ^ 53)) as [E53|NE].
  - cbn [shr_m]. change (2 ^ 52) with (Z.pos (2 ^ 52)%positive).
    cbv iota beta.
    change (emax - prec) with 971.
    destruct (Z.leb_spec (E + 1) 971) as [L|L].
    + split; [reflexivity|]. cbn [val].
      rewrite E53.
      replace (E + 1 + 1074) with (1 + (E + 1074)) by lia.
      rewrite Z.pow_add_r by lia.
      assert (2 ^ 53 * 2 ^ (E + 1074) < 2 ^ 2098).
      { rewrite <- Z.pow_add_r by lia. apply Z.pow_lt_mono_r; lia. }
      change (Z.pos (2 ^ 52)) with (2 ^ 52). change (2 ^ 53) with (2 ^ 52 * 2 ^ 1) in *.
      rewrite Z.min_l by lia. ring.
    + split; [reflexivity|]. cbn [val].
      rewrite E53.
      assert (2 ^ 2098 <= 2 ^ 53 * 2 ^ (E + 1074)).
      { rewrite <- Z.pow_add_r by lia. apply Z.pow_le_mono_r; lia. }
      rewrite Z.min_r by lia. reflexivity.
  - cbn [shr_m].
    destruct m2 as [|p|p]; [| |lia].
    + split; [reflexivity|]. cbn [val]. rewrite Z.mul_0_l.
      rewrite Z.min_l; [reflexivity|]. apply Z.pow_nonneg. lia.
    + change (emax - prec) with 971.
      destruct (Z.leb_spec E 971) as [L|L].
      * split; [reflexivity|]. cbn [val].
        assert (Z.pos p * 2 ^ (E + 1074) < 2 ^ 53 * 2 ^ (E + 1074)) by nia.
        assert (2 ^ 53 * 2 ^ (E + 1074) <= 2 ^ 2098).
        { rewrite <- Z.pow_add_r by lia. apply Z.pow_le_mono_r; lia. }
        rewrite Z.min_l by lia. reflexivity.
      * split; [reflexivity|]. cbn [val].
        specialize (Hnorm ltac:(lia)).
        assert (2 ^ 2098 <= 2 ^ 52 * 2 ^ (E + 1074)).
        { rewrite <- Z.pow_add_r by lia. apply Z.pow_le_mono_r; lia. }
        rewrite Z.min_r by nia. reflexivity.
Qed.

Lemma Zdigits2_div_pow2 (m j : Z) :
  0 <= m -> 0 <= j -> Zdigits2 (m / 2 ^ j) = Z.max (Zdigits2 m - j) 0.
Proof.
  intros Hm Hj. pose proof (pow2_pos j Hj) as Pj.
  destruct (Z_lt_le_dec m (2 ^ j)) as [L|L].
  - rewrite Z.div_small by lia.
    pose proof (Zdigits2_le m j Hj ltac:(lia)). simpl. lia.
  - pose proof (Zdigits2_ge m j L) as G.
    pose proof (Zdigits2_spec m ltac:(lia)) as [S1 S2].
    rewrite Z.max_l by lia.
    apply Zdigits2_unique; [lia|]. split.
    + apply Z.div_le_lower_bound; [lia|].
      rewrite <- Z.pow_add_r by lia.
      replace (j + (Zdigits2 m - j - 1)) with (Zdigits2 m - 1) by lia. assumption.
    + apply Z.div_lt_upper_bound; [lia|].
      rewrite <- Z.pow_add_r by lia.
      replace (j + (Zdigits2 m - j)) with (Zdigits2 m) by lia. assumption.
Qed.

Lemma Zdigits2_mul_pow2_div (a b k : Z) :
  0 <= a -> 0 < b -> 0 <= k -> 0 < a / b ->
  Zdigits2 (a * 2 ^ k / b) = Zdigits2 (a / b) + k.
Proof.
  intros Ha Hb Hk Hq. pose proof (pow2_pos k Hk) as Pk.
  pose proof (Zdigits2_spec (a / b) Hq) as [S1 S2].
  pose proof (Z.mul_div_le a b Hb) as L1.
  assert (L2 : a < b * (a / b + 1)).
  { pose proof (Z.div_mod a b ltac:(lia)).
    pose proof (Z.mod_pos_bound a b Hb). nia. }
  assert (0 < Zdigits2 (a / b)).
  { pose proof (Zdigits2_ge (a / b) 0 ltac:(simpl; lia)). lia. }
  apply Zdigits2_unique; [lia|].
  replace (Zdigits2 (a / b) + k - 1) with (Zdigits2 (a / b) - 1 + k) by lia.
  rewrite !Z.pow_add_r by lia.
  assert (B1 : b * 2 ^ (Zdigits2 (a / b) - 1) <= a).
  { apply Z.le_trans with (b * (a / b)); [|assumption].
    apply Z.mul_le_mono_nonneg_l; lia. }
  assert (B2 : a < b * 2 ^ Zdigits2 (a / b)).
  { apply Z.lt_le_trans with (b * (a / b + 1)); [assumption|].
    apply Z.mul_le_mono_nonneg_l; lia. }
  generalize dependent (2 ^ Zdigits2 (a / b)).
  generalize dependent (2 ^ (Zdigits2 (a / b) - 1)).
  generalize dependent (2 ^ k).
  intros Y Py X _ B1 U _ B2. split.
  - apply Z.div_le_lower_bound; [lia|]. nia.
  - apply Z.div_lt_upper_bound; [lia|]. nia.
Qed.


Lemma binary_round_aux_rz (a b e : Z) :
  0 <= a -> 0 < b ->
  e <= fexp prec emax (Zdigits2 (a / b) + e) ->
  let z := binary_round_aux prec emax false (a / b) e (loc_of a b) in
  nonneg z = true /\ val z = cap (rz (scaled_num a e) (scaled_den b e)).
Proof.
  intros Ha Hb He z.
  destruct (binary_round_aux_val a b e Ha Hb He) as [Hn Hv]. fold z in Hn, Hv.
  split; [exact Hn|]. rewrite Hv. f_equal.
  assert (Hq0 : 0 <= a / b) by (apply Z.div_pos; lia).
  pose proof (Zdigits2_nonneg (a / b)) as DN.
  set (E := fexp prec emax (Zdigits2 (a / b) + e)) in *.
  assert (HE : E = Z.max (Zdigits2 (a / b) + e - 53) (-1074)) by apply fexp_eq.
  unfold rz, scaled_num, scaled_den.
  destruct (Z_le_gt_dec 0 (e + 1074)) as [K|K].
  - rewrite (Z.max_l (e + 1074) 0), (Z.max_r (- (e + 1074)) 0) by lia.
    rewrite Z.pow_0_r, Z.mul_1_r.
    pose proof (pow2_pos (e + 1074) K) as Pk.
    assert (HD : Z.max (Zdigits2 (a * 2 ^ (e + 1074) / b) - 53) 0 = E + 1074).
    { destruct (Z.eq_dec (a / b) 0) as [Z0|NZ].
      - rewrite Z0 in HE. simpl Zdigits2 in HE.
        assert (e = -1074) by lia. subst e.
        change (-1074 + 1074) with 0. rewrite Z.pow_0_r, Z.mul_1_r, Z0.
        simpl Zdigits2. lia.
      - rewrite Zdigits2_mul_pow2_div by lia. lia. }
    rewrite HD.
    pose proof (pow2_pos (E - e) ltac:(lia)).
    pose proof (pow2_pos (E + 1074) ltac:(lia)).
    f_equal. apply rhe_ext; try nia.
    replace (E + 1074) with ((E - e) + (e + 1074)) by lia.
    rewrite (Z.pow_add_r 2 (E - e) (e + 1074)) by lia. ring.
  - rewrite (Z.max_r (e + 1074) 0), (Z.max_l (- (e + 1074)) 0) by lia.
    rewrite Z.pow_0_r, Z.mul_1_r.
    set (j := - (e + 1074)) in *.
    pose proof (pow2_pos j ltac:(lia)) as Pj.
    rewrite <- Z.div_div by lia.
    rewrite Zdigits2_div_pow2 by lia.
    assert (HD : Z.max (Z.max (Zdigits2 (a / b) - j) 0 - 53) 0 = E + 1074)
      by (unfold j; lia).
    rewrite HD.
    pose proof (pow2_pos (E - e) ltac:(lia)).
    pose proof (pow2_pos (E + 1074) ltac:(lia)).
    f_equal. apply rhe_ext; try nia.
    replace (E - e) with (j + (E + 1074)) by (unfold j; lia).
    rewrite (Z.pow_add_r 2 j (E + 1074)) by lia. ring.
Qed.

(** *** Valid floats *)

Lemma valid_finite (s : bool) (m : positive) (e : Z) :
  valid_binary (S754_finite s m e) = true ->
  -1074 <= e <= 971 /\ Z.pos m < 2 ^ 53 /\
  (-1074 < e -> 2 ^ 52 <= Z.pos m) /\
  fexp prec emax (Zdigits2 (Z.pos m) + e) = e.
Proof.
  unfold SpecFloat.valid_binary, bounded, canonical_mantissa.
  intros H. apply andb_true_iff in H. destruct H as [C B].
  apply Z.eqb_eq in C. apply Z.leb_le in B. change (emax - prec) with 971 in B.
  change (Z.pos (digits2_pos m)) with (Zdigits2 (Z.pos m)) in C.
  pose proof C as C'. rewrite fexp_eq in C'.
  pose proof (Zdigits2_spec (Z.pos m) ltac:(lia)) as [L U].
  split; [lia|]. split; [|split; [|exact C]].
  - assert (2 ^ Zdigits2 (Z.pos m) <= 2 ^ 53) by (apply Z.pow_le_mono_r; lia).
    lia.
  - intros He. replace 52 with (Zdigits2 (Z.pos m) - 1) by lia. exact L.
Qed.

(** The value of a valid float has at most 53 significant bits. *)
Lemma val_representable (x : spec_float) :
  valid_binary x = true ->
  exists m t, val x = m * 2 ^ t /\ 0 <= m < 2 ^ 53 /\ 0 <= t.
Proof.
  intros V. destruct x as [s|s| |s m e].
  - exists 0, 0. split; [reflexivity|]. split; [|lia].
    split; [lia|apply pow2_pos; lia].
  - exists 1, 2098. cbn [val]. split; [lia|]. split; [|lia].
    split; [lia|]. apply Z.pow_gt_1; lia.
  - exists 0, 0. split; [reflexivity|]. split; [|lia].
    split; [lia|apply pow2_pos; lia].
  - destruct (valid_finite s m e V) as (He & Hm & _).
    exists (Z.pos m), (e + 1074).
    split; [reflexivity|]. split; [split; [lia|exact Hm]|lia].
Qed.

Lemma rz_val (x : spec_float) : valid_binary x = true -> rz (val x) 1 = val x.
Proof.
  intros V. destruct (val_representable x V) as (m & t & -> & Hm & Ht).
  apply rz_exact; assumption.
Qed.

Lemma val_bounds (x : spec_float) : valid_binary x = true -> 0 <= val x <= 2 ^ 2098.
Proof.
  intros V. destruct x as [s|s| |s m e]; cbn [val];
    try (split; [lia | apply Z.pow_nonneg; lia]).
  - split; [apply Z.pow_nonneg|]; lia.
  - destruct (valid_finite s m e V) as (He & Hm & _).
    pose proof (pow2_pos (e + 1074) ltac:(lia)).
    assert (2 ^ 53 * 2 ^ (e + 1074) <= 2 ^ 2098).
    { rewrite <- Z.pow_add_r by lia. apply Z.pow_le_mono_r; lia. }
    nia.
Qed.

Lemma val_finite_lt (s : bool) (m : positive) (e : Z) :
  valid_binary (S754_finite s m e) = true -> val (S754_finite s m e) < 2 ^ 2098.
Proof.
  intros V. destruct (valid_finite s m e V) as (He & Hm & _). cbn [val].
  pose proof (pow2_pos (e + 1074) ltac:(lia)).
  assert (2 ^ 53 * 2 ^ (e + 1074) <= 2 ^ 2098).
  { rewrite <- Z.pow_add_r by lia. apply Z.pow_le_mono_r; lia. }
  nia.
Qed.

Lemma cap_val (x : spec_float) : valid_binary x = true -> cap (val x) = val x.
Proof. intros V. pose proof (val_bounds x V). unfold cap. lia. Qed.

Lemma cap_mono (a b : Z) : a <= b -> cap a <= cap b.
Proof. unfold cap. lia. Qed.

Lemma cap_rz_inf (v : Z) : 2 ^ 2098 <= v -> cap (rz v 1) = 2 ^ 2098.
Proof.
  intros H. unfold cap. apply Z.min_r.
  assert (P : 0 < 2 ^ 2098) by (apply pow2_pos; lia).
  rewrite <- (rz_exact 1 2098) at 1; [|split; [lia|apply Z.pow_gt_1; lia]|lia].
  apply rz_mono; lia.
Qed.

(** Left alignment *)
Lemma iter_xO_pow2 (d m : positive) :
  Z.pos (Pos.iter xO m d) = Z.pos m * 2 ^ Z.pos d.
Proof.
  induction d as [|d IH] using Pos.peano_ind.
  - simpl. lia.
  - rewrite Pos.iter_succ, Pos2Z.inj_xO, IH, Pos2Z.inj_succ, Z.pow_succ_r by lia.
    ring.
Qed.

Lemma shl_align_spec (m : positive) (e e' : Z) :
  snd (shl_align m e e') = Z.min e e' /\
  Z.pos (fst (shl_align m e e')) = Z.pos m * 2 ^ (e - Z.min e e').
Proof.
  unfold shl_align. destruct (e' - e) as [|d|d] eqn:D; cbn [fst snd].
  - rewrite Z.min_l by lia. rewrite Z.sub_diag. simpl. lia.
  - rewrite Z.min_l by lia. rewrite Z.sub_diag. simpl. lia.
  - rewrite Z.min_r by lia. split; [reflexivity|].
    rewrite iter_xO_pow2. f_equal. f_equal. lia.
Qed.

Lemma loc_of_exact (a : Z) : loc_of a 1 = loc_Exact.
Proof. unfold loc_of. rewrite Z.mod_1_r. reflexivity. Qed.

Lemma binary_round_val (p : positive) (e : Z) :
  -1074 <= e ->
  let z := binary_round prec emax false p e in
  nonneg z = true /\ val z = cap (rz (Z.pos p * 2 ^ (e + 1074)) 1).
Proof.
  intros He z. unfold z, binary_round.
  set (F := fexp prec emax (Z.pos (digits2_pos p) + e)).
  destruct (shl_align_spec p e F) as [S1 S2].
  destruct (shl_align p e F) as [mz ez]. cbn [fst snd] in S1, S2.
  assert (HF : -1074 <= F) by (unfold F; rewrite fexp_eq; lia).
  assert (Hez : -1074 <= ez <= e) by lia.
  assert (HD : Zdigits2 (Z.pos mz) + ez = Zdigits2 (Z.pos p) + e).
  { rewrite S2, Zdigits2_shift by lia. lia. }
  pose proof (binary_round_aux_rz (Z.pos mz) 1 ez ltac:(lia) ltac:(lia)) as H.
  rewrite Z.div_1_r, loc_of_exact in H.
  rewrite HD in H. change (Zdigits2 (Z.pos p)) with (Z.pos (digits2_pos p)) in H.
  fold F in H. specialize (H ltac:(lia)). cbv zeta in H.
  destruct H as [Hn Hv]. split; [exact Hn|]. rewrite Hv. f_equal.
  unfold scaled_num, scaled_den.
  rewrite (Z.max_l (ez + 1074) 0), (Z.max_r (- (ez + 1074)) 0) by lia.
  rewrite Z.pow_0_r, Z.mul_1_r. f_equal.
  rewrite S2, <- Z.mul_assoc, <- Z.pow_add_r by lia.
  f_equal. f_equal. lia.
Qed.

(** *** Addition and multiplication *)

Lemma SFadd_val (x y : spec_float) :
  valid_binary x = true -> valid_binary y = true -> nonneg x = true -> nonneg y = true ->
  nonneg (SF64add x y) = true /\
  val (SF64add x y) = cap (rz (val x + val y) 1).
Proof.
  intros Vx Vy Nx Ny.
  pose proof (val_bounds x Vx) as Bx. pose proof (val_bounds y Vy) as By.
  pose proof (rz_val y Vy) as Ry. pose proof (cap_val y Vy) as Cy.
  pose proof (rz_val x Vx) as Rx. pose proof (cap_val x Vx) as Cx.
  unfold SF64add.
  destruct x as [sx|sx| |sx mx ex]; try discriminate Nx.
  - (* zero + y *)
    assert (Hr : forall r, r = y -> nonneg r = true /\
                 val r = cap (rz (val (S754_zero sx) + val y) 1)).
    { intros r ->. split; [exact Ny|].
      change (val (S754_zero sx)) with 0. rewrite Z.add_0_l, Ry, Cy.
      reflexivity. }
    destruct y as [sy|sy| |sy my ey]; try discriminate Ny;
      try (apply Hr; reflexivity).
    split; [destruct sx, sy; reflexivity|].
    change (val (S754_zero sx)) with 0. change (val (S754_zero sy)) with 0.
    rewrite Z.add_0_l, rz_0 by lia.
    destruct sx, sy; reflexivity.
  - (* infinity + y *)
    destruct sx; try discriminate Nx.
    assert (Hr : forall r, r = S754_infinity false -> nonneg r = true /\
                 val r = cap (rz (val (S754_infinity false) + val y) 1)).
    { intros r ->. split; [reflexivity|].
      symmetry. apply cap_rz_inf. cbn [val] in *. lia. }
    destruct y as [sy|sy| |sy my ey]; try discriminate Ny;
      try (apply Hr; reflexivity).
    destruct sy; try discriminate Ny. apply Hr. reflexivity.
  - (* finite + y *)
    destruct sx; try discriminate Nx.
    destruct y as [sy|sy| |sy my ey]; try discriminate Ny.
    + split; [reflexivity|].
      change (val (S754_zero sy)) with 0. rewrite Z.add_0_r, Rx, Cx.
      reflexivity.
    + destruct sy; try discriminate Ny.
      split; [reflexivity|].
      symmetry. rewrite Z.add_comm. apply cap_rz_inf. cbn [val] in *. lia.
    + destruct sy; try discriminate Ny.
      destruct (valid_finite _ _ _ Vx) as (Hex & _).
      destruct (valid_finite _ _ _ Vy) as (Hey & _).
      unfold SFadd. cbn [cond_Zopp].
      set (ez := Z.min ex ey).
      destruct (shl_align_spec mx ex ez) as [_ Sx].
      destruct (shl_align_spec my ey ez) as [_ Sy].
      rewrite (Z.min_r ex ez) in Sx by (unfold ez; lia).
      rewrite (Z.min_r ey ez) in Sy by (unfold ez; lia).
      set (px := fst (shl_align mx ex ez)) in *.
      set (py := fst (shl_align my ey ez)) in *.
      change (Z.pos px + Z.pos py) with (Z.pos (px + py)).
      cbn [binary_normalize].
      destruct (binary_round_val (px + py) ez ltac:(unfold ez; lia)) as [Hn Hv].
      split; [exact Hn|]. rewrite Hv. f_equal. f_equal.
      rewrite Pos2Z.inj_add, Sx, Sy. cbn [val].
      rewrite Z.mul_add_distr_r, <- !Z.mul_assoc.
      rewrite <- !Z.pow_add_r by (unfold ez; lia).
      f_equal; f_equal; f_equal; unfold ez; lia.
Qed.

Lemma mul_prealigned (mx my : positive) (ex ey : Z) :
  valid_binary (S754_finite false mx ex) = true ->
  valid_binary (S754_finite false my ey) = true ->
  ex + ey <= fexp prec emax (Zdigits2 (Z.pos mx * Z.pos my) + (ex + ey)).
Proof.
  intros Vx Vy.
  destruct (valid_finite _ _ _ Vx) as (Hex & Hmx & Nx & _).
  destruct (valid_finite _ _ _ Vy) as (Hey & Hmy & Ny & _).
  rewrite fexp_eq.
  destruct (Z_le_gt_dec (ex + ey) (-1074)) as [L|L]; [lia|].
  assert (2 ^ 52 <= Z.pos mx * Z.pos my).
  { destruct (Z.eq_dec ex (-1074)) as [E|NE].
    - specialize (Ny ltac:(lia)). nia.
    - specialize (Nx ltac:(lia)). nia. }
  pose proof (Zdigits2_ge _ 52 H). lia.
Qed.

Lemma SFmul_val (x y : spec_float) :
  valid_binary x = true -> valid_binary y = true -> nonneg x = true -> nonneg y = true ->
  val x < 2 ^ 2098 -> val y < 2 ^ 2098 ->
  nonneg (SF64mul x y) = true /\
  val (SF64mul x y) = cap (rz (val x * val y) (2 ^ 1074)).
Proof.
  intros Vx Vy Nx Ny Fx Fy.
  assert (P : 0 < 2 ^ 1074) by (apply pow2_pos; lia).
  destruct x as [sx|sx| |sx mx ex]; try discriminate Nx;
    destruct y as [sy|sy| |sy my ey]; try discriminate Ny;
    try (cbn [val] in Fx; lia); try (cbn [val] in Fy; lia).
  - split; [reflexivity|]. cbn [val]. rewrite Z.mul_0_l, rz_0 by lia. reflexivity.
  - split; [reflexivity|]. cbn [val]. rewrite Z.mul_0_l, rz_0 by lia. reflexivity.
  - split; [reflexivity|]. cbn [val]. rewrite Z.mul_0_r, rz_0 by lia. reflexivity.
  - destruct sx; try discriminate Nx. destruct sy; try discriminate Ny.
    destruct (valid_finite _ _ _ Vx) as (Hex & _).
    destruct (valid_finite _ _ _ Vy) as (Hey & _).
    unfold SF64mul, SFmul. cbn [xorb].
    pose proof (mul_prealigned mx my ex ey Vx Vy) as Pre.
    pose proof (binary_round_aux_rz (Z.pos mx * Z.pos my) 1 (ex + ey) ltac:(lia) ltac:(lia)) as H.
    rewrite Z.div_1_r, loc_of_exact in H. specialize (H Pre). cbv zeta in H.
    rewrite Pos2Z.inj_mul.
    destruct H as [Hn Hv]. split; [exact Hn|]. rewrite Hv. f_equal.
    unfold scaled_num, scaled_den. cbn [val].
    set (e := ex + ey) in *.
    pose proof (pow2_pos (Z.max (e + 1074) 0) ltac:(lia)).
    pose proof (pow2_pos (Z.max (- (e + 1074)) 0) ltac:(lia)).
    pose proof (pow2_pos (ex + 1074) ltac:(lia)).
    pose proof (pow2_pos (ey + 1074) ltac:(lia)).
    apply rz_ext; try nia.
    transitivity (Z.pos mx * Z.pos my * 2 ^ (Z.max (e + 1074) 0 + 1074)).
    { rewrite Z.pow_add_r by lia. ring. }
    transitivity (Z.pos mx * Z.pos my *
                  2 ^ ((ex + 1074) + (ey + 1074) + Z.max (- (e + 1074)) 0)).
    { f_equal. f_equal. unfold e. lia. }
    rewrite !Z.pow_add_r by lia. ring.
Qed.

(** *** Division *)

Lemma new_location_loc_of (a b : Z) :
  0 < b -> new_location b (a mod b) = loc_of a b.
Proof.
  intros Hb. pose proof (Z.mod_pos_bound a b Hb) as R.
  unfold new_location, new_location_even, new_location_odd, loc_of.
  set (r := a mod b) in *.
  destruct (Z.even b) eqn:Ev; destruct (Z.eqb_spec r 0) as [E|NE];
    try reflexivity.
  f_equal.
  assert (Hodd : Z.odd b = true) by (rewrite <- Z.negb_even, Ev; reflexivity).
  apply Z.odd_spec in Hodd. destruct Hodd as [k Hk].
  destruct (Z.compare_spec (2 * r + 1) b), (Z.compare_spec (2 * r) b);
    try reflexivity; lia.
Qed.

Lemma div_prealigned (mx my : positive) (ex ey : Z) :
  valid_binary (S754_finite false mx ex) = true ->
  valid_binary (S754_finite false my ey) = true ->
  let e' := Z.min (fexp prec emax (Zdigits2 (Z.pos mx) + ex - (Zdigits2 (Z.pos my) + ey)))
                  (ex - ey) in
  let s := ex - ey - e' in
  0 <= s /\
  e' <= fexp prec emax (Zdigits2 (Z.pos mx * 2 ^ s / Z.pos my) + e').
Proof.
  intros Vx Vy e' s.
  destruct (valid_finite _ _ _ Vx) as (Hex & Hmx & Nx & _).
  destruct (valid_finite _ _ _ Vy) as (Hey & Hmy & Ny & _).
  pose proof (Zdigits2_spec (Z.pos mx) ltac:(lia)) as [L1 U1].
  pose proof (Zdigits2_spec (Z.pos my) ltac:(lia)) as [L2 U2].
  assert (D1 : Zdigits2 (Z.pos mx) <= 53) by (apply Zdigits2_le; lia).
  assert (D2 : 1 <= Zdigits2 (Z.pos my)).
  { pose proof (Zdigits2_ge (Z.pos my) 0 ltac:(simpl; lia)). lia. }
  assert (D1' : 1 <= Zdigits2 (Z.pos mx)).
  { pose proof (Zdigits2_ge (Z.pos mx) 0 ltac:(simpl; lia)). lia. }
  set (d1 := Zdigits2 (Z.pos mx)) in *. set (d2 := Zdigits2 (Z.pos my)) in *.
  assert (He' : e' = Z.min (Z.max (d1 + ex - (d2 + ey) - 53) (-1074)) (ex - ey))
    by reflexivity.
  assert (Hs : 0 <= s) by (unfold s; lia).
  split; [exact Hs|]. rewrite fexp_eq.
  destruct (Z_le_gt_dec e' (-1074)) as [L|L]; [lia|].
  (* e' > -1074, hence e' = d1 - d2 + ex - ey - 53 and s = 53 - (d1 - d2) *)
  assert (Hs' : s = 53 - d1 + d2) by (unfold s; lia).
  assert (Q : 2 ^ 52 <= Z.pos mx * 2 ^ s / Z.pos my).
  { apply Z.div_le_lower_bound; [lia|].
    apply Z.le_trans with (2 ^ d2 * 2 ^ 52); [nia|].
    apply Z.le_trans with (2 ^ (d1 - 1) * 2 ^ s).
    - rewrite <- !Z.pow_add_r by lia. apply Z.pow_le_mono_r; lia.
    - apply Z.mul_le_mono_nonneg_r; [apply Z.pow_nonneg|]; lia. }
  pose proof (Zdigits2_ge _ 52 Q). lia.
Qed.

Lemma SFdiv_val (x : spec_float) (my : positive) (ey : Z) :
  valid_binary x = true -> valid_binary (S754_finite false my ey) = true ->
  nonneg x = true -> val x < 2 ^ 2098 ->
  nonneg (SF64div x (S754_finite false my ey)) = true /\
  val (SF64div x (S754_finite false my ey)) =
    cap (rz (val x * 2 ^ 1074) (val (S754_finite false my ey))).
Proof.
  intros Vx Vy Nx Fx.
  destruct (valid_finite _ _ _ Vy) as (Hey & Hmy & _).
  pose proof (pow2_pos (ey + 1074) ltac:(lia)) as Py.
  assert (P : 0 < 2 ^ 1074) by (apply pow2_pos; lia).
  destruct x as [sx|sx| |sx mx ex]; try discriminate Nx;
    try (cbn [val] in Fx; lia).
  - split; [reflexivity|]. cbn [val]. rewrite Z.mul_0_l, rz_0 by nia.
    reflexivity.
  - destruct sx; try discriminate Nx.
    destruct (valid_finite _ _ _ Vx) as (Hex & Hmx & _).
    pose proof (pow2_pos (ex + 1074) ltac:(lia)) as Px.
    destruct (div_prealigned mx my ex ey Vx Vy) as [Hs Pre].
    unfold SF64div, SFdiv, SFdiv_core_binary. cbn [xorb].
    set (e' := Z.min (fexp prec emax
                        (Zdigits2 (Z.pos mx) + ex - (Zdigits2 (Z.pos my) + ey)))
                     (ex - ey)) in *.
    set (s := ex - ey - e') in *.
    set (m' := match s with
               | 0 => Z.pos mx
               | Z.pos _ => Z.shiftl (Z.pos mx) s
               | Z.neg _ => 0
               end).
    assert (Hm' : m' = Z.pos mx * 2 ^ s).
    { unfold m'. destruct s as [|p|p] eqn:Es; [simpl; lia| |lia].
      rewrite Z.shiftl_mul_pow2 by lia. reflexivity. }
    pose proof (pow2_pos s Hs) as Ps.
    assert (Hq : Z.div_eucl m' (Z.pos my) = (m' / Z.pos my, m' mod Z.pos my)).
    { unfold Z.div, Z.modulo. destruct (Z.div_eucl m' (Z.pos my)). reflexivity. }
    rewrite Hq, new_location_loc_of by lia.
    pose proof (binary_round_aux_rz m' (Z.pos my) e' ltac:(nia) ltac:(lia)) as H.
    rewrite Hm' in H at 1. specialize (H Pre). cbv zeta in H.
    destruct H as [Hn Hv]. split; [exact Hn|]. rewrite Hv. f_equal.
    unfold scaled_num, scaled_den. cbn [val]. rewrite Hm'.
    pose proof (pow2_pos (Z.max (e' + 1074) 0) ltac:(lia)).
    pose proof (pow2_pos (Z.max (- (e' + 1074)) 0) ltac:(lia)).
    apply rz_ext; try nia.
    transitivity (Z.pos mx * Z.pos my *
                  2 ^ (s + Z.max (e' + 1074) 0 + (ey + 1074))).
    { rewrite (Z.pow_add_r 2 (s + Z.max (e' + 1074) 0) (ey + 1074)) by lia.
      rewrite (Z.pow_add_r 2 s (Z.max (e' + 1074) 0)) by lia. ring. }
    transitivity (Z.pos mx * Z.pos my *
                  2 ^ ((ex + 1074) + 1074 + Z.max (- (e' + 1074)) 0)).
    { f_equal. f_equal. unfold s. lia. }
    rewrite (Z.pow_add_r 2 (ex + 1074 + 1074) (Z.max (- (e' + 1074)) 0)) by lia.
    rewrite (Z.pow_add_r 2 (ex + 1074) 1074) by lia. ring.
Qed.

(** *** Order, and transport to primitive floats *)

Lemma SFleb_zero_nonneg (x : spec_float) :
  SFleb (S754_zero false) x = true -> nonneg x = true.
Proof.
  destruct x as [s|[|]| |[|] m e]; simpl; intros H;
    (discriminate || reflexivity).
Qed.

Lemma nonneg_SFleb_zero (x : spec_float) :
  nonneg x = true -> SFleb (S754_zero false) x = true.
Proof.
  destruct x as [s|[|]| |[|] m e]; simpl; intros H;
    (discriminate || reflexivity).
Qed.

Lemma SFltb_zero_pos (x : spec_float) :
  valid_binary x = true -> SFltb (S754_zero false) x = true -> 0 < val x.
Proof.
  intros V.
  destruct x as [s|[|]| |[|] m e]; cbn [SFltb SFcompare val]; intros H;
    try discriminate.
  - apply pow2_pos. lia.
  - destruct (valid_finite _ _ _ V) as (He & _).
    pose proof (pow2_pos (e + 1074) ltac:(lia)). nia.
Qed.

Lemma SFltb_infinity_finite (x : spec_float) :
  valid_binary x = true -> nonneg x = true ->
  SFltb x (S754_infinity false) = true -> val x < 2 ^ 2098.
Proof.
  intros V N.
  assert (P : 0 < 2 ^ 2098) by (apply pow2_pos; lia).
  destruct x as [s|[|]| |s m e]; try discriminate N;
    cbn [SFltb SFcompare val]; intros H; try discriminate; try exact P.
  apply (val_finite_lt s m e V).
Qed.

Lemma val_le_SFleb (x y : spec_float) :
  valid_binary x = true -> valid_binary y = true -> nonneg x = true -> nonneg y = true ->
  val x <= val y -> SFleb x y = true.
Proof.
  intros Vx Vy Nx Ny H.
  assert (P : 0 < 2 ^ 2098) by (apply pow2_pos; lia).
  destruct x as [sx|[|]| |[|] mx ex]; try discriminate Nx;
    destruct y as [sy|[|]| |[|] my ey]; try discriminate Ny;
    try reflexivity.
  - cbn [val] in H. lia.
  - pose proof (val_finite_lt _ _ _ Vy). cbn [val] in *. lia.
  - destruct (valid_finite _ _ _ Vx) as (He & _).
    pose proof (pow2_pos (ex + 1074) ltac:(lia)). cbn [val] in H. nia.
  - destruct (valid_finite _ _ _ Vx) as (Hex & Hmx & Nmx & _).
    destruct (valid_finite _ _ _ Vy) as (Hey & Hmy & Nmy & _).
    cbn [val] in H. unfold SFleb, SFcompare.
    change (Pos.compare_cont Eq mx my) with (mx ?= my)%positive.
    destruct (Z.compare_spec ex ey) as [E|L|G]; [|reflexivity|].
    + subst ey. pose proof (pow2_pos (ex + 1074) ltac:(lia)).
      assert (Hle : Z.pos mx <= Z.pos my) by nia.
      destruct (Pos.compare_spec mx my); try reflexivity. lia.
    + exfalso. specialize (Nmx ltac:(lia)).
      pose proof (pow2_pos (ey + 1074) ltac:(lia)).
      assert (2 ^ 53 * 2 ^ (ey + 1074) <= 2 ^ 52 * 2 ^ (ex + 1074)).
      { rewrite <- !Z.pow_add_r by lia. apply Z.pow_le_mono_r; lia. }
      pose proof (pow2_pos (ex + 1074) ltac:(lia)).
      nia.
Qed.

(** Primitive floats *)
Local Open Scope float_scope.


Lemma leb_zero_fnonneg (x : float) : (0 <=? x) = true -> fnonneg x = true.
Proof. rewrite leb_spec. apply SFleb_zero_nonneg. Qed.

Lemma fnonneg_leb_zero (x : float) : fnonneg x = true -> (0 <=? x) = true.
Proof. rewrite leb_spec. apply nonneg_SFleb_zero. Qed.

Lemma add_fval (x y : float) :
  fnonneg x = true -> fnonneg y = true ->
  fnonneg (x + y) = true /\ fval (x + y) = cap (rz (fval x + fval y) 1).
Proof.
  unfold fnonneg, fval. rewrite add_spec.
  apply SFadd_val; apply Prim2SF_valid.
Qed.

Lemma mul_fval (x y : float) :
  fnonneg x = true -> fnonneg y = true ->
  (fval x < 2 ^ 2098)%Z -> (fval y < 2 ^ 2098)%Z ->
  fnonneg (x * y) = true /\
  fval (x * y) = cap (rz (fval x * fval y) (2 ^ 1074)).
Proof.
  unfold fnonneg, fval. rewrite mul_spec.
  apply SFmul_val; apply Prim2SF_valid.
Qed.

Lemma div_fval (x y : float) :
  fnonneg x = true -> fnonneg y = true ->
  (fval x < 2 ^ 2098)%Z -> (0 < fval y < 2 ^ 2098)%Z ->
  fnonneg (x / y) = true /\
  fval (x / y) = cap (rz (fval x * 2 ^ 1074) (fval y)).
Proof.
  unfold fnonneg, fval. rewrite div_spec.
  pose proof (Prim2SF_valid x) as Vx. pose proof (Prim2SF_valid y) as Vy.
  destruct (Prim2SF y) as [sy|sy| |sy my ey]; intros Nx Ny Fx Fy;
    try discriminate Ny; cbn [val] in Fy; try lia.
  destruct sy; try discriminate Ny.
  apply SFdiv_val; assumption.
Qed.

Lemma fval_bounds (x : float) : (0 <= fval x <= 2 ^ 2098)%Z.
Proof. apply val_bounds, Prim2SF_valid. Qed.

Lemma rz_fval (x : float) : rz (fval x) 1 = fval x.
Proof. apply rz_val, Prim2SF_valid. Qed.

Lemma fval_le_leb (x y : float) :
  fnonneg x = true -> fnonneg y = true -> (fval x <= fval y)%Z ->
  (x <=? y) = true.
Proof.
  intros. rewrite leb_spec. apply val_le_SFleb; try apply Prim2SF_valid; assumption.
Qed.

Lemma ltb_zero_fval (x : float) : (0 <? x) = true -> (0 < fval x)%Z.
Proof. rewrite ltb_spec. apply SFltb_zero_pos, Prim2SF_valid. Qed.

Lemma ltb_infinity_fval (x : float) :
  fnonneg x = true -> (x <? infinity) = true -> (fval x < 2 ^ 2098)%Z.
Proof.
  rewrite ltb_spec. intros N. apply SFltb_infinity_finite; [|exact N].
  apply Prim2SF_valid.
Qed.

(** *** The FiO2 formula on non-negative flows *)

Lemma air_fraction_SF : Prim2SF 0.21 = S754_finite false 7566047373982433 (-55).
Proof. vm_compute. reflexivity. Qed.

Lemma hundred_SF : Prim2SF 100 = S754_finite false 7036874417766400 (-46).
Proof. vm_compute. reflexivity. Qed.

Lemma air_fraction_fval :
  fnonneg 0.21 = true /\ (fval 0.21 <= 2 ^ 1074)%Z.
Proof.
  unfold fnonneg, fval. rewrite air_fraction_SF. split; [reflexivity|].
  cbn [val]. change (-55 + 1074)%Z with 1019%Z.
  replace (2 ^ 1074)%Z with (2 ^ 55 * 2 ^ 1019)%Z
    by (rewrite <- Z.pow_add_r by lia; reflexivity).
  apply Z.mul_le_mono_nonneg_r; [apply Z.pow_nonneg; lia|].
  vm_compute. discriminate.
Qed.

Lemma hundred_fval : fnonneg 100 = true /\ (fval 100 < 2 ^ 2098)%Z.
Proof.
  unfold fnonneg, fval. rewrite hundred_SF. split; [reflexivity|].
  apply val_finite_lt. rewrite <- hundred_SF. apply Prim2SF_valid.
Qed.

Lemma cap_le (z : Z) : (cap z <= z)%Z.
Proof. unfold cap. lia. Qed.

Lemma cap_small (z : Z) : (z <= 2 ^ 2098)%Z -> cap z = z.
Proof. unfold cap. lia. Qed.

Lemma rz_le_repr (a b v : Z) :
  (0 <= a -> 0 < b -> a <= v * b -> rz v 1 = v -> rz a b <= v)%Z.
Proof.
  intros Ha Hb H E. rewrite <- E. apply rz_mono; lia.
Qed.

Lemma rz_ge_repr (a b v : Z) :
  (0 <= v -> 0 < b -> v * b <= a -> rz v 1 = v -> v <= rz a b)%Z.
Proof.
  intros Hv Hb H E. rewrite <- E. apply rz_mono; lia.
Qed.

Lemma rz_one : rz (2 ^ 1074) 1 = (2 ^ 1074)%Z.
Proof.
  rewrite <- (Z.mul_1_l (2 ^ 1074)). apply rz_exact; [|lia].
  split; [lia|]. apply Z.pow_gt_1; lia.
Qed.

Theorem fio2_formula_range (o2 n2o air : float) :
  (0 <=? o2) = true -> (0 <=? n2o) = true -> (0 <=? air) = true ->
  (0 <? o2 + n2o + air) = true -> (o2 + n2o + air <? infinity) = true ->
  (0 <=? fio2_formula o2 n2o air) = true /\
  (fio2_formula o2 n2o air <=? 100) = true.
Proof.
  intros Ho Hn Ha Hpos Hfin.
  apply leb_zero_fnonneg in Ho, Hn, Ha.
  destruct (add_fval o2 n2o Ho Hn) as [Ns Vs].
  destruct (add_fval (o2 + n2o) air Ns Ha) as [Nt Vt].
  apply ltb_zero_fval in Hpos. apply (ltb_infinity_fval _ Nt) in Hfin.
  pose proof (fval_bounds o2) as Bo. pose proof (fval_bounds n2o) as Bn.
  pose proof (fval_bounds air) as Ba. pose proof (fval_bounds (o2 + n2o)) as Bs.
  assert (P : (0 < 2 ^ 1074)%Z) by (apply pow2_pos; lia).
  assert (C : (2 ^ 1074 < 2 ^ 2098)%Z) by (apply Z.pow_lt_mono_r; lia).
  (* no operand is infinite *)
  assert (Fsa : (fval (o2 + n2o) + fval air < 2 ^ 2098)%Z).
  { destruct (Z_lt_le_dec (fval (o2 + n2o) + fval air) (2 ^ 2098)) as [L|L];
      [exact L|].
    rewrite (cap_rz_inf _ L) in Vt. lia. }
  assert (Fon : (fval o2 + fval n2o < 2 ^ 2098)%Z).
  { destruct (Z_lt_le_dec (fval o2 + fval n2o) (2 ^ 2098)) as [L|L];
      [exact L|].
    rewrite (cap_rz_inf _ L) in Vs. lia. }
  (* the oxygen share of the air flow does not exceed the air flow *)
  destruct air_fraction_fval as [Nc Vc].
  assert (Fa : (fval air < 2 ^ 2098)%Z) by lia.
  assert (Fc : (fval 0.21 < 2 ^ 2098)%Z) by lia.
  destruct (mul_fval air 0.21 Ha Nc Fa Fc) as [Nm Vm].
  pose proof (fval_bounds 0.21) as Bc.
  assert (Lm : (fval (air * 0.21) <= fval air)%Z).
  { rewrite Vm.
    apply Z.le_trans with (rz (fval air * fval 0.21) (2 ^ 1074));
      [apply cap_le|].
    apply rz_le_repr; [apply Z.mul_nonneg_nonneg; lia|lia| |apply rz_fval].
    apply Z.mul_le_mono_nonneg_l; lia. }
  (* o2 <= o2 + n2o after rounding *)
  assert (Ls : (fval o2 <= fval (o2 + n2o))%Z).
  { rewrite Vs. rewrite <- (cap_small (fval o2)) at 1 by lia.
    apply cap_mono. apply rz_ge_repr; [lia|lia|lia|apply rz_fval]. }
  (* oxygen volume <= total flow *)
  destruct (add_fval o2 (air * 0.21) Ho Nm) as [Nv Vv].
  pose proof (fval_bounds (air * 0.21)) as Bm.
  assert (Lv : (fval (o2 + air * 0.21) <= fval (o2 + n2o + air))%Z).
  { rewrite Vv, Vt. apply cap_mono. apply rz_mono; lia. }
  (* the ratio is at most one *)
  pose proof (fval_bounds (o2 + air * 0.21)) as Bv.
  assert (Fv : (fval (o2 + air * 0.21) < 2 ^ 2098)%Z) by lia.
  assert (Ft : (0 < fval (o2 + n2o + air) < 2 ^ 2098)%Z) by lia.
  destruct (div_fval (o2 + air * 0.21) (o2 + n2o + air) Nv Nt Fv Ft)
    as [Nr Vr].
  assert (Lr : (fval ((o2 + air * 0.21) / (o2 + n2o + air)) <= 2 ^ 1074)%Z).
  { rewrite Vr.
    apply Z.le_trans with (rz (fval (o2 + air * 0.21) * 2 ^ 1074)
                              (fval (o2 + n2o + air))); [apply cap_le|].
    apply rz_le_repr; [apply Z.mul_nonneg_nonneg; lia|lia| |apply rz_one].
    rewrite (Z.mul_comm (2 ^ 1074)).
    apply Z.mul_le_mono_nonneg_r; lia. }
  (* times one hundred *)
  destruct hundred_fval as [Nh Vh].
  assert (Fr : (fval ((o2 + air * 0.21) / (o2 + n2o + air)) < 2 ^ 2098)%Z)
    by lia.
  destruct (mul_fval _ 100 Nr Nh Fr Vh) as [Nf Vf].
  pose proof (fval_bounds ((o2 + air * 0.21) / (o2 + n2o + air))) as Br.
  pose proof (fval_bounds 100) as Bh.
  unfold fio2_formula. split.
  - apply fnonneg_leb_zero. exact Nf.
  - apply fval_le_leb; [exact Nf|exact Nh|].
    rewrite Vf.
    apply Z.le_trans with
      (rz (fval ((o2 + air * 0.21) / (o2 + n2o + air)) * fval 100) (2 ^ 1074));
      [apply cap_le|].
    apply rz_le_repr; [apply Z.mul_nonneg_nonneg; lia|lia| |apply rz_fval].
    rewrite (Z.mul_comm _ (fval 100)).
    apply Z.mul_le_mono_nonneg_l; lia.
Qed.

End B64Facts.

(** ** Fixed notation with one decimal *)

Lemma append_assoc (a b c : string) : (a ++ b) ++ c = a ++ b ++ c.
Proof.
  induction a as [|x a IH]; [reflexivity|]. cbn [append]. now rewrite IH.
Qed.

Lemma append_length (a b : string) :
  String.length (a ++ b) = (String.length a + String.length b)%nat.
Proof.
  induction a as [|x a IH]; [reflexivity|]. cbn. now rewrite IH.
Qed.

Lemma append_inv_head (p a b : string) : p ++ a = p ++ b -> a = b.
Proof.
  induction p as [|x p IH]; [trivial|].
  cbn [append]. intros H. injection H as H. exact (IH H).
Qed.

Lemma append_inv_tail (a b s : string) : a ++ s = b ++ s -> a = b.
Proof.
  revert b. induction a as [|x a IH]; intros [|y b] H.
  - reflexivity.
  - apply (f_equal String.length) in H. cbn in H.
    rewrite append_length in H. lia.
  - apply (f_equal String.length) in H. cbn in H.
    rewrite append_length in H. lia.
  - cbn [append] in H. injection H as <- H. f_equal. exact (IH _ H).
Qed.

Lemma dec_digit (z : Z) :
  (0 <= z < 10)%Z -> exists d, dec z = String d "" /\ is_digit d = true.
Proof.
  intros H.
  assert (C : z = 0%Z \/ z = 1%Z \/ z = 2%Z \/ z = 3%Z \/ z = 4%Z \/
              z = 5%Z \/ z = 6%Z \/ z = 7%Z \/ z = 8%Z \/ z = 9%Z) by lia.
  repeat (destruct C as [->|C]); try subst z;
    eexists; split; reflexivity.
Qed.

(** The rendering [format_1f] meets [shows_to_one_decimal] on every
    finite float; through [dec], the digits Rocq's decimal conversion
    writes are read back by [digits_value]. *)
Module OneDecimal.

Local Open Scope Z_scope.

Lemma digits_value_from_app (a b : string) (acc : Z) :
  digits_value_from acc (a ++ b) = digits_value_from (digits_value_from acc a) b.
Proof.
  revert acc. induction a as [|c a IH]; intros acc; [reflexivity|].
  cbn [append digits_value_from]. apply IH.
Qed.

Lemma digits_value_from_uint_acc (u : Decimal.uint) (acc : positive) :
  digits_value_from (Z.pos acc) (NilEmpty.string_of_uint u) =
  Z.pos (Pos.of_uint_acc u acc).
Proof.
  revert acc. induction u as [|u IH|u IH|u IH|u IH|u IH|u IH|u IH|u IH|u IH|u IH];
    intros acc; [reflexivity|..];
    cbn [NilEmpty.string_of_uint digits_value_from Pos.of_uint_acc];
    rewrite <- IH; f_equal;
    match goal with |- context [digit_value ?c] =>
      let v := eval vm_compute in (digit_value c) in
      change (digit_value c) with v end; lia.
Qed.

Lemma digits_value_uint_empty (u : Decimal.uint) :
  digits_value (NilEmpty.string_of_uint u) = Z.of_N (N.of_uint u).
Proof.
  unfold digits_value, N.of_uint.
  induction u as [|u IH|u IH|u IH|u IH|u IH|u IH|u IH|u IH|u IH|u IH];
    [reflexivity|exact IH|..];
    cbn [NilEmpty.string_of_uint digits_value_from Pos.of_uint Z.of_N];
    rewrite <- digits_value_from_uint_acc; reflexivity.
Qed.

Lemma digits_value_uint (u : Decimal.uint) :
  digits_value (NilZero.string_of_uint u) = Z.of_N (N.of_uint u).
Proof.
  destruct u; try apply digits_value_uint_empty. reflexivity.
Qed.

Lemma digits_value_dec (z : Z) : 0 <= z -> digits_value (dec z) = z.
Proof.
  intros H. unfold dec. rewrite digits_value_uint, DecimalN.Unsigned.of_to. lia.
Qed.

Lemma all_digits_uint_empty (u : Decimal.uint) :
  all_digits (NilEmpty.string_of_uint u) = true.
Proof.
  induction u; cbn [NilEmpty.string_of_uint all_digits]; try reflexivity;
    rewrite IHu; reflexivity.
Qed.

Lemma all_digits_uint (u : Decimal.uint) :
  all_digits (NilZero.string_of_uint u) = true.
Proof.
  destruct u; try apply all_digits_uint_empty. reflexivity.
Qed.

Lemma nzhead_no_D0 (d u : Decimal.uint) : Decimal.nzhead d <> Decimal.D0 u.
Proof.
  induction d; cbn [Decimal.nzhead]; try discriminate. exact IHd.
Qed.

Lemma unorm_D0_nil (d u : Decimal.uint) :
  Decimal.unorm d = Decimal.D0 u -> u = Decimal.Nil.
Proof.
  unfold Decimal.unorm. destruct (Decimal.nzhead d) eqn:E; try discriminate.
  - intros H. injection H as <-. reflexivity.
  - exfalso. exact (nzhead_no_D0 _ _ E).
Qed.

Lemma dec_whole_part (z : Z) : whole_part (dec z).
Proof.
  unfold dec. set (n := Z.to_N z).
  assert (Hn : exists d, Decimal.unorm d = N.to_uint n).
  { exists (N.to_uint n). rewrite <- DecimalN.Unsigned.to_of, DecimalN.Unsigned.of_to.
    reflexivity. }
  destruct Hn as [d0 Hn].
  split; [|split].
  - pose proof (DecimalFacts.unorm_nonnil d0) as Hnil. rewrite Hn in Hnil.
    destruct (N.to_uint n); [destruct (Hnil eq_refl)|..]; discriminate.
  - apply all_digits_uint.
  - intros t' Ht.
    destruct (N.to_uint n) as [|u|u|u|u|u|u|u|u|u|u]; try discriminate Ht;
      [cbn in Ht; injection Ht as <-; reflexivity|].
    apply unorm_D0_nil in Hn. subst u.
    cbn in Ht. injection Ht as <-. reflexivity.
Qed.

Lemma round_half_even_div_nearest (a b : Z) :
  0 < b ->
  let n := round_half_even_div a b in
  2 * Z.abs (a - n * b) <= b /\
  (2 * Z.abs (a - n * b) = b -> Z.even n = true).
Proof.
  intros Hb. cbv zeta. unfold round_half_even_div.
  pose proof (Z.div_mod a b ltac:(lia)) as E.
  pose proof (Z.mod_pos_bound a b Hb) as Hr.
  set (q := a / b) in *. set (r := a mod b) in *.
  assert (A0 : a - q * b = r) by lia.
  assert (A1 : a - (q + 1) * b = r - b) by lia.
  destruct (Z.compare_spec (2 * r) b) as [C|C|C].
  - destruct (Z.even q) eqn:Ev.
    + rewrite A0. split; [lia|]. intros _. exact Ev.
    + rewrite A1. split; [lia|]. intros _.
      rewrite Z.even_add, Ev. reflexivity.
  - rewrite A0. split; lia.
  - rewrite A1. split; lia.
Qed.

Lemma round_half_even_div_nonneg (a b : Z) :
  0 <= a -> 0 < b -> 0 <= round_half_even_div a b.
Proof.
  intros Ha Hb. unfold round_half_even_div.
  pose proof (Z.div_pos a b Ha Hb).
  destruct (2 * (a mod b) ?= b); [destruct (Z.even (a / b))|..]; lia.
Qed.

Lemma format_1f_shows (x : float) :
  is_finite x = true -> shows_to_one_decimal x (format_1f x).
Proof.
  unfold is_finite, format_1f, shows_to_one_decimal, sign_bit.
  destruct (Prim2SF x) as [s|s| |s m e]; intros H; try discriminate H.
  - exists "0"%string, "0"%char.
    split; [destruct s; reflexivity|].
    split; [|split; reflexivity].
    split; [discriminate|]. split; [reflexivity|].
    intros t' Ht. injection Ht as <-. reflexivity.
  - set (tenths := if (0 <=? e)%Z then (10 * Z.pos m * 2 ^ e)%Z
                   else round_half_even_div (10 * Z.pos m) (2 ^ (- e))).
    assert (Hpos : 0 <= tenths).
    { unfold tenths. destruct (0 <=? e) eqn:He.
      - apply Z.leb_le in He. pose proof (Z.pow_pos_nonneg 2 e). lia.
      - apply Z.leb_gt in He. apply round_half_even_div_nonneg; [lia|].
        apply Z.pow_pos_nonneg; lia. }
    assert (Hnear : nearest_tenths m e tenths).
    { unfold nearest_tenths, tenths. destruct (0 <=? e) eqn:He.
      - apply Z.leb_le in He.
        rewrite (Z.max_l e 0), (Z.max_r (- e) 0) by lia.
        change (2 ^ 0) with 1.
        replace (10 * Z.pos m * 2 ^ e - 10 * Z.pos m * 2 ^ e * 1) with 0 by lia.
        cbn. split; [lia|]. intros C. discriminate C.
      - apply Z.leb_gt in He.
        rewrite (Z.max_r e 0), (Z.max_l (- e) 0) by lia.
        change (2 ^ 0) with 1. rewrite Z.mul_1_r.
        apply round_half_even_div_nearest. apply Z.pow_pos_nonneg; lia. }
    destruct (dec_digit (tenths mod 10)) as (d & Hd & Hdig).
    { apply Z.mod_pos_bound. lia. }
    exists (dec (tenths / 10)), d.
    split; [rewrite Hd; reflexivity|].
    split; [apply dec_whole_part|]. split; [exact Hdig|].
    replace (digits_value (dec (tenths / 10) ++ String d "")) with tenths;
      [exact Hnear|].
    unfold digits_value. rewrite digits_value_from_app.
    fold (digits_value (dec (tenths / 10))).
    rewrite digits_value_dec by (apply Z.div_pos; lia).
    assert (Hv : digits_value (dec (tenths mod 10)) = tenths mod 10).
    { apply digits_value_dec. apply Z.mod_pos_bound. lia. }
    rewrite Hd in Hv. unfold digits_value in Hv. cbn [digits_value_from] in Hv.
    cbn [digits_value_from].
    pose proof (Z.div_mod tenths 10 ltac:(lia)). lia.
Qed.

Lemma non_finite_below_renders (x y : float) :
  is_finite x = false -> (x <? y)%float = true -> format_1f x = "-inf"%string.
Proof.
  unfold is_finite, format_1f. rewrite ltb_spec. 
  destruct (Prim2SF x) as [s|s| |s m e]; intros H; try discriminate H.
  - destruct s; [reflexivity|]. 
    unfold SFltb, SFcompare. destruct (Prim2SF y) as [[]|[]| |]; discriminate.
  - unfold SFltb, SFcompare. discriminate.
Qed.

Lemma minus_inf_not_decimal (x : float) : ~ shows_to_one_decimal x "-inf".
Proof.
  intros (whole & d & Ht & (Hne & Hall & _) & _).
  destruct (sign_bit x); cbn [append] in Ht.
  - injection Ht as Ht.
    destruct whole as [|c whole]; [destruct (Hne eq_refl)|].
    cbn [append] in Ht. injection Ht as <- _.
    cbn in Hall. discriminate Hall.
  - destruct whole as [|c whole]; [destruct (Hne eq_refl)|].
    cbn [append] in Ht. injection Ht as <- _.
    cbn in Hall. discriminate Hall.
Qed.

(** The text is determined: a float is shown to one decimal place by at
    most one text, on a finite float the one [format_1f] gives. *)
Lemma digits_value_from_acc (s : string) (acc : Z) :
  digits_value_from acc s =
  acc * 10 ^ Z.of_nat (String.length s) + digits_value s.
Proof.
  revert acc. induction s as [|c s IH]; intros acc.
  - cbn. lia.
  - unfold digits_value. cbn [digits_value_from String.length].
    rewrite (IH (10 * acc + digit_value c)), (IH (10 * 0 + digit_value c)).
    rewrite Nat2Z.inj_succ, Z.pow_succ_r by lia. ring.
Qed.

Lemma digit_value_range (c : ascii) :
  is_digit c = true -> 0 <= digit_value c <= 9.
Proof.
  unfold is_digit, digit_value. rewrite andb_true_iff, !Nat.leb_le. lia.
Qed.

Lemma digit_value_inj (c1 c2 : ascii) :
  is_digit c1 = true -> is_digit c2 = true ->
  digit_value c1 = digit_value c2 -> c1 = c2.
Proof.
  unfold digit_value. intros _ _ H.
  rewrite <- (ascii_nat_embedding c1), <- (ascii_nat_embedding c2).
  f_equal. lia.
Qed.

Lemma digits_value_range (s : string) :
  all_digits s = true -> 0 <= digits_value s < 10 ^ Z.of_nat (String.length s).
Proof.
  induction s as [|c s IH]; [cbn; lia|].
  cbn [all_digits]. rewrite andb_true_iff. intros [Hc Hs].
  unfold digits_value. cbn [digits_value_from String.length].
  rewrite digits_value_from_acc.
  rewrite Nat2Z.inj_succ, Z.pow_succ_r by lia.
  pose proof (digit_value_range c Hc). pose proof (IH Hs). nia.
Qed.

Lemma digits_value_cons (c : ascii) (s : string) :
  digits_value (String c s) =
  digit_value c * 10 ^ Z.of_nat (String.length s) + digits_value s.
Proof.
  unfold digits_value at 1. cbn [digits_value_from].
  rewrite digits_value_from_acc. f_equal. 
Qed.

Lemma digits_value_inj_length (s1 s2 : string) :
  String.length s1 = String.length s2 ->
  all_digits s1 = true -> all_digits s2 = true ->
  digits_value s1 = digits_value s2 -> s1 = s2.
Proof.
  revert s2. induction s1 as [|c1 s1 IH]; intros [|c2 s2] Hl; try discriminate Hl.
  - reflexivity.
  - cbn [all_digits]. rewrite !andb_true_iff. intros [Hc1 Hs1] [Hc2 Hs2].
    rewrite !digits_value_cons. injection Hl as Hl. rewrite Hl.
    pose proof (digit_value_range c1 Hc1). pose proof (digit_value_range c2 Hc2).
    pose proof (digits_value_range s1 Hs1) as R1.
    pose proof (digits_value_range s2 Hs2) as R2.
    rewrite Hl in R1. intros E.
    set (k := 10 ^ Z.of_nat (String.length s2)) in *.
    assert (Hd : digit_value c1 = digit_value c2) by nia.
    assert (Hv : digits_value s1 = digits_value s2) by nia.
    rewrite (digit_value_inj c1 c2 Hc1 Hc2 Hd), (IH s2 Hl Hs1 Hs2 Hv).
    reflexivity.
Qed.

Lemma whole_part_value (s : string) :
  whole_part s ->
  s = "0"%string \/ 10 ^ (Z.of_nat (String.length s) - 1) <= digits_value s.
Proof.
  intros (Hne & Hall & Hzero).
  destruct s as [|c s]; [destruct (Hne eq_refl)|].
  cbn [all_digits] in Hall. apply andb_true_iff in Hall. destruct Hall as [Hc Hs].
  destruct (ascii_dec c "0"%char) as [->|Hc0].
  - left. rewrite (Hzero s eq_refl). reflexivity.
  - right. rewrite digits_value_cons. cbn [String.length].
    replace (Z.of_nat (S (String.length s)) - 1) with (Z.of_nat (String.length s)) by lia.
    pose proof (digit_value_range c Hc).
    pose proof (digits_value_range s Hs).
    assert (digit_value c <> 0).
    { intros E. apply Hc0. apply digit_value_inj; [exact Hc|reflexivity|exact E]. }
    nia.
Qed.

Lemma whole_part_inj (s1 s2 : string) :
  whole_part s1 -> whole_part s2 ->
  digits_value s1 = digits_value s2 -> s1 = s2.
Proof.
  intros W1 W2 E.
  pose proof (whole_part_value s1 W1) as V1.
  pose proof (whole_part_value s2 W2) as V2.
  destruct W1 as (N1 & A1 & _), W2 as (N2 & A2 & _).
  pose proof (digits_value_range s1 A1) as R1.
  pose proof (digits_value_range s2 A2) as R2.
  assert (P : forall k, 0 <= k -> 0 < 10 ^ k) by (intros; apply Z.pow_pos_nonneg; lia).
  assert (L1 : 0 < Z.of_nat (String.length s1)) by (destruct s1; [destruct (N1 eq_refl)|cbn; lia]).
  assert (L2 : 0 < Z.of_nat (String.length s2)) by (destruct s2; [destruct (N2 eq_refl)|cbn; lia]).
  destruct V1 as [->|V1], V2 as [->|V2].
  - reflexivity.
  - exfalso. change (digits_value "0") with 0 in E.
    pose proof (P (Z.of_nat (String.length s2) - 1)). lia.
  - exfalso. change (digits_value "0") with 0 in E.
    pose proof (P (Z.of_nat (String.length s1) - 1)). lia.
  - apply digits_value_inj_length; try assumption.
    apply Nat2Z.inj.
    destruct (Z.lt_trichotomy (Z.of_nat (String.length s1)) (Z.of_nat (String.length s2)))
      as [H|[H|H]]; [exfalso|exact H|exfalso].
    + pose proof (Z.pow_le_mono_r 10 (Z.of_nat (String.length s1))
                    (Z.of_nat (String.length s2) - 1)). lia.
    + pose proof (Z.pow_le_mono_r 10 (Z.of_nat (String.length s2))
                    (Z.of_nat (String.length s1) - 1)). lia.
Qed.

Lemma nearest_tenths_unique (m : positive) (e n1 n2 : Z) :
  nearest_tenths m e n1 -> nearest_tenths m e n2 -> n1 = n2.
Proof.
  unfold nearest_tenths.
  set (a := 10 * Z.pos m * 2 ^ Z.max e 0).
  set (b := 2 ^ Z.max (- e) 0).
  assert (Hb : 0 < b) by (apply Z.pow_pos_nonneg; lia).
  cbv zeta. intros [H1 T1] [H2 T2].
  assert (Hd : n1 = n2 \/ n1 = n2 + 1 \/ n2 = n1 + 1) by nia.
  destruct Hd as [Hd|[Hd|Hd]]; [exact Hd|exfalso..].
  - assert (E1 : 2 * Z.abs (a - n1 * b) = b) by nia.
    assert (E2 : 2 * Z.abs (a - n2 * b) = b) by nia.
    specialize (T1 E1). specialize (T2 E2).
    rewrite Hd, Z.even_add, T2 in T1. discriminate T1.
  - assert (E1 : 2 * Z.abs (a - n1 * b) = b) by nia.
    assert (E2 : 2 * Z.abs (a - n2 * b) = b) by nia.
    specialize (T1 E1). specialize (T2 E2).
    rewrite Hd, Z.even_add, T1 in T2. discriminate T2.
Qed.

Lemma shows_to_one_decimal_unique (x : float) (t1 t2 : string) :
  shows_to_one_decimal x t1 -> shows_to_one_decimal x t2 -> t1 = t2.
Proof.
  intros (w1 & d1 & -> & W1 & D1 & V1) (w2 & d2 & -> & W2 & D2 & V2).
  assert (E : digits_value (w1 ++ String d1 "") =
              digits_value (w2 ++ String d2 "")).
  { destruct (Prim2SF x) as [s|s| |s m e].
    - congruence.
    - destruct V1.
    - destruct V1.
    - exact (nearest_tenths_unique m e _ _ V1 V2). }
  unfold digits_value in E. rewrite !digits_value_from_app in E.
  cbn [digits_value_from] in E.
  fold (digits_value w1) in E. fold (digits_value w2) in E.
  pose proof (digit_value_range d1 D1). pose proof (digit_value_range d2 D2).
  assert (Ew : digits_value w1 = digits_value w2) by lia.
  assert (Ed : digit_value d1 = digit_value d2) by lia.
  rewrite (whole_part_inj w1 w2 W1 W2 Ew), (digit_value_inj d1 d2 D1 D2 Ed).
  reflexivity.
Qed.

Lemma shows_to_one_decimal_format (x : float) (t : string) :
  is_finite x = true -> (shows_to_one_decimal x t <-> t = format_1f x).
Proof.
  intros F. split.
  - intros H. exact (shows_to_one_decimal_unique x _ _ H (format_1f_shows x F)).
  - intros ->. exact (format_1f_shows x F).
Qed.

End OneDecimal.

Import OneDecimal.

(** ** Multiplication of floats commutes *)

Lemma SFmul_comm (x y : spec_float) : SF64mul x y = SF64mul y x.
Proof.
  unfold SF64mul.
  destruct x as [sx|sx| |sx mx ex], y as [sy|sy| |sy my ey]; simpl;
    try reflexivity; try (rewrite (xorb_comm sx sy); reflexivity).
  rewrite (xorb_comm sx sy), (Pos.mul_comm mx my), (Z.add_comm ex ey).
  reflexivity.
Qed.

Lemma float_mul_comm (x y : float) : x * y = y * x.
Proof.
  apply Prim2SF_inj. rewrite !mul_spec. apply SFmul_comm.
Qed.

(** ** Scenarios *)

Example scenario_safe :
  analyze_gas_mixer 2 2 0 2 "t" =
  Return {| status := PASS; category := SAFE;
            metrics := {| fio2 := 50; total_flow := 4 |};
            alerts := []; warnings := []; timestamp := "t" |}.
Proof. reflexivity. Qed.

Example scenario_no_flow :
  analyze_gas_mixer 0 0 0 0 "t" =
  Return {| status := FAIL; category := CRITICAL;
            metrics := {| fio2 := 0; total_flow := 0 |};
            alerts := ["CRITICAL: No fresh gas flow detected."];
            warnings := []; timestamp := "t" |}.
Proof. reflexivity. Qed.

Example scenario_hypoxic :
  analyze_gas_mixer 0.3 2 0 2 "t" =
  Return {| status := FAIL; category := CRITICAL;
            metrics := {| fio2 := 0x1.a1642c8590b21p+3;
                          total_flow := 0x1.2666666666666p+1 |};
            alerts := ["Hypoxic mixture detected: FiO₂ = 13.0% (< 25%)."];
            warnings := []; timestamp := "t" |}.
Proof. vm_compute. reflexivity. Qed.

Example scenario_high_agent :
  analyze_gas_mixer 2 0 0 9 "t" =
  Return {| status := PASS; category := WARNING;
            metrics := {| fio2 := 100; total_flow := 2 |};
            alerts := [];
            warnings := ["High anesthetic concentration (9.0%)."];
            timestamp := "t" |}.
Proof. vm_compute. reflexivity. Qed.

Example scenario_clinical_two :
  clinical_adjustment 28 2
    {| age := 70; weight := 45; compliance := 25; asa := 2 |} =
  ["Patient-specific FiO₂ recommendation: ≥ 30.0%.";
   "Low lung compliance. Monitor airway pressure closely."].
Proof. vm_compute. reflexivity. Qed.

Example scenario_clinical_three :
  clinical_adjustment 20 7
    {| age := 70; weight := 45; compliance := 20; asa := 3 |} =
  ["Patient-specific FiO₂ recommendation: ≥ 30.0%.";
   "Elderly / low-weight patient may be sensitive to high anesthetic dose.";
   "Low lung compliance. Monitor airway pressure closely."].
Proof. vm_compute. reflexivity. Qed.

Example scenario_merged :
  main_analysis 0 0.3 0.1 9
    {| age := 70; weight := 45; compliance := 20; asa := 3 |} "t" =
  Return {| status := FAIL; category := CRITICAL;
            metrics := {| fio2 := 0x1.5p+2; total_flow := 0x1.999999999999ap-2 |};
            alerts := ["Hypoxic mixture detected: FiO₂ = 5.2% (< 25%)."];
            warnings :=
              ["Low fresh gas flow (< 0.5 L/min). Risk of CO₂ rebreathing.";
               "High anesthetic concentration (9.0%).";
               "Patient-specific FiO₂ recommendation: ≥ 30.0%.";
               "Elderly / low-weight patient may be sensitive to high anesthetic dose.";
               "Low lung compliance. Monitor airway pressure closely."];
            timestamp := "t" |}.
Proof. vm_compute. reflexivity. Qed.

(** ** The claims *)

(** C1: whenever the three flows sum to zero, [analyze_gas_mixer] returns
    status FAIL, category CRITICAL, both metrics 0, the single alert
    "CRITICAL: No fresh gas flow detected." and no warnings, whatever the
    agent percentage; the FiO2 formula is not evaluated on this path (its
    division would raise there). *)
Theorem no_flow_early_exit (o2 n2o air agent : float) (now : string) :
  (o2 + n2o + air =? 0) = true ->
  analyze_gas_mixer o2 n2o air agent now =
    Return {| status := FAIL;
              category := CRITICAL;
              metrics := {| fio2 := 0; total_flow := 0 |};
              alerts := ["CRITICAL: No fresh gas flow detected."];
              warnings := [];
              timestamp := now |}
  /\ py_truediv (o2 + air * 0.21) (o2 + n2o + air) = Raise ZeroDivisionError.
Proof.
  intros H. split.
  - rewrite (analyze_no_flow _ _ _ _ _ H). reflexivity.
  - unfold py_truediv. rewrite H. reflexivity.
Qed.

Lemma no_flow_early_exit_witness :
  (0 + 0 + 0 =? 0) = true /\
  (analyze_gas_mixer 0 0 0 0 "2024-01-01T00:00:00" =
     Return {| status := FAIL;
               category := CRITICAL;
               metrics := {| fio2 := 0; total_flow := 0 |};
               alerts := ["CRITICAL: No fresh gas flow detected."];
               warnings := [];
               timestamp := "2024-01-01T00:00:00" |}
   /\ py_truediv (0 + 0 * 0.21) (0 + 0 + 0) = Raise ZeroDivisionError).
Proof.
  split; [reflexivity | apply (no_flow_early_exit 0 0 0 0); reflexivity].
Defined.

(** C2 (amended): with a positive total flow, the result carries
    fio2 = (o2 + 0.21 * air) / totalFlow * 100 and
    totalFlow = o2 + n2o + air, computed in binary64; and the fio2 lies in
    [0, 100] whenever o2, n2o and air are all non-negative and the total
    flow is finite. *)
Theorem fio2_metric_and_range (o2 n2o air agent : float) (now : string) :
  (0 <? o2 + n2o + air) = true ->
  exists r,
    analyze_gas_mixer o2 n2o air agent now = Return r /\
    fio2 (metrics r) = (o2 + 0.21 * air) / (o2 + n2o + air) * 100 /\
    total_flow (metrics r) = o2 + n2o + air /\
    ((0 <=? o2) = true -> (0 <=? n2o) = true -> (0 <=? air) = true ->
     (o2 + n2o + air <? infinity) = true ->
     (0 <=? fio2 (metrics r)) = true /\ (fio2 (metrics r) <=? 100) = true).
Proof.
  intros Hpos. pose proof (ltb_true_eqb_false _ _ Hpos) as Hnz.
  rewrite (analyze_flow _ _ _ _ _ Hnz). cbv zeta.
  eexists. split; [reflexivity|]. cbn [metrics fio2 total_flow].
  split; [|split; [reflexivity|]].
  - unfold fio2_formula. rewrite (float_mul_comm air 0.21). reflexivity.
  - intros Ho Hn Ha Hfin.
    exact (B64Facts.fio2_formula_range o2 n2o air Ho Hn Ha Hpos Hfin).
Qed.

Lemma fio2_metric_and_range_witness :
  (0 <? 2 + 2 + 0) = true /\
  exists r,
    analyze_gas_mixer 2 2 0 2 "2024-01-01T00:00:00" = Return r /\
    fio2 (metrics r) = 50 /\ total_flow (metrics r) = 4 /\
    (0 <=? fio2 (metrics r)) = true /\ (fio2 (metrics r) <=? 100) = true.
Proof.
  split; [reflexivity|].
  destruct (fio2_metric_and_range 2 2 0 2 "2024-01-01T00:00:00" eq_refl)
    as (r & Hr & Hf & Ht & Hrange).
  exists r. split; [exact Hr|]. split; [rewrite Hf; reflexivity|].
  split; [rewrite Ht; reflexivity|].
  apply Hrange; reflexivity.
Defined.

(** The bound as first stated (o2, air and total flow non-negative,
    o2 <= total flow) fails: o2 = 1, n2o = -1, air = 1 meets it with a
    total flow of 1, yet the fio2 is 121. *)
Lemma fio2_range_counterexample :
  (0 <? 1 + -1 + 1) = true /\
  (0 <=? 1) = true /\ (0 <=? 1 + -1 + 1) = true /\
  (1 <=? 1 + -1 + 1) = true /\
  analyze_gas_mixer 1 (-1) 1 2 "2024-01-01T00:00:00" =
    Return {| status := PASS;
              category := SAFE;
              metrics := {| fio2 := 121; total_flow := 1 |};
              alerts := [];
              warnings := [];
              timestamp := "2024-01-01T00:00:00" |} /\
  (121 <=? 100) = false.
Proof. repeat split. Qed.

(** Why the bound asks for a finite total flow: two finite flows of
    about 1.7e308 overflow both the oxygen volume and the total flow to
    infinity, and the fio2 is not a number. *)
Lemma fio2_overflow_example :
  (0 <? 0x1.e42d130773b76p+1023 + 0 + 0x1.e42d130773b76p+1023) = true /\
  fio2_formula 0x1.e42d130773b76p+1023 0 0x1.e42d130773b76p+1023 = nan /\
  (nan <=? 100) = false.
Proof. repeat split. Qed.

(** C3 (amended): with a positive total flow, a computed FiO2 below 25.0
    gives category CRITICAL, status FAIL and exactly the hypoxia alert.
    The alert shows the FiO2 to one decimal place whenever the FiO2 is
    finite; otherwise the FiO2 is minus infinity and the alert reads
    -inf.  A computed FiO2 of at least 25.0 leaves status PASS and the
    alert list empty, with category SAFE unless the low-flow or the
    high-agent check fires (then WARNING). *)
Theorem hypoxia_check_outcome (o2 n2o air agent : float) (now : string) :
  (0 <? o2 + n2o + air) = true ->
  exists r,
    analyze_gas_mixer o2 n2o air agent now = Return r /\
    fio2 (metrics r) = fio2_formula o2 n2o air /\
    ((fio2 (metrics r) <? 25) = true ->
       category r = CRITICAL /\ status r = FAIL /\
       exists shown,
         alerts r =
           ["Hypoxic mixture detected: FiO₂ = " ++ shown ++ "% (< 25%)."] /\
         (is_finite (fio2 (metrics r)) = true ->
          shows_to_one_decimal (fio2 (metrics r)) shown) /\
         (is_finite (fio2 (metrics r)) = false -> shown = "-inf")) /\
    ((25 <=? fio2 (metrics r)) = true ->
       status r = PASS /\ alerts r = [] /\
       category r =
         if (o2 + n2o + air <? 0.5) || (8 <? agent) then WARNING else SAFE).
Proof.
  intros Hpos. apply ltb_true_eqb_false in Hpos.
  rewrite (analyze_flow _ _ _ _ _ Hpos). cbv zeta.
  eexists. split; [reflexivity|]. cbn [metrics fio2 category status alerts].
  rewrite run_checks_findings. cbn [f_category f_status f_alerts].
  split; [reflexivity|]. split.
  - intros Hlt. rewrite Hlt. split; [|split; [reflexivity|]].
    + destruct (o2 + n2o + air <? 0.5), (8 <? agent); reflexivity.
    + exists (format_1f (fio2_formula o2 n2o air)).
      split; [reflexivity|]. split.
      * apply format_1f_shows.
      * intros Hinf. exact (non_finite_below_renders _ _ Hinf Hlt).
  - intros Hge. apply leb_true_ltb_false in Hge. rewrite Hge.
    repeat split.
    destruct (o2 + n2o + air <? 0.5), (8 <? agent); reflexivity.
Qed.

Lemma hypoxia_check_outcome_witness :
  (0 <? 0.3 + 2 + 0) = true /\
  exists r,
    analyze_gas_mixer 0.3 2 0 2 "2024-01-01T00:00:00" = Return r /\
    fio2 (metrics r) = fio2_formula 0.3 2 0 /\
    category r = CRITICAL /\ status r = FAIL /\
    alerts r = ["Hypoxic mixture detected: FiO₂ = 13.0% (< 25%)."] /\
    exists shown,
      alerts r =
        ["Hypoxic mixture detected: FiO₂ = " ++ shown ++ "% (< 25%)."] /\
      shows_to_one_decimal (fio2 (metrics r)) shown.
Proof.
  split; [reflexivity|].
  destruct (hypoxia_check_outcome 0.3 2 0 2 "2024-01-01T00:00:00" eq_refl)
    as (r & Hr & Hf & Hlow & _).
  exists r. split; [exact Hr|]. split; [exact Hf|].
  assert (Hlt : (fio2 (metrics r) <? 25) = true) by (rewrite Hf; reflexivity).
  assert (Hfin : is_finite (fio2 (metrics r)) = true)
    by (rewrite Hf; reflexivity).
  destruct (Hlow Hlt) as (Hc & Hs & shown & Ha & Hshown & _).
  split; [exact Hc|]. split; [exact Hs|]. split.
  - vm_compute in Hr. injection Hr as <-. reflexivity.
  - exists shown. split; [exact Ha|]. exact (Hshown Hfin).
Defined.

(** The alert as first stated (always showing the FiO2 to one decimal
    place) fails with a negative flow: o2 = -1e308, n2o = 1e308 and
    air = 1e-300 have a total flow of 1e-300, which is positive; the
    oxygen volume is -1e308, the FiO2 is minus infinity, and the alert
    reads -inf, a text that shows no number to one decimal place. *)
Lemma hypoxia_alert_counterexample :
  (0 <? -1e308 + 1e308 + 1e-300) = true /\
  (fio2_formula (-1e308) 1e308 1e-300 <? 25) = true /\
  analyze_gas_mixer (-1e308) 1e308 1e-300 2 "2024-01-01T00:00:00" =
    Return {| status := FAIL;
              category := CRITICAL;
              metrics := {| fio2 := neg_infinity; total_flow := 1e-300 |};
              alerts := ["Hypoxic mixture detected: FiO₂ = -inf% (< 25%)."];
              warnings :=
                ["Low fresh gas flow (< 0.5 L/min). Risk of CO₂ rebreathing."];
              timestamp := "2024-01-01T00:00:00" |} /\
  (forall x shown,
     "Hypoxic mixture detected: FiO₂ = " ++ shown ++ "% (< 25%)." =
     "Hypoxic mixture detected: FiO₂ = -inf% (< 25%)." ->
     ~ shows_to_one_decimal x shown).
Proof.
  split; [reflexivity|]. split; [reflexivity|]. split; [reflexivity|].
  intros x shown E.
  change ("Hypoxic mixture detected: FiO₂ = " ++ shown ++ "% (< 25%)." =
          "Hypoxic mixture detected: FiO₂ = " ++ "-inf" ++ "% (< 25%).") in E.
  apply append_inv_head, append_inv_tail in E. subst shown.
  apply minus_inf_not_decimal.
Qed.

(** C4: across the sequential checks of one call the category never
    decreases in severity (SAFE < WARNING < CRITICAL).  The low-flow check
    (total < 0.5) and the high-agent check (agent > 8.0) raise the
    category to WARNING only when it is not CRITICAL already, and each
    appends its own warning; they may fire together with the hypoxia
    check; the returned category is the worst severity among the checks
    that fired, and CRITICAL is never overwritten. *)
Theorem category_only_escalates
    (o2 n2o air agent f total : float) (now : string) (st : Findings) :
  (* every check keeps or raises the severity *)
  (severity (f_category st) <= severity (f_category (check_hypoxia f st)) /\
   severity (f_category st) <= severity (f_category (check_low_flow total st)) /\
   severity (f_category st) <= severity (f_category (check_high_agent agent st)))%nat
  (* CRITICAL survives the WARNING-level checks *)
  /\ (f_category st = CRITICAL ->
      f_category (check_low_flow total st) = CRITICAL /\
      f_category (check_high_agent agent st) = CRITICAL)
  (* the low-flow check *)
  /\ (check_low_flow total st =
      if total <? 0.5 then
        {| f_category :=
             match f_category st with CRITICAL => CRITICAL | _ => WARNING end;
           f_status := f_status st;
           f_alerts := f_alerts st;
           f_warnings := f_warnings st ++ [low_flow_warning] |}
      else st)
  (* the high-agent check *)
  /\ (check_high_agent agent st =
      if 8 <? agent then
        {| f_category :=
             match f_category st with CRITICAL => CRITICAL | _ => WARNING end;
           f_status := f_status st;
           f_alerts := f_alerts st;
           f_warnings := f_warnings st ++ [high_agent_warning agent] |}
      else st)
  (* the returned category is the worst of the fired checks *)
  /\ ((o2 + n2o + air =? 0) = false ->
      exists r,
        analyze_gas_mixer o2 n2o air agent now = Return r /\
        category r =
          worst (fired CRITICAL (fio2 (metrics r) <? 25))
            (worst (fired WARNING (o2 + n2o + air <? 0.5))
                   (fired WARNING (8 <? agent))) /\
        warnings r =
          ((if o2 + n2o + air <? 0.5 then [low_flow_warning] else []) ++
           (if 8 <? agent then [high_agent_warning agent] else []))%list).
Proof.
  split; [|split; [|split; [|split]]].
  - unfold check_hypoxia, check_low_flow, check_high_agent, raise_to_warning.
    destruct (f <? 25), (total <? 0.5), (8 <? agent), (f_category st);
      simpl; repeat split; lia.
  - intros Hc.
    unfold check_low_flow, check_high_agent, raise_to_warning. rewrite Hc.
    destruct (total <? 0.5), (8 <? agent); simpl; auto.
  - unfold check_low_flow, raise_to_warning.
    destruct (total <? 0.5), (f_category st); reflexivity.
  - unfold check_high_agent, raise_to_warning.
    destruct (8 <? agent), (f_category st); reflexivity.
  - intros H0. rewrite (analyze_flow _ _ _ _ _ H0). cbv zeta.
    eexists. split; [reflexivity|].
    cbn [category warnings metrics fio2].
    rewrite run_checks_findings. split; reflexivity.
Qed.

Lemma category_only_escalates_witness :
  (0 + 0.3 + 0.1 =? 0) = false /\
  exists r,
    analyze_gas_mixer 0 0.3 0.1 9 "2024-01-01T00:00:00" = Return r /\
    category r = CRITICAL /\
    warnings r = [low_flow_warning; high_agent_warning 9].
Proof.
  split; [reflexivity|].
  destruct (category_only_escalates 0 0.3 0.1 9 0 0 "2024-01-01T00:00:00"
              initial_findings) as (_ & _ & _ & _ & H).
  destruct (H eq_refl) as (r & Hr & Hc & Hw).
  exists r. split; [exact Hr|]. split.
  - rewrite Hc. injection Hr as <-. reflexivity.
  - rewrite Hw. reflexivity.
Defined.

(** C5: the recommended minimum is 25.0, and exactly 30.0 (there is no
    higher tier) when the age is below 1 or above 65, or when the ASA class
    is 3 or more; the warning stating that minimum with one decimal is in
    the output if and only if the FiO2 is below it. *)
Theorem fio2_floor_rule (f agent : float) (p : Patient) :
  recommended_fio2 p =
    (if ((age p <? 1)%Z || (65 <? age p)%Z || (3 <=? asa p)%Z)%bool
     then 30 else 25)
  /\ fio2_floor_warning (recommended_fio2 p) =
       "Patient-specific FiO₂ recommendation: ≥ "
         ++ (if ((age p <? 1)%Z || (65 <? age p)%Z || (3 <=? asa p)%Z)%bool
             then "30.0" else "25.0") ++ "%."
  /\ (In (fio2_floor_warning (recommended_fio2 p)) (clinical_adjustment f agent p)
      <-> (f <? recommended_fio2 p) = true)
  /\ (forall r, In (fio2_floor_warning r) (clinical_adjustment f agent p) ->
      fio2_floor_warning r = fio2_floor_warning (recommended_fio2 p)).
Proof.
  split; [apply recommended_fio2_cases|]. split.
  { rewrite recommended_fio2_cases.
    destruct ((age p <? 1)%Z || (65 <? age p)%Z || (3 <=? asa p)%Z)%bool;
      [apply floor_text_30 | apply floor_text_25]. }
  rewrite clinical_adjustment_parts. split.
  - split.
    + intros Hin. apply in_app_or in Hin. destruct Hin as [Hin|Hin].
      * destruct (f <? recommended_fio2 p); [reflexivity | destruct Hin].
      * exfalso. apply in_app_or in Hin. destruct Hin as [Hin|Hin].
        -- destruct (agent_sensitive agent p); [|destruct Hin].
           destruct Hin as [Hin|[]]. symmetry in Hin.
           exact (floor_not_agent _ Hin).
        -- destruct (compliance p <? 30)%Z; [|destruct Hin].
           destruct Hin as [Hin|[]]. symmetry in Hin.
           exact (floor_not_compliance _ Hin).
    + intros ->. left. reflexivity.
  - intros r Hin. apply in_app_or in Hin. destruct Hin as [Hin|Hin].
    + destruct (f <? recommended_fio2 p); [|destruct Hin].
      destruct Hin as [Hin|[]]. symmetry. exact Hin.
    + exfalso. apply in_app_or in Hin. destruct Hin as [Hin|Hin].
      * destruct (agent_sensitive agent p); [|destruct Hin].
        destruct Hin as [Hin|[]]. symmetry in Hin.
        exact (floor_not_agent _ Hin).
      * destruct (compliance p <? 30)%Z; [|destruct Hin].
        destruct Hin as [Hin|[]]. symmetry in Hin.
        exact (floor_not_compliance _ Hin).
Qed.

(** C6: the clinical warnings come in the fixed order FiO2 floor, agent
    sensitivity, compliance, at most one per check; the agent-sensitivity
    warning is present if and only if (age > 65 or weight < 50) and
    agent > 6.0, the low-compliance warning if and only if
    compliance < 30. *)
Theorem clinical_warning_order (f agent : float) (p : Patient) :
  clinical_adjustment f agent p =
    ((if f <? recommended_fio2 p
      then [fio2_floor_warning (recommended_fio2 p)] else []) ++
     (if ((65 <? age p)%Z || (weight p <? 50)%Z) && (6 <? agent)
      then ["Elderly / low-weight patient may be sensitive to high anesthetic dose."]
      else []) ++
     (if (compliance p <? 30)%Z
      then ["Low lung compliance. Monitor airway pressure closely."]
      else []))%list
  /\ (In agent_sensitivity_warning (clinical_adjustment f agent p) <->
      ((65 < age p)%Z \/ (weight p < 50)%Z) /\ (6 <? agent) = true)
  /\ (In low_compliance_warning (clinical_adjustment f agent p) <->
      (compliance p < 30)%Z).
Proof.
  split; [apply clinical_adjustment_parts|].
  rewrite clinical_adjustment_parts.
  assert (Hs : agent_sensitive agent p = true <->
               ((65 < age p)%Z \/ (weight p < 50)%Z) /\ (6 <? agent) = true).
  { unfold agent_sensitive.
    rewrite andb_true_iff, orb_true_iff, !Z.ltb_lt. reflexivity. }
  split.
  - rewrite <- Hs. split.
    + intros Hin. apply in_app_or in Hin. destruct Hin as [Hin|Hin].
      * exfalso. destruct (f <? recommended_fio2 p); [|destruct Hin].
        destruct Hin as [Hin|[]]. exact (floor_not_agent _ Hin).
      * apply in_app_or in Hin. destruct Hin as [Hin|Hin].
        -- destruct (agent_sensitive agent p); [reflexivity | destruct Hin].
        -- exfalso. destruct (compliance p <? 30)%Z; [|destruct Hin].
           destruct Hin as [Hin|[]]. discriminate Hin.
    + intros ->. apply in_or_app. right. left. reflexivity.
  - rewrite <- Z.ltb_lt. split.
    + intros Hin. apply in_app_or in Hin. destruct Hin as [Hin|Hin].
      * exfalso. destruct (f <? recommended_fio2 p); [|destruct Hin].
        destruct Hin as [Hin|[]]. exact (floor_not_compliance _ Hin).
      * apply in_app_or in Hin. destruct Hin as [Hin|Hin].
        -- exfalso. destruct (agent_sensitive agent p); [|destruct Hin].
           destruct Hin as [Hin|[]]. discriminate Hin.
        -- destruct (compliance p <? 30)%Z; [reflexivity | destruct Hin].
    + intros ->. apply in_or_app. right. apply in_or_app. right.
      left. reflexivity.
Qed.

(** C7: [clinical_adjustment] yields advisory warning texts only, and
    merging them into the analyzer's result touches nothing but the
    warnings: status, category, metrics and alerts of the merged result
    are the analyzer's, and its warnings are the analyzer's followed by
    the clinical ones. *)
Theorem clinical_adjustment_frame
    (o2 n2o air agent f : float) (p : Patient) (now : string)
    (result : AnalysisResult) (extra : list string) :
  Forall (fun w => In w clinical_texts) (clinical_adjustment f agent p)
  /\ (status (extend_warnings result extra) = status result /\
      category (extend_warnings result extra) = category result /\
      metrics (extend_warnings result extra) = metrics result /\
      alerts (extend_warnings result extra) = alerts result /\
      warnings (extend_warnings result extra) = (warnings result ++ extra)%list)
  /\ (exists r merged,
        analyze_gas_mixer o2 n2o air agent now = Return r /\
        main_analysis o2 n2o air agent p now = Return merged /\
        status merged = status r /\ category merged = category r /\
        metrics merged = metrics r /\ alerts merged = alerts r /\
        warnings merged =
          (warnings r ++ clinical_adjustment (fio2 (metrics r)) agent p)%list).
Proof.
  split; [|split].
  - rewrite clinical_adjustment_parts.
    apply Forall_app; split; [|apply Forall_app; split].
    + destruct (f <? recommended_fio2 p); constructor; [|constructor].
      rewrite recommended_fio2_cases. unfold clinical_texts.
      destruct ((age p <? 1)%Z || (65 <? age p)%Z || (3 <=? asa p)%Z)%bool.
      * right. left. reflexivity.
      * left. reflexivity.
    + destruct (agent_sensitive agent p); constructor; [|constructor].
      unfold clinical_texts. right. right. left. reflexivity.
    + destruct (compliance p <? 30)%Z; constructor; [|constructor].
      unfold clinical_texts. right. right. right. left. reflexivity.
  - repeat split.
  - unfold main_analysis.
    destruct (analyze_cases o2 n2o air agent now) as [[_ ->]|[_ ->]];
      cbn [bind]; do 2 eexists; repeat split.
Qed.

(** C8: two calls of [analyze_gas_mixer] on the same four inputs agree on
    status, category, metrics, alerts and warnings; only the timestamps,
    taken from the clock, may differ. *)
Theorem analyze_deterministic
    (o2 n2o air agent : float) (now1 now2 : string) :
  exists r1 r2,
    analyze_gas_mixer o2 n2o air agent now1 = Return r1 /\
    analyze_gas_mixer o2 n2o air agent now2 = Return r2 /\
    same_up_to_timestamp r1 r2 /\
    timestamp r1 = now1 /\ timestamp r2 = now2.
Proof.
  destruct (analyze_cases o2 n2o air agent now1) as [[E1 H1]|[E1 H1]];
    destruct (analyze_cases o2 n2o air agent now2) as [[E2 H2]|[E2 H2]];
    try congruence; rewrite H1, H2;
    do 2 eexists; unfold same_up_to_timestamp; repeat split.
Qed.

(** C9: for every input, all-zero flow included, [analyze_gas_mixer]
    returns a result and raises nothing, and so does the caller's analysis
    step; [clinical_adjustment] returns a list of at most three warnings.
    Failure shows only as status FAIL with category CRITICAL, and the
    division of the FiO2 formula is reached with a non-zero divisor only,
    because of the early exit on a zero total flow. *)
Theorem analysis_never_raises
    (o2 n2o air agent f : float) (p : Patient) (now : string) :
  (exists r,
     analyze_gas_mixer o2 n2o air agent now = Return r /\
     (status r = FAIL -> category r = CRITICAL) /\
     ((o2 + n2o + air =? 0) = false ->
      py_truediv (o2 + air * 0.21) (o2 + n2o + air) =
        Return ((o2 + air * 0.21) / (o2 + n2o + air)) /\
      fio2 (metrics r) = (o2 + air * 0.21) / (o2 + n2o + air) * 100))
  /\ (exists merged, main_analysis o2 n2o air agent p now = Return merged)
  /\ (List.length (clinical_adjustment f agent p) <= 3)%nat.
Proof.
  split; [|split].
  - destruct (analyze_cases o2 n2o air agent now) as [[E ->]|[E ->]];
      eexists; (split; [reflexivity|]); split.
    + reflexivity.
    + intros H. congruence.
    + cbn [status category]. rewrite run_checks_findings.
      cbn [f_status f_category].
      destruct (fio2_formula o2 n2o air <? 25); [|discriminate].
      intros _.
      destruct (o2 + n2o + air <? 0.5), (8 <? agent); reflexivity.
    + intros _. unfold py_truediv. rewrite E. split; reflexivity.
  - unfold main_analysis.
    destruct (analyze_cases o2 n2o air agent now) as [[_ ->]|[_ ->]];
      cbn [bind]; eexists; reflexivity.
  - rewrite clinical_adjustment_parts.
    destruct (f <? recommended_fio2 p), (agent_sensitive agent p),
      (compliance p <? 30)%Z; cbn [app List.length]; lia.
Qed.

(** C10: in every result of [analyze_gas_mixer], status is FAIL exactly
    when category is CRITICAL, and category is CRITICAL exactly when there
    is an alert; so a SAFE or WARNING result has status PASS and no alert,
    and there is never more than one alert. *)
Theorem result_invariants (o2 n2o air agent : float) (now : string) :
  exists r,
    analyze_gas_mixer o2 n2o air agent now = Return r /\
    (status r = FAIL <-> category r = CRITICAL) /\
    (category r = CRITICAL <-> alerts r <> []) /\
    (category r = SAFE \/ category r = WARNING ->
       status r = PASS /\ alerts r = []) /\
    (List.length (alerts r) <= 1)%nat.
Proof.
  destruct (analyze_cases o2 n2o air agent now) as [[_ ->]|[_ ->]];
    eexists; (split; [reflexivity|]).
  - cbn. repeat split; try discriminate; try lia; intuition discriminate.
  - cbn [status category alerts]. rewrite run_checks_findings.
    cbn [f_status f_category f_alerts].
    destruct (fio2_formula o2 n2o air <? 25), (o2 + n2o + air <? 0.5),
      (8 <? agent); cbn; repeat split; try discriminate; try lia;
      intuition discriminate.
Qed.

(** * Further properties of the code *)

(** ** Order, special values and exact results of binary64 numbers *)

Module FloatOrder.

Import B64 B64Facts.

(** *** The order of floats is lexicographic on [order_key] *)

Lemma SFcompare_key (x y : spec_float) :
  SFcompare x y =
  match order_key x, order_key y with
  | Some a, Some b => Some (key_compare a b)
  | _, _ => None
  end.
Proof.
  destruct x as [sx|[|]| |[|] mx ex], y as [sy|[|]| |[|] my ey];
    try reflexivity.
  - cbn [SFcompare order_key key_compare].
    change (-1 ?= -1)%Z with Eq. cbv iota.
    rewrite Z.compare_opp, (Z.compare_antisym ex ey).
    destruct (ex ?= ey)%Z; reflexivity.
Qed.

Lemma key_compare_spec (a b : Z * Z * Z) :
  match key_compare a b with
  | Lt => key_lt a b
  | Eq => a = b
  | Gt => key_lt b a
  end.
Proof.
  destruct a as [[a1 a2] a3], b as [[b1 b2] b3]. unfold key_compare, key_lt.
  destruct (Z.compare_spec a1 b1); [|lia|lia].
  destruct (Z.compare_spec a2 b2); [|lia|lia].
  destruct (Z.compare_spec a3 b3); [|lia|lia].
  congruence.
Qed.

Lemma key_lt_trans (a b c : Z * Z * Z) : key_lt a b -> key_lt b c -> key_lt a c.
Proof.
  destruct a as [[a1 a2] a3], b as [[b1 b2] b3], c as [[c1 c2] c3].
  unfold key_lt. lia.
Qed.

Lemma key_lt_irrefl (a : Z * Z * Z) : ~ key_lt a a.
Proof. destruct a as [[a1 a2] a3]. unfold key_lt. lia. Qed.

Lemma key_compare_lt (a b : Z * Z * Z) : key_lt a b -> key_compare a b = Lt.
Proof.
  intros H. pose proof (key_compare_spec a b) as S.
  destruct (key_compare a b); [|reflexivity|].
  - subst b. destruct (key_lt_irrefl a H).
  - destruct (key_lt_irrefl a (key_lt_trans _ _ _ H S)).
Qed.

Lemma SFltb_key (x y : spec_float) :
  SFltb x y = true <->
  exists a b, order_key x = Some a /\ order_key y = Some b /\ key_lt a b.
Proof.
  unfold SFltb. rewrite SFcompare_key.
  destruct (order_key x) as [a|], (order_key y) as [b|]; split;
    try discriminate; try (intros (a' & b' & H1 & H2 & _); discriminate).
  - pose proof (key_compare_spec a b) as S.
    destruct (key_compare a b); try discriminate.
    intros _. exists a, b. auto.
  - intros (a' & b' & H1 & H2 & H). injection H1 as <-. injection H2 as <-.
    rewrite (key_compare_lt _ _ H). reflexivity.
Qed.

Lemma SFleb_key (x y : spec_float) :
  SFleb x y = true <->
  exists a b, order_key x = Some a /\ order_key y = Some b /\
              (key_lt a b \/ a = b).
Proof.
  unfold SFleb. rewrite SFcompare_key.
  destruct (order_key x) as [a|], (order_key y) as [b|]; split;
    try discriminate; try (intros (a' & b' & H1 & H2 & _); discriminate).
  - pose proof (key_compare_spec a b) as S.
    destruct (key_compare a b); try discriminate; intros _; exists a, b; auto.
  - intros (a' & b' & H1 & H2 & H). injection H1 as <-. injection H2 as <-.
    destruct H as [H| ->].
    + rewrite (key_compare_lt _ _ H). reflexivity.
    + pose proof (key_compare_spec b b) as S.
      destruct (key_compare b b); try reflexivity.
      destruct (key_lt_irrefl b S).
Qed.

Lemma ltb_leb_trans (x y z : float) :
  (x <? y) = true -> (y <=? z) = true -> (x <? z) = true.
Proof.
  rewrite !ltb_spec, leb_spec, !SFltb_key, SFleb_key.
  intros (a & b & Ha & Hb & Hab) (b' & c & Hb' & Hc & Hbc).
  rewrite Hb in Hb'. injection Hb' as <-.
  exists a, c. split; [exact Ha|]. split; [exact Hc|].
  destruct Hbc as [Hbc| <-]; [exact (key_lt_trans _ _ _ Hab Hbc)|exact Hab].
Qed.

Lemma leb_ltb_trans (x y z : float) :
  (x <=? y) = true -> (y <? z) = true -> (x <? z) = true.
Proof.
  rewrite !ltb_spec, leb_spec, !SFltb_key, SFleb_key.
  intros (a & b & Ha & Hb & Hab) (b' & c & Hb' & Hc & Hbc).
  rewrite Hb in Hb'. injection Hb' as <-.
  exists a, c. split; [exact Ha|]. split; [exact Hc|].
  destruct Hab as [Hab| ->]; [exact (key_lt_trans _ _ _ Hab Hbc)|exact Hbc].
Qed.

Lemma leb_trans (x y z : float) :
  (x <=? y) = true -> (y <=? z) = true -> (x <=? z) = true.
Proof.
  rewrite !leb_spec, !SFleb_key.
  intros (a & b & Ha & Hb & Hab) (b' & c & Hb' & Hc & Hbc).
  rewrite Hb in Hb'. injection Hb' as <-.
  exists a, c. split; [exact Ha|]. split; [exact Hc|].
  destruct Hab as [Hab| ->]; destruct Hbc as [Hbc| <-]; auto.
  left. exact (key_lt_trans _ _ _ Hab Hbc).
Qed.

(** *** NaN *)

Lemma SFcompare_refl (x : spec_float) :
  x <> S754_nan -> SFcompare x x = Some Eq.
Proof.
  destruct x as [s|[|]| |[|] m e]; intros H; try reflexivity;
    try (destruct (H eq_refl)); cbn [SFcompare];
    rewrite Z.compare_refl;
    change (Pos.compare_cont Eq m m) with (m ?= m)%positive;
    rewrite Pos.compare_refl; reflexivity.
Qed.

Lemma is_nan_Prim2SF (x : float) :
  is_nan x = true <-> Prim2SF x = S754_nan.
Proof.
  unfold is_nan. rewrite eqb_spec. unfold SFeqb. split.
  - intros H. destruct (Prim2SF x) as [s|s| |s m e] eqn:E; try reflexivity;
      rewrite SFcompare_refl in H by discriminate; discriminate H.
  - intros ->. reflexivity.
Qed.

Lemma add_nan_l (x y : float) : is_nan x = true -> is_nan (x + y) = true.
Proof.
  rewrite !is_nan_Prim2SF, add_spec. intros ->. reflexivity.
Qed.

Lemma add_nan_r (x y : float) : is_nan y = true -> is_nan (x + y) = true.
Proof.
  rewrite !is_nan_Prim2SF, add_spec. intros ->.
  destruct (Prim2SF x) as [s|s| |s m e]; reflexivity.
Qed.

Lemma mul_nan_l (x y : float) : is_nan x = true -> is_nan (x * y) = true.
Proof.
  rewrite !is_nan_Prim2SF, mul_spec. intros ->. reflexivity.
Qed.

Lemma div_nan_r (x y : float) : is_nan y = true -> is_nan (x / y) = true.
Proof.
  rewrite !is_nan_Prim2SF, div_spec. intros ->.
  destruct (Prim2SF x) as [s|s| |s m e]; reflexivity.
Qed.

Lemma nan_eqb (x y : float) : is_nan x = true -> (x =? y) = false.
Proof.
  rewrite is_nan_Prim2SF, eqb_spec. intros ->. reflexivity.
Qed.

Lemma nan_ltb (x y : float) : is_nan x = true -> (x <? y) = false.
Proof.
  rewrite is_nan_Prim2SF, ltb_spec. intros ->. reflexivity.
Qed.

(** *** From the order of floats back to their values *)

Local Open Scope Z_scope.

Lemma val_exp_lt (mx my : positive) (ex ey : Z) :
  valid_binary (S754_finite false mx ex) = true ->
  valid_binary (S754_finite false my ey) = true ->
  ex < ey ->
  val (S754_finite false mx ex) < val (S754_finite false my ey).
Proof.
  intros Vx Vy H.
  destruct (valid_finite _ _ _ Vx) as (Hex & Hmx & _).
  destruct (valid_finite _ _ _ Vy) as (Hey & _ & Nmy & _).
  specialize (Nmy ltac:(lia)). cbn [val].
  pose proof (pow2_pos (ex + 1074) ltac:(lia)) as Px.
  pose proof (pow2_pos (ey + 1074) ltac:(lia)) as Py.
  assert (2 ^ 53 * 2 ^ (ex + 1074) <= 2 ^ 52 * 2 ^ (ey + 1074)).
  { rewrite <- !Z.pow_add_r by lia. apply Z.pow_le_mono_r; lia. }
  nia.
Qed.

Lemma SFleb_val_le (x y : spec_float) :
  valid_binary x = true -> valid_binary y = true ->
  nonneg x = true -> nonneg y = true ->
  SFleb x y = true -> val x <= val y.
Proof.
  intros Vx Vy Nx Ny H.
  pose proof (val_bounds x Vx) as Bx. pose proof (val_bounds y Vy) as By.
  destruct x as [sx|[|]| |[|] mx ex]; try discriminate Nx;
    destruct y as [sy|[|]| |[|] my ey]; try discriminate Ny;
    try discriminate H; cbn [val] in *; try lia.
  unfold SFleb, SFcompare in H.
  change (Pos.compare_cont Eq mx my) with (mx ?= my)%positive in H.
  destruct (Z.compare_spec ex ey) as [E|L|G]; [| |discriminate H].
  - subst ey. destruct (Pos.compare_spec mx my) as [E|L|G];
      try discriminate H.
    + subst. lia.
    + destruct (valid_finite _ _ _ Vx) as (Hex & _).
      pose proof (pow2_pos (ex + 1074) ltac:(lia)).
      assert (Z.pos mx < Z.pos my) by lia. nia.
  - pose proof (val_exp_lt mx my ex ey Vx Vy L) as Hlt. cbn [val] in Hlt. lia.
Qed.

Lemma val_lt_SFltb (x y : spec_float) :
  valid_binary x = true -> valid_binary y = true ->
  nonneg x = true -> nonneg y = true ->
  val x < val y -> SFltb x y = true.
Proof.
  intros Vx Vy Nx Ny H.
  pose proof (val_le_SFleb x y Vx Vy Nx Ny ltac:(lia)) as Hle.
  assert (Hnot : SFleb y x = false).
  { destruct (SFleb y x) eqn:E; [|reflexivity].
    pose proof (SFleb_val_le y x Vy Vx Ny Nx E). lia. }
  unfold SFleb, SFltb in *. rewrite (SFcompare_swap x y) in Hnot.
  destruct (SFcompare x y) as [[ | | ]|]; try discriminate; reflexivity.
Qed.

Lemma val_inj (x y : spec_float) :
  valid_binary x = true -> valid_binary y = true ->
  nonneg x = true -> nonneg y = true ->
  0 < val x -> val x = val y -> x = y.
Proof.
  intros Vx Vy Nx Ny Hpos H.
  destruct x as [sx|[|]| |[|] mx ex]; try discriminate Nx;
    destruct y as [sy|[|]| |[|] my ey]; try discriminate Ny;
    try reflexivity; try (cbn [val] in Hpos, H; lia).
  - pose proof (val_finite_lt _ _ _ Vy). cbn [val] in *. lia.
  - pose proof (val_finite_lt _ _ _ Vx). cbn [val] in *. lia.
  - destruct (Z.lt_total ex ey) as [L|[E|G]].
    + pose proof (val_exp_lt mx my ex ey Vx Vy L). lia.
    + subst ey. destruct (valid_finite _ _ _ Vx) as (Hex & _).
      pose proof (pow2_pos (ex + 1074) ltac:(lia)). cbn [val] in H.
      assert (Z.pos mx = Z.pos my) by nia. congruence.
    + pose proof (val_exp_lt my mx ey ex Vy Vx G). lia.
Qed.

Local Open Scope float_scope.

Lemma leb_fval_le (x y : float) :
  fnonneg x = true -> fnonneg y = true -> (x <=? y) = true ->
  (fval x <= fval y)%Z.
Proof.
  intros Nx Ny. rewrite leb_spec.
  apply SFleb_val_le; try apply Prim2SF_valid; assumption.
Qed.

Lemma fval_lt_ltb (x y : float) :
  fnonneg x = true -> fnonneg y = true -> (fval x < fval y)%Z ->
  (x <? y) = true.
Proof.
  intros Nx Ny H. rewrite ltb_spec.
  apply val_lt_SFltb; try apply Prim2SF_valid; assumption.
Qed.

Lemma fval_10_20_30 :
  (fval 10 + fval 10 = fval 20)%Z /\ (fval 20 + fval 10 = fval 30)%Z /\
  (fval 30 < 2 ^ 2098)%Z.
Proof.
  unfold fval.
  assert (E10 : Prim2SF 10 = S754_finite false 5629499534213120 (-49))
    by (vm_compute; reflexivity).
  assert (E20 : Prim2SF 20 = S754_finite false 5629499534213120 (-48))
    by (vm_compute; reflexivity).
  assert (E30 : Prim2SF 30 = S754_finite false 8444249301319680 (-48))
    by (vm_compute; reflexivity).
  split; [|split].
  - rewrite E10, E20. cbn [val].
    change (-48 + 1074)%Z with (1 + 1025)%Z. change (-49 + 1074)%Z with 1025%Z.
    rewrite (Z.pow_add_r 2 1 1025) by lia. change (2 ^ 1)%Z with 2%Z. lia.
  - rewrite E10, E20, E30. cbn [val].
    change (-48 + 1074)%Z with (1 + 1025)%Z. change (-49 + 1074)%Z with 1025%Z.
    rewrite (Z.pow_add_r 2 1 1025) by lia. change (2 ^ 1)%Z with 2%Z. lia.
  - rewrite E30. apply val_finite_lt. rewrite <- E30. apply Prim2SF_valid.
Qed.

(** *** Exact results: adding zero, dividing a number by itself *)

Lemma add_zero_r (x : float) : (0 <? x) = true -> x + 0 = x.
Proof.
  rewrite ltb_spec. intros H. apply Prim2SF_inj. rewrite add_spec.
  change (Prim2SF 0) with (S754_zero false) in *.
  destruct (Prim2SF x) as [s|[|]| |s m e]; try discriminate H; reflexivity.
Qed.

Lemma add_zero_l (x : float) : (0 <? x) = true -> 0 + x = x.
Proof.
  rewrite ltb_spec. intros H. apply Prim2SF_inj. rewrite add_spec.
  change (Prim2SF 0) with (S754_zero false) in *.
  destruct (Prim2SF x) as [s|[|]| |s m e]; try discriminate H; reflexivity.
Qed.

Lemma div_zero_l (x : float) : (0 <? x) = true -> 0 / x = 0.
Proof.
  rewrite ltb_spec. intros H. apply Prim2SF_inj. rewrite div_spec.
  change (Prim2SF 0) with (S754_zero false) in *.
  destruct (Prim2SF x) as [s|[|]| |[|] m e]; try discriminate H; reflexivity.
Qed.

Lemma div_self (x : float) :
  (0 <? x) = true -> (x <? infinity) = true -> x / x = 1.
Proof.
  intros Hpos Hfin.
  assert (N : fnonneg x = true).
  { apply leb_zero_fnonneg. rewrite leb_spec. rewrite ltb_spec in Hpos.
    unfold SFleb, SFltb in *.
    destruct (SFcompare (Prim2SF 0) (Prim2SF x)) as [[ | | ]|];
      try discriminate; reflexivity. }
  pose proof (ltb_zero_fval x Hpos) as P.
  pose proof (ltb_infinity_fval x N Hfin) as F.
  destruct (div_fval x x N N F (conj P F)) as [Nq Vq].
  assert (P1 : (0 < 2 ^ 1074)%Z) by (apply pow2_pos; lia).
  assert (C : (2 ^ 1074 < 2 ^ 2098)%Z) by (apply Z.pow_lt_mono_r; lia).
  assert (E : fval (x / x) = fval 1).
  { rewrite Vq.
    rewrite (rz_ext (fval x * 2 ^ 1074) (fval x) (2 ^ 1074) 1) by nia.
    rewrite rz_one. rewrite cap_small by lia.
    unfold fval. vm_compute. reflexivity. }
  apply Prim2SF_inj.
  apply val_inj; try apply Prim2SF_valid; try assumption; try reflexivity.
  fold (fval (x / x)). rewrite E. unfold fval. vm_compute. reflexivity.
Qed.

(** *** Values within the sliders' range *)

Lemma range_is_finite (f : float) :
  (0 <=? f) = true -> (f <=? 100) = true -> is_finite f = true.
Proof.
  intros H0 H100.
  pose proof (leb_zero_fnonneg f H0) as N.
  destruct hundred_fval as [Nh Fh].
  pose proof (leb_fval_le f 100 N Nh H100) as L.
  unfold is_finite. unfold fnonneg, fval in *.
  destruct (Prim2SF f) as [s|s| |s m e]; try reflexivity.
  - cbn [val] in L. lia.
  - discriminate N.
Qed.

Lemma range_30_is_finite (f : float) :
  (0 <=? f) = true -> (f <=? 30) = true -> is_finite f = true.
Proof.
  intros H0 H30. apply range_is_finite; [exact H0|].
  apply (leb_trans f 30 100 H30). reflexivity.
Qed.

Lemma slider_range_bounds (o2 n2o air : float) :
  (0 <=? o2) = true -> (o2 <=? 10) = true ->
  (0 <=? n2o) = true -> (n2o <=? 10) = true ->
  (0 <=? air) = true -> (air <=? 10) = true ->
  (0 <=? o2 + n2o + air) = true /\
  (o2 + n2o + air <=? 30) = true /\
  ((o2 + n2o + air =? 0) = false ->
   (0 <=? fio2_formula o2 n2o air) = true /\
   (fio2_formula o2 n2o air <=? 100) = true).
Proof.
  intros Ho Ho' Hn Hn' Ha Ha'.
  pose proof (leb_zero_fnonneg _ Ho) as No.
  pose proof (leb_zero_fnonneg _ Hn) as Nn.
  pose proof (leb_zero_fnonneg _ Ha) as Na.
  assert (N10 : fnonneg 10 = true) by reflexivity.
  assert (N20 : fnonneg 20 = true) by reflexivity.
  assert (N30 : fnonneg 30 = true) by reflexivity.
  pose proof (leb_fval_le _ _ No N10 Ho') as Vo.
  pose proof (leb_fval_le _ _ Nn N10 Hn') as Vn.
  pose proof (leb_fval_le _ _ Na N10 Ha') as Va.
  destruct fval_10_20_30 as (S20 & S30 & F30).
  destruct (add_fval o2 n2o No Nn) as [Ns Vs].
  destruct (add_fval (o2 + n2o) air Ns Na) as [Nt Vt].
  pose proof (fval_bounds o2) as Bo. pose proof (fval_bounds n2o) as Bn.
  pose proof (fval_bounds air) as Ba.
  assert (Ls : (fval (o2 + n2o) <= fval 20)%Z).
  { rewrite Vs.
    apply Z.le_trans with (rz (fval o2 + fval n2o) 1); [apply cap_le|].
    apply rz_le_repr; [lia|lia|lia|apply rz_fval]. }
  pose proof (fval_bounds (o2 + n2o)) as Bs.
  assert (Lt : (fval (o2 + n2o + air) <= fval 30)%Z).
  { rewrite Vt.
    apply Z.le_trans with (rz (fval (o2 + n2o) + fval air) 1); [apply cap_le|].
    apply rz_le_repr; [lia|lia|lia|apply rz_fval]. }
  assert (Hle30 : (o2 + n2o + air <=? 30) = true)
    by (apply fval_le_leb; assumption).
  assert (Hge0 : (0 <=? o2 + n2o + air) = true)
    by (apply fnonneg_leb_zero; exact Nt).
  split; [exact Hge0|]. split; [exact Hle30|]. intros E.
  assert (Hfin : (o2 + n2o + air <? infinity) = true).
  { apply fval_lt_ltb; [exact Nt|reflexivity|].
    change (fval infinity) with (2 ^ 2098)%Z. lia. }
  assert (Hpos : (0 <? o2 + n2o + air) = true).
  { apply fval_lt_ltb; [reflexivity|exact Nt|].
    change (fval 0) with 0%Z.
    pose proof (fval_bounds (o2 + n2o + air)) as Bt.
    destruct (Z.eq_dec (fval (o2 + n2o + air)) 0) as [Z0|]; [|lia].
    exfalso.
    assert (Hz : (o2 + n2o + air <=? 0) = true).
    { apply fval_le_leb; [exact Nt|reflexivity|].
      change (fval 0) with 0%Z. lia. }
    rewrite leb_spec in Hz. rewrite leb_spec in Hge0.
    rewrite eqb_spec in E. unfold SFleb, SFeqb in *.
    rewrite (SFcompare_swap (Prim2SF (o2 + n2o + air)) (Prim2SF 0)) in Hge0.
    destruct (SFcompare (Prim2SF (o2 + n2o + air)) (Prim2SF 0))
      as [[ | | ]|]; discriminate. }
  exact (fio2_formula_range o2 n2o air Ho Hn Ha Hpos Hfin).
Qed.

End FloatOrder.

Import FloatOrder.

(** ** Helper lemmas on the clinical rules and on the trace of [main] *)

Lemma below_25_below_recommended (f : float) (p : Patient) :
  (f <? 25) = true -> (f <? recommended_fio2 p) = true.
Proof.
  intros H. rewrite recommended_fio2_cases.
  destruct ((age p <? 1)%Z || (65 <? age p)%Z || (3 <=? asa p)%Z)%bool;
    [|exact H].
  apply (ltb_leb_trans f 25 30 H). reflexivity.
Qed.

Lemma at_least_30_not_below_recommended (f : float) (p : Patient) :
  (30 <=? f) = true -> (f <? recommended_fio2 p) = false.
Proof.
  intros H. rewrite recommended_fio2_cases.
  destruct ((age p <? 1)%Z || (65 <? age p)%Z || (3 <=? asa p)%Z)%bool.
  - apply leb_true_ltb_false. exact H.
  - apply leb_true_ltb_false. apply (leb_trans 25 30 f); [reflexivity|exact H].
Qed.

Lemma low_risk_adjustment (f agent : float) (p : Patient) :
  low_risk p ->
  clinical_adjustment f agent p =
  if f <? 25 then [fio2_floor_warning 25] else [].
Proof.
  intros (Hage & Hasa & Hw & Hc).
  rewrite clinical_adjustment_parts, recommended_fio2_cases.
  unfold agent_sensitive.
  replace (age p <? 1)%Z with false by (symmetry; apply Z.ltb_ge; lia).
  replace (65 <? age p)%Z with false by (symmetry; apply Z.ltb_ge; lia).
  replace (3 <=? asa p)%Z with false by (symmetry; apply Z.leb_gt; lia).
  replace (weight p <? 50)%Z with false by (symmetry; apply Z.ltb_ge; lia).
  replace (compliance p <? 30)%Z with false by (symmetry; apply Z.ltb_ge; lia).
  cbn [orb andb app]. rewrite app_nil_r. reflexivity.
Qed.

Lemma analyzer_safe_not_hypoxic (o2 n2o air agent : float) (now : string)
    (r0 : AnalysisResult) :
  analyze_gas_mixer o2 n2o air agent now = Return r0 ->
  category r0 = SAFE -> (fio2 (metrics r0) <? 25) = false.
Proof.
  destruct (analyze_cases o2 n2o air agent now) as [[_ ->]|[_ ->]];
    intros H; injection H as <-; cbn [category metrics fio2].
  - discriminate.
  - rewrite run_checks_findings. cbn [f_category].
    destruct (fio2_formula o2 n2o air <? 25); [|reflexivity].
    destruct (o2 + n2o + air <? 0.5), (8 <? agent); discriminate.
Qed.

Lemma filter_map_all {A B : Type} (f : B -> bool) (g : A -> B) (l : list A) :
  (forall x, f (g x) = true) -> filter f (map g l) = map g l.
Proof.
  intros H. induction l as [|x l IH]; [reflexivity|].
  cbn [map filter]. rewrite H, IH. reflexivity.
Qed.

Lemma filter_map_none {A B : Type} (f : B -> bool) (g : A -> B) (l : list A) :
  (forall x, f (g x) = false) -> filter f (map g l) = [].
Proof.
  intros H. induction l as [|x l IH]; [reflexivity|].
  cbn [map filter]. rewrite H, IH. reflexivity.
Qed.

Lemma analyzer_safe_iff (o2 n2o air agent : float) (now : string)
    (r : AnalysisResult) :
  analyze_gas_mixer o2 n2o air agent now = Return r ->
  (category r = SAFE <-> alerts r = [] /\ warnings r = []).
Proof.
  destruct (analyze_cases o2 n2o air agent now) as [[_ ->]|[_ ->]];
    intros H; injection H as <-.
  - cbn. split; [discriminate|intros [H _]; discriminate H].
  - cbn [category alerts warnings]. rewrite run_checks_findings.
    cbn [f_category f_alerts f_warnings].
    destruct (fio2_formula o2 n2o air <? 25), (o2 + n2o + air <? 0.5),
      (8 <? agent); cbn; split; try discriminate; try tauto;
      intros [H1 H2]; discriminate.
Qed.

Lemma main_trace (w : Widgets) (now : string) :
  exists r0,
    analyze_gas_mixer (w_flow_o2 w) (w_flow_n2o w) (w_flow_air w) (w_agent w)
      now = Return r0 /\
    let p := {| age := w_age w; weight := w_weight w;
                compliance := w_compliance w; asa := w_asa w |} in
    let r := extend_warnings r0
               (clinical_adjustment (fio2 (metrics r0)) (w_agent w) p) in
    main_analysis (w_flow_o2 w) (w_flow_n2o w) (w_flow_air w) (w_agent w) p
      now = Return r /\
    main w now =
    Return (page_and_sidebar ++ status_banner r
              ++ metrics_row r (w_agent w) ++ diagnostic_log r
              ++ gas_composition (w_flow_o2 w) (w_flow_n2o w) (w_flow_air w)
              ++ logic_summary)%list.
Proof.
  unfold main, main_analysis.
  destruct (analyze_cases (w_flow_o2 w) (w_flow_n2o w) (w_flow_air w)
              (w_agent w) now) as [[_ H]|[_ H]];
    rewrite H; eexists; (split; [reflexivity|]); cbn [bind];
    split; reflexivity.
Qed.

Lemma trace_errors (r : AnalysisResult) (agent o2 n2o air : float) :
  filter is_error_call
    (page_and_sidebar ++ status_banner r ++ metrics_row r agent
       ++ diagnostic_log r ++ gas_composition o2 n2o air ++ logic_summary) =
  map (fun alert => St_error ("🛑 " ++ alert)) (alerts r).
Proof.
  rewrite !filter_app. unfold diagnostic_log.
  change (filter is_error_call page_and_sidebar) with (@nil StCall).
  change (filter is_error_call (status_banner r)) with (@nil StCall).
  change (filter is_error_call (metrics_row r agent)) with (@nil StCall).
  change (filter is_error_call (gas_composition o2 n2o air)) with (@nil StCall).
  change (filter is_error_call logic_summary) with (@nil StCall).
  cbn [filter is_error_call app]. rewrite !filter_app.
  rewrite filter_map_all by reflexivity.
  rewrite filter_map_none by reflexivity.
  destruct (is_empty (alerts r) && is_empty (warnings r));
    cbn [filter is_error_call app]; rewrite ?app_nil_r; cbn [app]; rewrite ?app_nil_r; reflexivity.
Qed.

Lemma trace_warnings (r : AnalysisResult) (agent o2 n2o air : float) :
  filter is_warning_call
    (page_and_sidebar ++ status_banner r ++ metrics_row r agent
       ++ diagnostic_log r ++ gas_composition o2 n2o air ++ logic_summary) =
  map (fun warn => St_warning ("⚠ " ++ warn)) (warnings r).
Proof.
  rewrite !filter_app. unfold diagnostic_log.
  change (filter is_warning_call page_and_sidebar) with (@nil StCall).
  change (filter is_warning_call (status_banner r)) with (@nil StCall).
  change (filter is_warning_call (metrics_row r agent)) with (@nil StCall).
  change (filter is_warning_call (gas_composition o2 n2o air)) with (@nil StCall).
  change (filter is_warning_call logic_summary) with (@nil StCall).
  cbn [filter is_warning_call app]. rewrite !filter_app.
  rewrite filter_map_none by reflexivity.
  rewrite filter_map_all by reflexivity.
  destruct (is_empty (alerts r) && is_empty (warnings r));
    cbn [filter is_warning_call app]; rewrite ?app_nil_r; cbn [app]; rewrite ?app_nil_r; reflexivity.
Qed.

Lemma trace_success (r : AnalysisResult) (agent o2 n2o air : float) :
  filter is_success_call
    (page_and_sidebar ++ status_banner r ++ metrics_row r agent
       ++ diagnostic_log r ++ gas_composition o2 n2o air ++ logic_summary) =
  if is_empty (alerts r) && is_empty (warnings r)
  then [St_success success_text] else [].
Proof.
  rewrite !filter_app. unfold diagnostic_log.
  change (filter is_success_call page_and_sidebar) with (@nil StCall).
  change (filter is_success_call (status_banner r)) with (@nil StCall).
  change (filter is_success_call (metrics_row r agent)) with (@nil StCall).
  change (filter is_success_call (gas_composition o2 n2o air)) with (@nil StCall).
  change (filter is_success_call logic_summary) with (@nil StCall).
  cbn [filter is_success_call app]. rewrite !filter_app.
  rewrite !filter_map_none by reflexivity.
  destruct (is_empty (alerts r) && is_empty (warnings r));
    cbn [filter is_success_call app]; reflexivity.
Qed.

Lemma trace_metrics (r : AnalysisResult) (agent o2 n2o air : float) :
  filter is_metric_call
    (page_and_sidebar ++ status_banner r ++ metrics_row r agent
       ++ diagnostic_log r ++ gas_composition o2 n2o air ++ logic_summary) =
  filter is_metric_call (metrics_row r agent).
Proof.
  rewrite !filter_app. unfold diagnostic_log.
  change (filter is_metric_call page_and_sidebar) with (@nil StCall).
  change (filter is_metric_call (status_banner r)) with (@nil StCall).
  change (filter is_metric_call (gas_composition o2 n2o air))
    with (@nil StCall).
  change (filter is_metric_call logic_summary) with (@nil StCall).
  cbn [filter is_metric_call app]. rewrite !filter_app.
  rewrite !filter_map_none by reflexivity.
  destruct (is_empty (alerts r) && is_empty (warnings r));
    cbn [filter is_metric_call app]; rewrite ?app_nil_r; reflexivity.
Qed.

Lemma color_red_iff (o2 n2o air agent : float) (now : string)
    (r0 : AnalysisResult) (extra : list string) :
  analyze_gas_mixer o2 n2o air agent now = Return r0 ->
  (status_color (extend_warnings r0 extra) = "red" <-> alerts r0 <> []) /\
  (status_color (extend_warnings r0 extra) = "red" <-> status r0 = FAIL) /\
  (status_color (extend_warnings r0 extra) = "green" <-> category r0 = SAFE).
Proof.
  destruct (analyze_cases o2 n2o air agent now) as [[_ ->]|[_ ->]];
    intros H; injection H as <-; unfold status_color;
    cbn [category extend_warnings alerts status].
  - cbn. repeat split; try discriminate; try reflexivity;
      intros H; discriminate H.
  - rewrite run_checks_findings. cbn [f_category f_alerts f_status].
    destruct (fio2_formula o2 n2o air <? 25), (o2 + n2o + air <? 0.5),
      (8 <? agent); cbn; repeat split; try discriminate; try reflexivity;
      try (intros H; discriminate H); try (intros H; destruct (H eq_refl)).
Qed.

(** ** The properties *)

(** X1: a NaN flow is not flagged: the total and the FiO2 are NaN, every
    comparison on them is false, and the result is PASS without alert;
    only the agent check can still fire. *)
Theorem nan_flow_passes (o2 n2o air agent : float) (now : string) :
  is_nan o2 = true \/ is_nan n2o = true \/ is_nan air = true ->
  exists r,
    analyze_gas_mixer o2 n2o air agent now = Return r /\
    status r = PASS /\ alerts r = [] /\
    is_nan (fio2 (metrics r)) = true /\
    is_nan (total_flow (metrics r)) = true /\
    category r = (if 8 <? agent then WARNING else SAFE) /\
    warnings r = (if 8 <? agent then [high_agent_warning agent] else []).
Proof.
  intros H.
  assert (Ht : is_nan (o2 + n2o + air) = true).
  { destruct H as [H|[H|H]].
    - apply add_nan_l, add_nan_l, H.
    - apply add_nan_l, add_nan_r, H.
    - apply add_nan_r, H. }
  assert (Hf : is_nan (fio2_formula o2 n2o air) = true).
  { unfold fio2_formula. apply mul_nan_l, div_nan_r, Ht. }
  rewrite (analyze_flow _ _ _ _ _ (nan_eqb _ 0 Ht)). cbv zeta.
  eexists. split; [reflexivity|].
  cbn [status alerts metrics fio2 total_flow category warnings].
  rewrite run_checks_findings. cbn [f_status f_alerts f_category f_warnings].
  rewrite (nan_ltb _ 25 Hf), (nan_ltb _ 0.5 Ht).
  repeat split; try assumption; destruct (8 <? agent); reflexivity.
Qed.

Lemma nan_flow_passes_witness :
  (is_nan 2 = true \/ is_nan nan = true \/ is_nan 0 = true) /\
  exists r,
    analyze_gas_mixer 2 nan 0 2 "2024-01-01T00:00:00" = Return r /\
    status r = PASS /\ category r = SAFE /\ alerts r = [] /\ warnings r = [].
Proof.
  split; [right; left; reflexivity|].
  destruct (nan_flow_passes 2 nan 0 2 "2024-01-01T00:00:00")
    as (r & Hr & Hs & Ha & _ & _ & Hc & Hw).
  { right; left; reflexivity. }
  exists r. repeat split; assumption.
Defined.

(** X2: the agent percentage decides nothing but the high-agent warning:
    with the flows fixed, status, metrics and alerts are the same for any
    two agent settings, and a higher setting can only keep or raise the
    category and keep or add the warning. *)
Theorem agent_only_adds_warning
    (o2 n2o air agent1 agent2 : float) (now : string) :
  (agent1 <=? agent2) = true ->
  exists r1 r2,
    analyze_gas_mixer o2 n2o air agent1 now = Return r1 /\
    analyze_gas_mixer o2 n2o air agent2 now = Return r2 /\
    status r1 = status r2 /\ metrics r1 = metrics r2 /\
    alerts r1 = alerts r2 /\
    (severity (category r1) <= severity (category r2))%nat /\
    (List.length (warnings r1) <= List.length (warnings r2))%nat.
Proof.
  intros Hle.
  assert (Hmono : (8 <? agent1) = true -> (8 <? agent2) = true).
  { intros H. exact (ltb_leb_trans _ _ _ H Hle). }
  destruct (analyze_cases o2 n2o air agent1 now) as [[E1 H1]|[E1 H1]];
    destruct (analyze_cases o2 n2o air agent2 now) as [[E2 H2]|[E2 H2]];
    try congruence; rewrite H1, H2; do 2 eexists;
    (split; [reflexivity|]); (split; [reflexivity|]).
  - cbn. repeat split; lia.
  - cbn [status metrics alerts category warnings].
    rewrite !run_checks_findings.
    cbn [f_status f_alerts f_category f_warnings].
    destruct (8 <? agent1).
    + rewrite (Hmono eq_refl).
      destruct (fio2_formula o2 n2o air <? 25), (o2 + n2o + air <? 0.5);
        cbn; repeat split; lia.
    + destruct (8 <? agent2), (fio2_formula o2 n2o air <? 25),
        (o2 + n2o + air <? 0.5); cbn; repeat split; lia.
Qed.

Lemma agent_only_adds_warning_witness :
  (2 <=? 9) = true /\
  exists r1 r2,
    analyze_gas_mixer 2 2 0 2 "2024-01-01T00:00:00" = Return r1 /\
    analyze_gas_mixer 2 2 0 9 "2024-01-01T00:00:00" = Return r2 /\
    status r1 = status r2 /\ metrics r1 = metrics r2 /\
    alerts r1 = alerts r2 /\
    (severity (category r1) <= severity (category r2))%nat /\
    (List.length (warnings r1) <= List.length (warnings r2))%nat.
Proof.
  split; [reflexivity|].
  apply (agent_only_adds_warning 2 2 0 2 9). reflexivity.
Defined.

(** X3: whatever the patient, an FiO2 below 25 always draws the
    patient-specific recommendation, as the first warning, and an FiO2 of
    at least 30 never does. *)
Theorem fio2_floor_thresholds (f agent : float) (p : Patient) :
  ((f <? 25) = true ->
   exists rest,
     clinical_adjustment f agent p =
     fio2_floor_warning (recommended_fio2 p) :: rest)
  /\ ((30 <=? f) = true ->
      forall r, ~ In (fio2_floor_warning r) (clinical_adjustment f agent p)).
Proof.
  rewrite !clinical_adjustment_parts. split.
  - intros H. rewrite (below_25_below_recommended f p H).
    eexists. reflexivity.
  - intros H r Hin. rewrite (at_least_30_not_below_recommended f p H) in Hin.
    cbn [app] in Hin. apply in_app_or in Hin. destruct Hin as [Hin|Hin].
    + destruct (agent_sensitive agent p); [|destruct Hin].
      destruct Hin as [Hin|[]]. symmetry in Hin.
      exact (floor_not_agent _ Hin).
    + destruct (compliance p <? 30)%Z; [|destruct Hin].
      destruct Hin as [Hin|[]]. symmetry in Hin.
      exact (floor_not_compliance _ Hin).
Qed.

Lemma fio2_floor_thresholds_witness :
  (20 <? 25) = true /\ (40 <=? 40) = true /\
  (exists rest,
     clinical_adjustment 20 2
       {| age := 30; weight := 70; compliance := 50; asa := 1 |} =
     "Patient-specific FiO₂ recommendation: ≥ 25.0%." :: rest) /\
  ~ In "Patient-specific FiO₂ recommendation: ≥ 30.0%."
       (clinical_adjustment 40 2
          {| age := 70; weight := 70; compliance := 50; asa := 4 |}).
Proof.
  split; [reflexivity|]. split; [reflexivity|]. split.
  - destruct (fio2_floor_thresholds 20 2
                {| age := 30; weight := 70; compliance := 50; asa := 1 |})
      as [H _].
    destruct (H eq_refl) as [rest Hr]. exists rest. rewrite Hr.
    f_equal.
  - destruct (fio2_floor_thresholds 40 2
                {| age := 70; weight := 70; compliance := 50; asa := 4 |})
      as [_ H].
    rewrite <- floor_text_30. apply H. reflexivity.
Defined.

(** X4: in the caller's analysis step, a failed analysis (no flow, or a
    hypoxic mixture) always comes with the patient-specific FiO2
    recommendation among the merged warnings. *)
Theorem failure_carries_recommendation
    (o2 n2o air agent : float) (p : Patient) (now : string)
    (merged : AnalysisResult) :
  main_analysis o2 n2o air agent p now = Return merged ->
  status merged = FAIL ->
  In (fio2_floor_warning (recommended_fio2 p)) (warnings merged).
Proof.
  assert (Hin : forall f, (f <? 25) = true ->
            In (fio2_floor_warning (recommended_fio2 p))
               (clinical_adjustment f agent p)).
  { intros f Hf. rewrite clinical_adjustment_parts.
    rewrite (below_25_below_recommended f p Hf). left. reflexivity. }
  unfold main_analysis.
  destruct (analyze_cases o2 n2o air agent now) as [[E ->]|[E ->]];
    cbn [bind]; intros H; injection H as <-;
    cbn [status warnings extend_warnings metrics fio2].
  - intros _. apply in_or_app. right. apply Hin. reflexivity.
  - rewrite run_checks_findings. cbn [f_status].
    destruct (fio2_formula o2 n2o air <? 25) eqn:Hf; [|discriminate].
    intros _. apply in_or_app. right. apply Hin. exact Hf.
Qed.

Lemma failure_carries_recommendation_witness :
  exists merged,
    main_analysis 0.3 2 0 2
      {| age := 30; weight := 70; compliance := 50; asa := 1 |}
      "2024-01-01T00:00:00" = Return merged /\
    status merged = FAIL /\
    In "Patient-specific FiO₂ recommendation: ≥ 25.0%." (warnings merged).
Proof.
  eexists. split; [reflexivity|]. split; [reflexivity|].
  rewrite <- floor_text_25.
  apply (failure_carries_recommendation 0.3 2 0 2
           {| age := 30; weight := 70; compliance := 50; asa := 1 |}
           "2024-01-01T00:00:00"); reflexivity.
Defined.

(** X5: a vaporizer setting above 8 always draws the agent-sensitivity
    warning for a patient over 65 or under 50 kg in the merged result,
    also when the analyzer returned early on a zero flow and gave no
    high-agent warning of its own. *)
Theorem high_agent_reaches_sensitive_patient
    (o2 n2o air agent : float) (p : Patient) (now : string)
    (merged : AnalysisResult) :
  main_analysis o2 n2o air agent p now = Return merged ->
  (8 <? agent) = true ->
  (65 < age p)%Z \/ (weight p < 50)%Z ->
  In agent_sensitivity_warning (warnings merged).
Proof.
  intros Hm H8 Hp.
  assert (Hs : agent_sensitive agent p = true).
  { unfold agent_sensitive.
    rewrite (leb_ltb_trans 6 8 agent eq_refl H8), andb_true_r.
    apply orb_true_iff. rewrite !Z.ltb_lt. exact Hp. }
  assert (Hin : forall f, In agent_sensitivity_warning
                            (clinical_adjustment f agent p)).
  { intros f. rewrite clinical_adjustment_parts, Hs.
    apply in_or_app. right. left. reflexivity. }
  revert Hm. unfold main_analysis.
  destruct (analyze_cases o2 n2o air agent now) as [[_ ->]|[_ ->]];
    cbn [bind]; intros H; injection H as <-;
    cbn [warnings extend_warnings]; apply in_or_app; right; apply Hin.
Qed.

Lemma high_agent_reaches_sensitive_patient_witness :
  (8 <? 9) = true /\ ((65 < 70)%Z \/ (80 < 50)%Z) /\
  exists merged,
    main_analysis 0 0 0 9
      {| age := 70; weight := 80; compliance := 50; asa := 1 |}
      "2024-01-01T00:00:00" = Return merged /\
    In "Elderly / low-weight patient may be sensitive to high anesthetic dose."
       (warnings merged) /\
    ~ In (high_agent_warning 9) (warnings merged).
Proof.
  split; [reflexivity|]. split; [left; lia|].
  eexists. split; [reflexivity|]. split.
  - apply (high_agent_reaches_sensitive_patient 0 0 0 9
             {| age := 70; weight := 80; compliance := 50; asa := 1 |}
             "2024-01-01T00:00:00");
      [reflexivity | reflexivity | left; cbn; lia].
  - vm_compute. intros [H|[H|[]]]; discriminate H.
Defined.

(** X6: within the sliders' range (every flow between 0 and 10), the total
    flow is between 0 and 30 and the FiO2 between 0 and 100: neither is
    infinite or NaN. *)
Theorem slider_range_metrics (o2 n2o air agent : float) (now : string) :
  (0 <=? o2) = true -> (o2 <=? 10) = true ->
  (0 <=? n2o) = true -> (n2o <=? 10) = true ->
  (0 <=? air) = true -> (air <=? 10) = true ->
  exists r,
    analyze_gas_mixer o2 n2o air agent now = Return r /\
    (0 <=? total_flow (metrics r)) = true /\
    (total_flow (metrics r) <=? 30) = true /\
    (0 <=? fio2 (metrics r)) = true /\
    (fio2 (metrics r) <=? 100) = true.
Proof.
  intros Ho Ho' Hn Hn' Ha Ha'.
  destruct (slider_range_bounds o2 n2o air Ho Ho' Hn Hn' Ha Ha')
    as (H0 & H30 & Hf).
  destruct (analyze_cases o2 n2o air agent now) as [[E ->]|[E ->]];
    eexists; (split; [reflexivity|]); cbn [metrics total_flow fio2].
  - repeat split.
  - destruct (Hf E) as [Hf0 Hf100]. repeat split; assumption.
Qed.

Lemma slider_range_metrics_witness :
  (0 <=? 2) = true /\ (2 <=? 10) = true /\
  (0 <=? 10) = true /\ (10 <=? 10) = true /\
  (0 <=? 0) = true /\ (0 <=? 10) = true /\
  exists r,
    analyze_gas_mixer 2 10 0 2 "2024-01-01T00:00:00" = Return r /\
    (0 <=? total_flow (metrics r)) = true /\
    (total_flow (metrics r) <=? 30) = true /\
    (0 <=? fio2 (metrics r)) = true /\
    (fio2 (metrics r) <=? 100) = true.
Proof.
  repeat (split; [reflexivity|]).
  apply (slider_range_metrics 2 10 0 2); reflexivity.
Defined.

(** X7: oxygen alone, at any positive finite flow, gives an FiO2 of exactly
    100: the result is PASS without alert, its metrics are 100 and the
    oxygen flow. *)
Theorem oxygen_alone (o2 agent : float) (now : string) :
  (0 <? o2) = true -> (o2 <? infinity) = true ->
  exists r,
    analyze_gas_mixer o2 0 0 agent now = Return r /\
    fio2 (metrics r) = 100 /\ total_flow (metrics r) = o2 /\
    status r = PASS /\ alerts r = [].
Proof.
  intros Hpos Hfin.
  assert (Et : o2 + 0 + 0 = o2) by (rewrite !(add_zero_r o2 Hpos); reflexivity).
  assert (Ef : fio2_formula o2 0 0 = 100).
  { unfold fio2_formula. rewrite Et.
    change (0 * 0.21) with 0. rewrite (add_zero_r o2 Hpos).
    rewrite (div_self o2 Hpos Hfin). reflexivity. }
  assert (E0 : (o2 + 0 + 0 =? 0) = false).
  { rewrite Et. apply ltb_true_eqb_false. exact Hpos. }
  rewrite (analyze_flow _ _ _ _ _ E0). cbv zeta. rewrite Ef, Et.
  eexists. split; [reflexivity|].
  cbn [metrics fio2 total_flow status alerts].
  rewrite run_checks_findings. cbn [f_status f_alerts].
  repeat split.
Qed.

Lemma oxygen_alone_witness :
  (0 <? 0.7) = true /\ (0.7 <? infinity) = true /\
  exists r,
    analyze_gas_mixer 0.7 0 0 2 "2024-01-01T00:00:00" = Return r /\
    fio2 (metrics r) = 100 /\ total_flow (metrics r) = 0.7 /\
    status r = PASS /\ alerts r = [].
Proof.
  split; [reflexivity|]. split; [reflexivity|].
  apply (oxygen_alone 0.7 2); reflexivity.
Defined.

(** X8: nitrous oxide alone, at any positive flow, gives an FiO2 of exactly
    0: the result is FAIL and CRITICAL with the alert showing 0.0. *)
Theorem nitrous_oxide_alone (n2o agent : float) (now : string) :
  (0 <? n2o) = true ->
  analyze_gas_mixer 0 n2o 0 agent now =
  Return {| status := FAIL;
            category := CRITICAL;
            metrics := {| fio2 := 0; total_flow := n2o |};
            alerts := ["Hypoxic mixture detected: FiO₂ = 0.0% (< 25%)."%string];
            warnings :=
              (if n2o <? 0.5 then [low_flow_warning] else []) ++
              (if 8 <? agent then [high_agent_warning agent] else []);
            timestamp := now |}.
Proof.
  intros Hpos.
  assert (Et : 0 + n2o + 0 = n2o).
  { rewrite (add_zero_l n2o Hpos). apply add_zero_r. exact Hpos. }
  assert (Ef : fio2_formula 0 n2o 0 = 0).
  { unfold fio2_formula. rewrite Et.
    change (0 + 0 * 0.21) with 0. rewrite (div_zero_l n2o Hpos). reflexivity. }
  assert (E0 : (0 + n2o + 0 =? 0) = false).
  { rewrite Et. apply ltb_true_eqb_false. exact Hpos. }
  rewrite (analyze_flow _ _ _ _ _ E0). cbv zeta. rewrite Ef, Et.
  rewrite run_checks_findings. cbn [f_status f_alerts f_category f_warnings].
  change (0 <? 25) with true. cbv iota.
  f_equal. f_equal.
  destruct (n2o <? 0.5), (8 <? agent); reflexivity.
Qed.

Lemma nitrous_oxide_alone_witness :
  (0 <? 3) = true /\
  analyze_gas_mixer 0 3 0 2 "2024-01-01T00:00:00" =
  Return {| status := FAIL;
            category := CRITICAL;
            metrics := {| fio2 := 0; total_flow := 3 |};
            alerts := ["Hypoxic mixture detected: FiO₂ = 0.0% (< 25%)."%string];
            warnings := [];
            timestamp := "2024-01-01T00:00:00" |}.
Proof.
  split; [reflexivity|].
  rewrite (nitrous_oxide_alone 3 2 "2024-01-01T00:00:00" eq_refl).
  reflexivity.
Defined.

(** X9: the dashboard shows exactly the findings of the merged result: one
    error line per alert and one warning line per warning (analyzer and
    clinical), in order, after the status banner; the banner is red
    exactly when an error line is shown, that is when the status is
    FAIL. *)
Theorem dashboard_shows_findings (w : Widgets) (now : string) :
  exists r trace rest,
    main_analysis (w_flow_o2 w) (w_flow_n2o w) (w_flow_air w) (w_agent w)
      {| age := w_age w; weight := w_weight w;
         compliance := w_compliance w; asa := w_asa w |} now = Return r /\
    main w now = Return trace /\
    trace = (page_and_sidebar ++ status_banner r ++ rest)%list /\
    filter is_error_call trace =
      map (fun alert => St_error ("🛑 " ++ alert)) (alerts r) /\
    filter is_warning_call trace =
      map (fun warn => St_warning ("⚠ " ++ warn)) (warnings r) /\
    (status_color r = "red" <-> filter is_error_call trace <> []) /\
    (status_color r = "red" <-> status r = FAIL).
Proof.
  destruct (main_trace w now) as (r0 & Hr0 & Hr & Ht). cbv zeta in Hr, Ht.
  eexists. eexists. eexists.
  split; [exact Hr|]. split; [exact Ht|]. split; [reflexivity|].
  rewrite trace_errors, trace_warnings.
  split; [reflexivity|]. split; [reflexivity|].
  destruct (color_red_iff _ _ _ _ _ r0
              (clinical_adjustment (fio2 (metrics r0)) (w_agent w)
                 {| age := w_age w; weight := w_weight w;
                    compliance := w_compliance w; asa := w_asa w |}) Hr0)
    as (Ha & Hs & _).
  split; [|exact Hs].
  rewrite Ha. cbn [alerts extend_warnings].
  destruct (alerts r0); cbn [map]; split; intros H; try discriminate;
    try (destruct (H eq_refl)).
Qed.

(** X10: the message "System operating within safe clinical limits." is shown
    exactly when the page has no error line and no warning line; it is
    shown at most once, and only under a green banner reading PASS
    (SAFE). *)
Theorem success_message_shown (w : Widgets) (now : string) :
  exists r trace,
    main_analysis (w_flow_o2 w) (w_flow_n2o w) (w_flow_air w) (w_agent w)
      {| age := w_age w; weight := w_weight w;
         compliance := w_compliance w; asa := w_asa w |} now = Return r /\
    main w now = Return trace /\
    (In (St_success success_text) trace <->
     filter is_error_call trace = [] /\ filter is_warning_call trace = []) /\
    (List.length (filter is_success_call trace) <= 1)%nat /\
    (In (St_success success_text) trace ->
     status_color r = "green" /\ status r = PASS /\ category r = SAFE).
Proof.
  destruct (main_trace w now) as (r0 & Hr0 & Hr & Ht). cbv zeta in Hr, Ht.
  set (p := {| age := w_age w; weight := w_weight w;
               compliance := w_compliance w; asa := w_asa w |}) in *.
  set (r := extend_warnings r0
              (clinical_adjustment (fio2 (metrics r0)) (w_agent w) p)) in *.
  exists r. eexists. split; [exact Hr|]. split; [exact Ht|].
  set (trace := (page_and_sidebar ++ _)%list).
  assert (Hin : In (St_success success_text) trace <->
                alerts r = [] /\ warnings r = []).
  { assert (Hs : is_success_call (St_success success_text) = true)
      by reflexivity.
    split.
    - intros H.
      assert (H' : In (St_success success_text)
                      (filter is_success_call trace))
        by (apply filter_In; split; [exact H|exact Hs]).
      unfold trace in H'. rewrite trace_success in H'.
      destruct (alerts r), (warnings r); cbn in H'; try destruct H';
        split; reflexivity.
    - intros [Ha Hw].
      apply (proj1 (filter_In is_success_call _ trace)).
      unfold trace. rewrite trace_success, Ha, Hw. left. reflexivity. }
  split; [|split].
  - rewrite Hin. unfold trace. rewrite trace_errors, trace_warnings.
    destruct (alerts r), (warnings r); cbn [map]; split; intros [H1 H2];
      try discriminate; split; reflexivity.
  - unfold trace. rewrite trace_success.
    destruct (is_empty (alerts r) && is_empty (warnings r)); cbn; lia.
  - rewrite Hin. intros [Ha Hw].
    unfold r in Ha, Hw. cbn [alerts warnings extend_warnings] in Ha, Hw.
    apply app_eq_nil in Hw. destruct Hw as [Hw _].
    pose proof (proj2 (analyzer_safe_iff _ _ _ _ _ r0 Hr0) (conj Ha Hw)) as Hc.
    destruct (color_red_iff _ _ _ _ _ r0
                (clinical_adjustment (fio2 (metrics r0)) (w_agent w) p) Hr0)
      as (_ & Hs & Hg).
    fold r in Hs, Hg.
    split; [apply Hg; exact Hc|].
    split; [|exact Hc].
    destruct (status r) eqn:Es; [reflexivity|].
    assert (Hred : status_color r = "red") by (apply Hs; exact Es).
    rewrite (proj2 Hg Hc) in Hred. discriminate Hred.
Qed.

(** X11: for a patient the clinical rules do not single out (age 1 to 65, ASA
    below 3, weight at least 50, compliance at least 30), the dashboard
    shows the success message exactly when the analyzer's category is
    SAFE. *)
Theorem low_risk_success (w : Widgets) (now : string) :
  low_risk {| age := w_age w; weight := w_weight w;
              compliance := w_compliance w; asa := w_asa w |} ->
  exists r0 trace,
    analyze_gas_mixer (w_flow_o2 w) (w_flow_n2o w) (w_flow_air w) (w_agent w)
      now = Return r0 /\
    main w now = Return trace /\
    (In (St_success success_text) trace <-> category r0 = SAFE).
Proof.
  intros Hlow.
  destruct (main_trace w now) as (r0 & Hr0 & Hr & Ht). cbv zeta in Hr, Ht.
  set (p := {| age := w_age w; weight := w_weight w;
               compliance := w_compliance w; asa := w_asa w |}) in *.
  exists r0. eexists. split; [exact Hr0|]. split; [exact Ht|].
  set (r := extend_warnings r0 _) in *.
  set (trace := (page_and_sidebar ++ _)%list).
  assert (Hs : is_success_call (St_success success_text) = true)
    by reflexivity.
  pose proof (analyzer_safe_iff _ _ _ _ _ r0 Hr0) as Hsafe.
  split.
  - intros H.
    assert (H' : In (St_success success_text) (filter is_success_call trace))
      by (apply filter_In; split; [exact H|exact Hs]).
    unfold trace in H'. rewrite trace_success in H'.
    apply Hsafe. unfold r in H'. cbn [alerts warnings extend_warnings] in H'.
    destruct (alerts r0); [|destruct H'].
    destruct (warnings r0); [|destruct H'].
    split; reflexivity.
  - intros Hc.
    apply (proj1 (filter_In is_success_call _ trace)).
    unfold trace. rewrite trace_success.
    destruct (proj1 Hsafe Hc) as [Ha Hw].
    unfold r. cbn [alerts warnings extend_warnings].
    rewrite Ha, Hw, (low_risk_adjustment _ _ p Hlow).
    rewrite (analyzer_safe_not_hypoxic _ _ _ _ _ r0 Hr0 Hc).
    left. reflexivity.
Qed.

Lemma low_risk_success_witness :
  low_risk {| age := 30; weight := 70; compliance := 50; asa := 1 |} /\
  exists trace,
    main {| w_flow_o2 := 2; w_flow_n2o := 2; w_flow_air := 0; w_agent := 2;
            w_age := 30; w_weight := 70; w_compliance := 50; w_asa := 1 |}
      "2024-01-01T00:00:00" = Return trace /\
    In (St_success success_text) trace.
Proof.
  assert (L : low_risk {| age := 30; weight := 70; compliance := 50; asa := 1 |})
    by (unfold low_risk; cbn; lia).
  split; [exact L|].
  destruct (low_risk_success
              {| w_flow_o2 := 2; w_flow_n2o := 2; w_flow_air := 0;
                 w_agent := 2; w_age := 30; w_weight := 70;
                 w_compliance := 50; w_asa := 1 |}
              "2024-01-01T00:00:00" L) as (r0 & trace & Hr0 & Ht & Hiff).
  exists trace. split; [exact Ht|].
  apply Hiff. cbn in Hr0. injection Hr0 as <-. reflexivity.
Defined.

(** X12: with every widget within its bounds, the metrics the dashboard
    displays are the three of the metrics row, and the first two show the
    FiO2 and the total flow of the result to one decimal place: digits, a
    point and one digit that read as the nearest number of tenths, never
    inf or nan. *)
Theorem displayed_metrics_are_decimal (w : Widgets) (now : string) :
  widgets_in_range w ->
  exists r trace fio2_text flow_text agent_text,
    main_analysis (w_flow_o2 w) (w_flow_n2o w) (w_flow_air w) (w_agent w)
      {| age := w_age w; weight := w_weight w;
         compliance := w_compliance w; asa := w_asa w |} now = Return r /\
    main w now = Return trace /\
    filter is_metric_call trace =
      [St_metric 0 "FiO₂ (%)" fio2_text;
       St_metric 1 "Total Flow (L/min)" flow_text;
       St_metric 2 "Agent (%)" agent_text] /\
    shows_to_one_decimal (fio2 (metrics r)) fio2_text /\
    shows_to_one_decimal (total_flow (metrics r)) flow_text.
Proof.
  intros (Ho & Ho' & Hn & Hn' & Ha & Ha' & _).
  destruct (main_trace w now) as (r0 & Hr0 & Hr & Ht). cbv zeta in Hr, Ht.
  destruct (slider_range_bounds _ _ _ Ho Ho' Hn Hn' Ha Ha')
    as (H0 & H30 & Hf).
  assert (Hfin : is_finite (fio2 (metrics r0)) = true /\
                 is_finite (total_flow (metrics r0)) = true).
  { destruct (analyze_cases (w_flow_o2 w) (w_flow_n2o w) (w_flow_air w)
                (w_agent w) now) as [[E H]|[E H]];
      rewrite H in Hr0; injection Hr0 as <-; cbn [metrics fio2 total_flow].
    - split; reflexivity.
    - destruct (Hf E) as [Hf0 Hf100].
      split; [apply range_is_finite|apply range_30_is_finite]; assumption. }
  destruct Hfin as [Hff Hft].
  eexists. eexists. eexists. eexists. eexists.
  split; [exact Hr|]. split; [exact Ht|].
  rewrite trace_metrics. unfold metrics_row. cbn [filter is_metric_call].
  split; [reflexivity|].
  cbn [metrics extend_warnings].
  split; apply format_1f_shows; assumption.
Qed.

Lemma displayed_metrics_are_decimal_witness :
  widgets_in_range
    {| w_flow_o2 := 0.3; w_flow_n2o := 2; w_flow_air := 0; w_agent := 2;
       w_age := 30; w_weight := 70; w_compliance := 50; w_asa := 1 |} /\
  exists r trace,
    main_analysis 0.3 2 0 2
      {| age := 30; weight := 70; compliance := 50; asa := 1 |}
      "2024-01-01T00:00:00" = Return r /\
    main {| w_flow_o2 := 0.3; w_flow_n2o := 2; w_flow_air := 0; w_agent := 2;
            w_age := 30; w_weight := 70; w_compliance := 50; w_asa := 1 |}
      "2024-01-01T00:00:00" = Return trace /\
    filter is_metric_call trace =
      [St_metric 0 "FiO₂ (%)" "13.0";
       St_metric 1 "Total Flow (L/min)" "2.3";
       St_metric 2 "Agent (%)" "2.0"] /\
    shows_to_one_decimal (fio2 (metrics r)) "13.0" /\
    shows_to_one_decimal (total_flow (metrics r)) "2.3".
Proof.
  assert (R : widgets_in_range
    {| w_flow_o2 := 0.3; w_flow_n2o := 2; w_flow_air := 0; w_agent := 2;
       w_age := 30; w_weight := 70; w_compliance := 50; w_asa := 1 |}).
  { unfold widgets_in_range. cbn.
    repeat (split; [reflexivity || lia|]). left. reflexivity. }
  split; [exact R|].
  destruct (displayed_metrics_are_decimal _ "2024-01-01T00:00:00" R)
    as (r & trace & ft & tt & at' & Hr & Ht & Hm & Hsf & Hst).
  exists r, trace. split; [exact Hr|]. split; [exact Ht|].
  vm_compute in Ht. injection Ht as <-.
  vm_compute in Hm. injection Hm as <- <- <-.
  split; [reflexivity|]. split; assumption.
Defined.
